(** * Ebinhauzer_bot: the repetition scheduling engine

    A shallow embedding of [app/utils/ebbinghaus.py] (the stage table, the
    due-time calculator and the failure resolver), of
    [app/services/schedule_service.py] (the operations on the schedule
    store) and of the two functions of [app/services/material_service.py]
    they call, together with the properties of the engine proved about
    them.

    Conventions of the embedding.
    - A Python [int] is a [Z]; a [date] is its proleptic Gregorian ordinal
      ([date.toordinal()]), so [d + timedelta(days=n)] is [d + n].  The
      [MINYEAR]/[MAXYEAR] limits of [datetime] are not modelled.
    - A [datetime] is its ordinal date, its four time-of-day fields and its
      optional [tzinfo]; [fold] is not modelled.
    - What the code takes from outside the repository (the zone databases of
      [zoneinfo] and [pytz], the clock, the settings) is the class
      [Platform]; every definition and theorem is generic in it.
    - A service method is a computation on a [World]: the database as the
      session sees it, the database as committed, the list of all committed
      states and the number of clock readings.  It returns a value or
      raises.
    - The columns [DateTime] of [app/database/models.py] hold no time zone.
      What the driver does with an aware [datetime] bound to such a column
      is part of [Platform]: asyncpg, the driver [database/connection.py]
      configures, refuses it, and the flush that sends the row raises. *)

From stdpp Require Import base numbers option list gmap strings sorting.

Local Open Scope string_scope.
Local Open Scope list_scope.
Local Open Scope Z_scope.

(** ** Dates and times *)

(** [tzinfo] objects.  The code distinguishes the two libraries with
    [isinstance(tz, ZoneInfo)]. *)
Inductive tzinfo : Type :=
  | ZoneInfo (key : string)
  | PytzInfo (zone : string).

#[global] Instance tzinfo_eq_dec : EqDecision tzinfo.
Proof. solve_decision. Defined.

Record datetime : Type := Datetime {
  ordinal : Z;            (* the date, as [toordinal()] *)
  hour : Z;
  minute : Z;
  second : Z;
  microsecond : Z;
  tzinfo_of : option tzinfo
}.

#[global] Instance datetime_eq_dec : EqDecision datetime.
Proof. solve_decision. Defined.

(** Exceptions the modelled code can raise. *)
Inductive exn : Type :=
  | UnknownTimeZoneError
  | MultipleResultsFound
  | DBAPIError.

Inductive outcome (A : Type) : Type :=
  | Return (a : A)
  | Raise (e : exn).
Arguments Return {A} a.
Arguments Raise {A} e.

(** The collaborators of the engine that live outside the repository. *)
Class Platform : Type := {
  (** [ZoneInfo(name)] succeeds *)
  zoneinfo_has : string -> bool;
  (** [pytz.timezone(name)] succeeds *)
  pytz_has : string -> bool;
  (** the wall-clock fields of [dt.astimezone(tz)] for an aware [dt] whose
      zone is another one than [tz]: source zone, target zone, datetime *)
  tz_shift : tzinfo -> tzinfo -> datetime -> datetime;
  (** the reading of the n-th call of [datetime.utcnow()] *)
  utcnow_at : nat -> datetime;
  (** the reading of [date.today()] at the n-th reading of the clock *)
  today_at : nat -> Z;
  (** [settings.default_timezone] *)
  default_timezone : string;
  (** an aware [datetime] bound to a [DateTime] column: [None] when the
      driver refuses it, as asyncpg does, else the value the column then
      holds (the driver of SQLite keeps the fields and drops the zone) *)
  bind_aware : datetime -> option datetime
}.

(** [date(y, m, d).toordinal()], to write dates down readably. *)
Definition is_leap (y : Z) : bool :=
  (y mod 4 =? 0) && ((negb (y mod 100 =? 0)) || (y mod 400 =? 0)).

Definition days_before_year (y : Z) : Z :=
  let y1 := y - 1 in y1 * 365 + y1 / 4 - y1 / 100 + y1 / 400.

Definition days_in_month (y m : Z) : Z :=
  if m =? 2 then (if is_leap y then 29 else 28)
  else if (m =? 4) || (m =? 6) || (m =? 9) || (m =? 11) then 30 else 31.

Definition days_before_month (y m : Z) : Z :=
  foldr (fun k acc => days_in_month y k + acc) 0
        (map Z.of_nat (seq 1 (Z.to_nat (m - 1)))).

Definition ymd (y m d : Z) : Z :=
  days_before_year y + days_before_month y m + d.

(** [dt.date()] *)
Definition date (dt : datetime) : Z := ordinal dt.

(** [datetime.combine(d, time(h, m))]: naive *)
Definition combine (d : Z) (h m : Z) : datetime :=
  Datetime d h m 0 0 None.

(** [dt.replace(tzinfo=tz)] and, in the model, [tz.localize(dt)] of pytz:
    the fields are kept and the zone attached. *)
Definition replace_tzinfo (dt : datetime) (tz : option tzinfo) : datetime :=
  Datetime (ordinal dt) (hour dt) (minute dt) (second dt) (microsecond dt) tz.

(** [dt.replace(hour=h, minute=0, second=0, microsecond=0)] *)
Definition replace_time (dt : datetime) (h : Z) : datetime :=
  Datetime (ordinal dt) h 0 0 0 (tzinfo_of dt).

(** [dt + timedelta(days=days, minutes=minutes)]: arithmetic on the wall
    clock, normalised with divmod as [datetime.__add__] does. *)
Definition add_timedelta (dt : datetime) (days minutes : Z) : datetime :=
  let secs := hour dt * 3600 + minute dt * 60 + second dt + minutes * 60 in
  let rem := secs mod 86400 in
  Datetime (ordinal dt + days + secs / 86400)
           (rem / 3600) ((rem mod 3600) / 60) ((rem mod 3600) mod 60)
           (microsecond dt) (tzinfo_of dt).

(** [a <= b] for two datetimes that carry the same [tzinfo]: the zone is
    ignored and the fields are compared in order. *)
Definition datetime_key (dt : datetime) : list Z :=
  [ordinal dt; hour dt; minute dt; second dt; microsecond dt].

Fixpoint lex_leb (a b : list Z) : bool :=
  match a, b with
  | x :: a', y :: b' => (x <? y) || ((x =? y) && lex_leb a' b')
  | [], _ => true
  | _ :: _, [] => false
  end.

Definition datetime_leb (a b : datetime) : bool :=
  lex_leb (datetime_key a) (datetime_key b).


(** ** The rows of [app/database/models.py]

    Each table is keyed by its primary key; the columns kept are the ones
    the engine reads or writes. *)

Module User.
Record t : Type := mk {
  timezone : string
}.
End User.

Module StudyMaterial.
Record t : Type := mk {
  user_id : Z;
  created_at : datetime;
  current_stage : Z;
  last_success_at : option datetime
}.
End StudyMaterial.

Module RepetitionSchedule.
Record t : Type := mk {
  material_id : Z;
  user_id : Z;
  scheduled_date : Z;
  repetition_type : string;
  interval_days : Z;
  current_stage : Z;
  is_completed : bool;
  completed_at : option datetime;
  created_at : datetime;
  scheduled_datetime : option datetime
}.
End RepetitionSchedule.

Module RepetitionResult.
Record t : Type := mk {
  schedule_id : Z;
  user_id : Z;
  material_id : Z;
  was_successful : bool;
  completed_at : datetime
}.
End RepetitionResult.

Module UserStatistics.
Record t : Type := mk {
  user_id : Z;
  date : Z;
  successful_repetitions : Z;
  failed_repetitions : Z;
  total_materials_added : Z;
  updated_at : datetime
}.
End UserStatistics.

(** A schedule row together with its primary key: what a query yields. *)
Abbreviation entry := (Z * RepetitionSchedule.t)%type.

(** The database.  [repetition_schedule_seq] is the next value of the id
    sequence of [repetition_schedule]; the ids of the two other tables the
    engine writes are never read, so they are lists of rows. *)
Record DB : Type := mkDB {
  users : gmap Z User.t;
  study_materials : gmap Z StudyMaterial.t;
  repetition_schedule : gmap Z RepetitionSchedule.t;
  repetition_schedule_seq : Z;
  repetition_results : list RepetitionResult.t;
  user_statistics : list UserStatistics.t
}.

(** The session of a [ScheduleService]: [session] is the database as the
    session sees it (its flushed, uncommitted changes included),
    [persisted] the last committed state, [commits] every committed state,
    newest first, and [clock] the number of clock readings so far. *)
Record World : Type := mkWorld {
  session : DB;
  persisted : DB;
  commits : list DB;
  clock : nat
}.

(** Computations on a world that return or raise. *)
Definition M (A : Type) : Type := World -> outcome A * World.

#[global] Instance M_ret : MRet M := fun A a w => (Return a, w).

#[global] Instance M_bind : MBind M := fun A B f m w =>
  match m w with
  | (Return a, w') => f a w'
  | (Raise e, w') => (Raise e, w')
  end.

Definition raise {A : Type} (e : exn) : M A := fun w => (Raise e, w).

(** An outcome of a pure function, inside a computation. *)
Definition lift {A : Type} (o : outcome A) : M A := fun w => (o, w).

Definition get_session : M DB := fun w => (Return (session w), w).

Definition put_session (d : DB) : M unit := fun w =>
  (Return tt, mkWorld d (persisted w) (commits w) (clock w)).

(** [await self.db.commit()] *)
Definition commit : M unit := fun w =>
  (Return tt, mkWorld (session w) (session w) (session w :: commits w) (clock w)).

(** [for x in l: s = body(s, x)] *)
Fixpoint for_loop {A S : Type} (l : list A) (s : S) (body : S -> A -> M S)
    : M S :=
  match l with
  | [] => mret s
  | x :: l' => s' ← body s x; for_loop l' s' body
  end.

(** [result.scalar_one_or_none()] *)
Definition scalar_one_or_none {A : Type} (rows : list A) : M (option A) :=
  match rows with
  | [] => mret None
  | [x] => mret (Some x)
  | _ => raise MultipleResultsFound
  end.

(** Writing one table of the database. *)
Definition with_study_materials (d : DB) (t : gmap Z StudyMaterial.t) : DB :=
  mkDB (users d) t (repetition_schedule d) (repetition_schedule_seq d)
       (repetition_results d) (user_statistics d).

Definition with_repetition_schedule (d : DB)
    (t : gmap Z RepetitionSchedule.t) (next : Z) : DB :=
  mkDB (users d) (study_materials d) t next
       (repetition_results d) (user_statistics d).

Definition with_repetition_results (d : DB) (t : list RepetitionResult.t)
    : DB :=
  mkDB (users d) (study_materials d) (repetition_schedule d)
       (repetition_schedule_seq d) t (user_statistics d).

Definition with_user_statistics (d : DB) (t : list UserStatistics.t) : DB :=
  mkDB (users d) (study_materials d) (repetition_schedule d)
       (repetition_schedule_seq d) (repetition_results d) t.

(** The kinds of [repetition_type] the queries name. *)
Definition intraday_types : list string :=
  ["immediate"; "short_term"; "evening"].

Definition long_term_types : list string :=
  ["day_1"; "day_3"; "day_7"; "day_14"; "day_30"; "monthly"].

(** The [order_by] key of [get_due_repetitions]. *)
Definition due_order_key (e : entry) : list Z :=
  [RepetitionSchedule.scheduled_date e.2;
   RepetitionSchedule.current_stage e.2]
  ++ datetime_key (RepetitionSchedule.created_at e.2).

Definition due_order (a b : entry) : Prop :=
  lex_leb (due_order_key a) (due_order_key b) = true.

#[global] Instance due_order_dec (a b : entry) : Decision (due_order a b).
Proof. unfold due_order. apply _. Defined.

Section WithPlatform.
Context `{Platform}.

(** [dt.astimezone(tz)]: an aware datetime is unchanged when it is in [tz]
    already and converted otherwise.  For pytz the model identifies the
    [tzinfo] that [localize] attaches with the zone itself.  The code calls
    [astimezone] on aware datetimes only; the last case is not reached. *)
Definition astimezone (dt : datetime) (tz : tzinfo) : datetime :=
  match tzinfo_of dt with
  | Some src =>
      if decide (src = tz) then dt
      else replace_tzinfo (tz_shift src tz dt) (Some tz)
  | None => replace_tzinfo dt (Some tz)
  end.

(** The code's

      try: tz = ZoneInfo(timezone_name)
      except Exception: tz = pytz.timezone(timezone_name)  *)
Definition get_tz (timezone_name : string) : outcome tzinfo :=
  if zoneinfo_has timezone_name then Return (ZoneInfo timezone_name)
  else if pytz_has timezone_name then Return (PytzInfo timezone_name)
  else Raise UnknownTimeZoneError.

(** The code's

      if isinstance(tz, ZoneInfo): dt = dt.replace(tzinfo=tz)
      else: dt = tz.localize(dt)  *)
Definition attach (tz : tzinfo) (dt : datetime) : datetime :=
  match tz with
  | ZoneInfo _ => replace_tzinfo dt (Some tz)
  | PytzInfo _ => replace_tzinfo dt (Some tz)
  end.

(** The code's

      if dt.tzinfo is None: (attach) else: dt = dt.astimezone(tz)  *)
Definition localized (tz : tzinfo) (dt : datetime) : datetime :=
  match tzinfo_of dt with
  | None => attach tz dt
  | Some _ => astimezone dt tz
  end.

(** The code's

      next_date = dt.date() + timedelta(days=n)
      next_due_at = datetime.combine(next_date, time(7, 0))
      (attach tz)  *)
Definition morning_after (tz : tzinfo) (dt : datetime) (n : Z) : datetime :=
  attach tz (combine (date dt + n) 7 0).

(** ** [app/utils/ebbinghaus.py] *)

Definition calculate_next_repetition
    (created_at : datetime) (current_stage : Z) (timezone_name : string)
    (last_success_at : option datetime) : outcome (datetime * Z) :=
  match get_tz timezone_name with
  | Raise e => Raise e
  | Return tz =>
    let created_at := localized tz created_at in
    let next_stage := current_stage + 1 in
    if current_stage =? 0 then
      let next_due_at := add_timedelta created_at 0 20 in
      Return (next_due_at, 1)
    else if current_stage =? 1 then
      let next_due_at := replace_time created_at 20 in
      let next_due_at :=
        if datetime_leb next_due_at created_at
        then add_timedelta next_due_at 1 0 else next_due_at in
      Return (next_due_at, 2)
    else if current_stage =? 2 then Return (morning_after tz created_at 1, 3)
    else if current_stage =? 3 then Return (morning_after tz created_at 3, 4)
    else if current_stage =? 4 then Return (morning_after tz created_at 7, 5)
    else if current_stage =? 5 then Return (morning_after tz created_at 14, 6)
    else if current_stage =? 6 then Return (morning_after tz created_at 30, 7)
    else
      let base_date :=
        match last_success_at with
        | Some l => l
        | None => created_at
        end in
      let base_date := localized tz base_date in
      Return (morning_after tz base_date 30, 8)
  end.

Definition calculate_failed_repetition
    (failed_at : datetime) (current_stage : Z) (timezone_name : string)
    : outcome (datetime * Z) :=
  match get_tz timezone_name with
  | Raise e => Raise e
  | Return tz =>
    let failed_at := localized tz failed_at in
    let new_stage := Z.max 0 (current_stage - 1) in
    Return (morning_after tz failed_at 1, new_stage)
  end.

(** The two dictionaries of the stage table. *)
Definition stage_names : gmap Z string :=
  list_to_map
    [(0, "immediate"); (1, "short_term"); (2, "evening"); (3, "day_1");
     (4, "day_3"); (5, "day_7"); (6, "day_14"); (7, "day_30");
     (8, "monthly")].

Definition get_stage_name (stage : Z) : string :=
  if 8 <=? stage then "monthly"
  else default "unknown" (stage_names !! stage).

Definition descriptions : gmap Z string :=
  list_to_map
    [(0, "Сразу"); (1, "Через 20 минут"); (2, "Вечером в 20:00");
     (3, "Завтра в 07:00"); (4, "Через 3 дня в 07:00");
     (5, "Через 7 дней в 07:00"); (6, "Через 14 дней в 07:00");
     (7, "Через 30 дней в 07:00"); (8, "Раз в месяц в 07:00")].

Definition get_stage_description (stage : Z) : string :=
  if 8 <=? stage then "Раз в месяц в 07:00"
  else default "Неизвестная стадия" (descriptions !! stage).

(** ** The session and the clock *)

(** [datetime.utcnow()] *)
Definition utcnow : M datetime := fun w =>
  (Return (utcnow_at (clock w)),
   mkWorld (session w) (persisted w) (commits w) (S (clock w))).

(** [date.today()] *)
Definition date_today : M Z := fun w =>
  (Return (today_at (clock w)),
   mkWorld (session w) (persisted w) (commits w) (S (clock w))).

(** A failed flush: the transaction is rolled back, so that the session
    sees the committed state again.  The id sequence goes back with the
    tables: the model draws the id of a row when the row is added, and a
    row the driver refuses is not sent. *)
Definition rollback : M unit := fun w =>
  (Return tt, mkWorld (persisted w) (persisted w) (commits w) (clock w)).

(** A [datetime] bound to a [DateTime] column: a naive one is held as it
    is. *)
Definition bind_datetime (dt : datetime) : option datetime :=
  match tzinfo_of dt with
  | None => Some dt
  | Some _ => bind_aware dt
  end.

(** A schedule row as the table holds it.  [scheduled_datetime] is the
    column that receives instants of the calculators; the other [DateTime]
    columns receive readings of [datetime.utcnow()], which carry no
    zone. *)
Definition stored_schedule (r : RepetitionSchedule.t)
    : option RepetitionSchedule.t :=
  match RepetitionSchedule.scheduled_datetime r with
  | None => Some r
  | Some dt =>
      match bind_datetime dt with
      | None => None
      | Some dt' =>
          Some (RepetitionSchedule.mk
                  (RepetitionSchedule.material_id r)
                  (RepetitionSchedule.user_id r)
                  (RepetitionSchedule.scheduled_date r)
                  (RepetitionSchedule.repetition_type r)
                  (RepetitionSchedule.interval_days r)
                  (RepetitionSchedule.current_stage r)
                  (RepetitionSchedule.is_completed r)
                  (RepetitionSchedule.completed_at r)
                  (RepetitionSchedule.created_at r)
                  (Some dt'))
      end
  end.

(** [self.db.add(row)] for a new schedule row, with the flush that sends
    it: the row gets the next id of the sequence and is held as the table
    holds it, which is also what [self.db.refresh(row)] reloads.  When the
    driver refuses the row, the flush raises and the transaction is rolled
    back.  The flush comes with the next statement or commit of the code;
    what the code does between [add] and that flush, an assignment to a
    loaded row or a reading of the clock, is undone by the rollback or has
    no effect on the database, and the model fails where the row is
    added. *)
Definition add_schedule (r : RepetitionSchedule.t) : M entry :=
  match stored_schedule r with
  | None => rollback;; raise DBAPIError
  | Some r' =>
      d ← get_session;
      let id := repetition_schedule_seq d in
      put_session
        (with_repetition_schedule d (<[id := r']> (repetition_schedule d))
           (id + 1));;
      mret (id, r')
  end.

(** Assigning to the attributes of a loaded schedule row. *)
Definition update_schedule (id : Z) (r : RepetitionSchedule.t) : M unit :=
  d ← get_session;
  put_session
    (with_repetition_schedule d (<[id := r]> (repetition_schedule d))
       (repetition_schedule_seq d)).

(** Assigning to the attributes of a loaded material. *)
Definition update_material (id : Z) (m : StudyMaterial.t) : M unit :=
  d ← get_session;
  put_session (with_study_materials d (<[id := m]> (study_materials d))).

(** [self.db.add(result_record)] *)
Definition add_result (r : RepetitionResult.t) : M unit :=
  d ← get_session;
  put_session (with_repetition_results d (repetition_results d ++ [r])).

(** [user.timezone if user else settings.default_timezone], for the user
    selected by primary key. *)
Definition timezone_of_user (d : DB) (user_id : Z) : string :=
  match users d !! user_id with
  | Some user => User.timezone user
  | None => default_timezone
  end.

(** ** [app/services/material_service.py] *)

Definition get_material (material_id : Z) : M (option StudyMaterial.t) :=
  d ← get_session;
  mret (study_materials d !! material_id).

Definition stats_for (user_id today : Z) (s : UserStatistics.t) : bool :=
  (UserStatistics.user_id s =? user_id) && (UserStatistics.date s =? today).

Definition _update_user_statistics
    (user_id materials_added successful_repetitions failed_repetitions : Z)
    : M unit :=
  today ← date_today;
  d ← get_session;
  stats ← scalar_one_or_none
            (List.filter (stats_for user_id today) (user_statistics d));
  match stats with
  | None =>
      now ← utcnow;
      put_session
        (with_user_statistics d
           (user_statistics d ++
            [UserStatistics.mk user_id today successful_repetitions
               failed_repetitions materials_added now]))
  | Some _ =>
      now ← utcnow;
      put_session
        (with_user_statistics d
           (map (fun s =>
                   if stats_for user_id today s then
                     UserStatistics.mk
                       (UserStatistics.user_id s) (UserStatistics.date s)
                       (UserStatistics.successful_repetitions s
                        + successful_repetitions)
                       (UserStatistics.failed_repetitions s
                        + failed_repetitions)
                       (UserStatistics.total_materials_added s
                        + materials_added)
                       now
                   else s)
                (user_statistics d)))
  end;;
  commit.

(** ** [app/services/schedule_service.py] *)

Definition incomplete_for (user_id material_id : Z)
    (r : RepetitionSchedule.t) : bool :=
  (RepetitionSchedule.user_id r =? user_id)
  && (RepetitionSchedule.material_id r =? material_id)
  && negb (RepetitionSchedule.is_completed r).

Definition _delete_incomplete_repetitions (user_id material_id : Z)
    : M unit :=
  d ← get_session;
  put_session
    (with_repetition_schedule d
       (filter (fun kv : entry => incomplete_for user_id material_id kv.2 = false)
               (repetition_schedule d))
       (repetition_schedule_seq d)).

(** The three rows are built, with their readings of the clock, before
    any is added; the commit flushes them and [self.db.refresh(item)]
    reloads each, so that the rows returned are the rows as the table
    holds them. *)
Definition create_initial_repetitions
    (material_id user_id : Z) (material_created_at : datetime)
    (user_timezone : option string) : M (list entry) :=
  let timezone :=
    match user_timezone with
    | Some name => if decide (name = "") then default_timezone else name
    | None => default_timezone
    end in
  _delete_incomplete_repetitions user_id material_id;;
  '(next_due_at_0, next_stage_0) ←
    lift (calculate_next_repetition material_created_at 0 timezone None);
  now ← utcnow;
  let immediate :=
    RepetitionSchedule.mk material_id user_id (date material_created_at)
      "immediate" 0 0 false None now (Some material_created_at) in
  now ← utcnow;
  let short_term :=
    RepetitionSchedule.mk material_id user_id (date next_due_at_0)
      "short_term" 0 1 false None now (Some next_due_at_0) in
  '(next_due_at_1, next_stage_1) ←
    lift (calculate_next_repetition material_created_at 1 timezone None);
  now ← utcnow;
  let evening :=
    RepetitionSchedule.mk material_id user_id (date next_due_at_1)
      "evening" 0 2 false None now (Some next_due_at_1) in
  immediate ← add_schedule immediate;
  short_term ← add_schedule short_term;
  evening ← add_schedule evening;
  commit;;
  mret [immediate; short_term; evening].

Definition due_on (target_date : Z) (r : RepetitionSchedule.t) : bool :=
  negb (RepetitionSchedule.is_completed r)
  && ((bool_decide (RepetitionSchedule.repetition_type r ∈ intraday_types)
       && (RepetitionSchedule.scheduled_date r =? target_date))
      || (bool_decide (RepetitionSchedule.repetition_type r ∈ long_term_types)
          && (RepetitionSchedule.scheduled_date r <=? target_date))).

(** [if user_id: stmt = stmt.where(user_id == ...)]: [None] and [0] do not
    restrict the query. *)
Definition for_user (user_id : option Z) (r : RepetitionSchedule.t) : bool :=
  match user_id with
  | Some u => if u =? 0 then true else RepetitionSchedule.user_id r =? u
  | None => true
  end.

(** One step of the loop over [all_repetitions]. *)
Definition keep_unseen (acc : list entry * gset Z) (rep : entry)
    : list entry * gset Z :=
  let '(unique_repetitions, seen_materials) := acc in
  if decide (RepetitionSchedule.material_id rep.2 ∈ seen_materials)
  then (unique_repetitions, seen_materials)
  else (unique_repetitions ++ [rep],
        seen_materials ∪ {[RepetitionSchedule.material_id rep.2]}).

Definition get_due_repetitions (user_id : option Z) (target_date : option Z)
    : M (list entry) :=
  target_date ← match target_date with
                | None => date_today
                | Some d => mret d
                end;
  d ← get_session;
  let all_repetitions :=
    merge_sort due_order
      (List.filter (fun e : entry => due_on target_date e.2 && for_user user_id e.2)
                   (map_to_list (repetition_schedule d))) in
  mret (fold_left keep_unseen all_repetitions ([], ∅)).1.

Definition mark_completed (r : RepetitionSchedule.t) (now : datetime)
    : RepetitionSchedule.t :=
  RepetitionSchedule.mk
    (RepetitionSchedule.material_id r) (RepetitionSchedule.user_id r)
    (RepetitionSchedule.scheduled_date r) (RepetitionSchedule.repetition_type r)
    (RepetitionSchedule.interval_days r) (RepetitionSchedule.current_stage r)
    true (Some now)
    (RepetitionSchedule.created_at r) (RepetitionSchedule.scheduled_datetime r).

(** The new row is flushed by the query of [_update_user_statistics],
    before the statistics of the failure are written; the row is not
    reloaded and not returned. *)
Definition mark_failed (user_id material_id : Z) (failed_at : option datetime)
    : M bool :=
  failed_at ← match failed_at with
              | None => utcnow
              | Some t => mret t
              end;
  material ← get_material material_id;
  match material with
  | None => mret false
  | Some material =>
    d ← get_session;
    let timezone := timezone_of_user d user_id in
    '(next_due_at, new_stage) ←
      lift (calculate_failed_repetition failed_at
              (StudyMaterial.current_stage material) timezone);
    _delete_incomplete_repetitions user_id material_id;;
    now ← utcnow;
    let new_schedule :=
      RepetitionSchedule.mk material_id user_id (date next_due_at)
        (get_stage_name new_stage) 0 new_stage false None now
        (Some next_due_at) in
    _ ← add_schedule new_schedule;
    update_material material_id
      (StudyMaterial.mk (StudyMaterial.user_id material)
         (StudyMaterial.created_at material) new_stage
         (StudyMaterial.last_success_at material));;
    _update_user_statistics user_id 0 0 1;;
    commit;;
    mret true
  end.

(** The new row is flushed by the commit and reloaded by
    [self.db.refresh(next_schedule)]: the row returned is the row as the
    table holds it. *)
Definition _create_next_repetition_on_success (current_schedule : entry)
    : M (option entry) :=
  let cs := current_schedule.2 in
  material ← get_material (RepetitionSchedule.material_id cs);
  match material with
  | None => mret None
  | Some material =>
    d ← get_session;
    let timezone := timezone_of_user d (RepetitionSchedule.user_id cs) in
    let new_stage := RepetitionSchedule.current_stage cs + 1 in
    now ← utcnow;
    let material :=
      StudyMaterial.mk (StudyMaterial.user_id material)
        (StudyMaterial.created_at material) new_stage (Some now) in
    update_material (RepetitionSchedule.material_id cs) material;;
    '(next_due_at, next_stage) ←
      lift (calculate_next_repetition
              (StudyMaterial.created_at material)
              (RepetitionSchedule.current_stage cs)
              timezone
              (StudyMaterial.last_success_at material));
    let next_type := get_stage_name next_stage in
    _delete_incomplete_repetitions
      (RepetitionSchedule.user_id cs) (RepetitionSchedule.material_id cs);;
    now ← utcnow;
    let next_schedule :=
      RepetitionSchedule.mk
        (RepetitionSchedule.material_id cs) (RepetitionSchedule.user_id cs)
        (date next_due_at) next_type 0 next_stage false None now
        (Some next_due_at) in
    next_schedule ← add_schedule next_schedule;
    commit;;
    mret (Some next_schedule)
  end.

Definition _create_next_repetition_on_failure (current_schedule : entry)
    : M bool :=
  let cs := current_schedule.2 in
  mark_failed (RepetitionSchedule.user_id cs)
    (RepetitionSchedule.material_id cs)
    (RepetitionSchedule.completed_at cs).

(** The row [complete_repetition] selects: the one with this primary key,
    when it is the caller's and is not completed. *)
Definition select_incomplete (d : DB) (schedule_id user_id : Z)
    : option RepetitionSchedule.t :=
  match repetition_schedule d !! schedule_id with
  | Some r =>
      if (RepetitionSchedule.user_id r =? user_id)
         && negb (RepetitionSchedule.is_completed r)
      then Some r else None
  | None => None
  end.

Definition complete_repetition (schedule_id user_id : Z)
    (was_successful : bool) : M bool :=
  d ← get_session;
  match select_incomplete d schedule_id user_id with
  | None => mret false
  | Some schedule =>
    now ← utcnow;
    let schedule := mark_completed schedule now in
    update_schedule schedule_id schedule;;
    now ← utcnow;
    add_result
      (RepetitionResult.mk schedule_id user_id
         (RepetitionSchedule.material_id schedule) was_successful now);;
    (if was_successful
     then _update_user_statistics user_id 0 1 0
     else _update_user_statistics user_id 0 0 1);;
    commit;;
    (if was_successful
     then _create_next_repetition_on_success (schedule_id, schedule);; mret tt
     else _create_next_repetition_on_failure (schedule_id, schedule);; mret tt);;
    mret true
  end.

Definition expired_intraday (today : Z) (r : RepetitionSchedule.t) : bool :=
  (RepetitionSchedule.scheduled_date r <? today)
  && negb (RepetitionSchedule.is_completed r)
  && bool_decide (RepetitionSchedule.repetition_type r ∈ intraday_types).

(** The body of the loop over [expired_repetitions]. *)
Definition expire_one (count : Z) (repetition : entry) : M Z :=
  now ← utcnow;
  let r := mark_completed repetition.2 now in
  update_schedule repetition.1 r;;
  now ← utcnow;
  add_result
    (RepetitionResult.mk repetition.1 (RepetitionSchedule.user_id r)
       (RepetitionSchedule.material_id r) false now);;
  _update_user_statistics (RepetitionSchedule.user_id r) 0 0 1;;
  mret (count + 1).

Definition auto_complete_expired_intraday_repetitions : M Z :=
  today ← date_today;
  d ← get_session;
  let expired_repetitions :=
    List.filter (fun e : entry => expired_intraday today e.2)
                (map_to_list (repetition_schedule d)) in
  count ← for_loop expired_repetitions 0 expire_one;
  (if 0 <? count then commit else mret tt);;
  mret count.

End WithPlatform.

(** ** More of the code

    The other functions of the same files, and the helpers of their
    callers. *)

(** The [order_by] key of [get_user_schedule] and [get_material_schedule]. *)
Definition schedule_order_key (e : entry) : list Z :=
  [RepetitionSchedule.scheduled_date e.2;
   RepetitionSchedule.current_stage e.2].

Definition schedule_order (a b : entry) : Prop :=
  lex_leb (schedule_order_key a) (schedule_order_key b) = true.

#[global] Instance schedule_order_dec (a b : entry) :
  Decision (schedule_order a b).
Proof. unfold schedule_order. apply _. Defined.

(** [l[:stop]] of Python, for a [stop] of either sign. *)
Definition slice_to {A : Type} (l : list A) (stop : Z) : list A :=
  if stop <? 0
  then take (Z.to_nat (Z.max 0 (Z.of_nat (length l) + stop))) l
  else take (Z.to_nat stop) l.

(** [NotificationService._truncate_content]; a [str] is the list of its
    code points, and 46 is the full stop. *)
Definition _truncate_content (content : list Z) (max_length : Z) : list Z :=
  if Z.of_nat (length content) <=? max_length then content
  else slice_to content (max_length - 3) ++ [46; 46; 46].

Section MoreCode.
Context `{Platform}.

(** *** [app/utils/timezone_utils.py] *)

Definition get_user_timezone (timezone_name : option string)
    : outcome tzinfo :=
  let tz_name :=
    match timezone_name with
    | Some name => if decide (name = "") then default_timezone else name
    | None => default_timezone
    end in
  if pytz_has tz_name then Return (PytzInfo tz_name)
  else if pytz_has default_timezone then Return (PytzInfo default_timezone)
  else Raise UnknownTimeZoneError.

Definition localize_datetime (dt : datetime) (timezone_name : option string)
    : outcome datetime :=
  match get_user_timezone timezone_name with
  | Raise e => Raise e
  | Return tz =>
      match tzinfo_of dt with
      | None => Return (attach tz dt)
      | Some _ => Return (astimezone dt tz)
      end
  end.

Definition is_valid_timezone (timezone_name : string) : bool :=
  pytz_has timezone_name.

(** *** The other queries of [app/services/schedule_service.py] *)

Definition overdue_on (yesterday : Z) (r : RepetitionSchedule.t) : bool :=
  (RepetitionSchedule.scheduled_date r <=? yesterday)
  && negb (RepetitionSchedule.is_completed r)
  && bool_decide (RepetitionSchedule.repetition_type r ∈ long_term_types).

(** The statement has no [order_by]; the rows come in the order of the
    table. *)
Definition get_overdue_repetitions (user_id : option Z) : M (list entry) :=
  today ← date_today;
  let yesterday := today - 1 in
  d ← get_session;
  mret (List.filter
          (fun e : entry => overdue_on yesterday e.2 && for_user user_id e.2)
          (map_to_list (repetition_schedule d))).

Definition get_user_schedule (user_id days_ahead : Z)
    (include_completed : bool) : M (list entry) :=
  start_date ← date_today;
  let end_date := start_date + days_ahead in
  d ← get_session;
  mret (merge_sort schedule_order
          (List.filter
             (fun e : entry =>
                (RepetitionSchedule.user_id e.2 =? user_id)
                && (start_date <=? RepetitionSchedule.scheduled_date e.2)
                && (RepetitionSchedule.scheduled_date e.2 <=? end_date)
                && (include_completed
                    || negb (RepetitionSchedule.is_completed e.2)))
             (map_to_list (repetition_schedule d)))).

Definition get_material_schedule (material_id : Z) : M (list entry) :=
  d ← get_session;
  mret (merge_sort schedule_order
          (List.filter
             (fun e : entry =>
                RepetitionSchedule.material_id e.2 =? material_id)
             (map_to_list (repetition_schedule d)))).

End MoreCode.

(** ** The callers

    [UserService.update_user_settings] and
    [NotificationService.get_notification_statistics]. *)

Definition with_users (d : DB) (t : gmap Z User.t) : DB :=
  mkDB t (study_materials d) (repetition_schedule d)
       (repetition_schedule_seq d) (repetition_results d)
       (user_statistics d).

(** The dictionary [get_notification_statistics] returns. *)
Record notification_statistics : Type := mk_notification_statistics {
  upcoming_count : Z;
  overdue_count : Z;
  today_count : Z;
  total_pending : Z
}.

Section Callers.
Context `{Platform}.

(** *** [app/services/user_service.py] *)

Definition get_user (user_id : Z) : M (option User.t) :=
  d ← get_session;
  mret (users d !! user_id).

(** [update_user_settings], for the column of [users] the model keeps: a
    [notification_time] goes to a column the rows of the model do not
    have.  [if timezone] is false for [None] and for the empty string. *)
Definition update_user_settings (user_id : Z) (timezone : option string)
    : M bool :=
  user ← get_user user_id;
  match user with
  | None => mret false
  | Some user =>
    let timezone :=
      match timezone with
      | Some name => if decide (name = "") then None else Some name
      | None => None
      end in
    match timezone with
    | Some name =>
        if negb (is_valid_timezone name) then mret false
        else
          d ← get_session;
          put_session
            (with_users d (<[user_id := User.mk name]> (users d)));;
          commit;;
          mret true
    | None =>
        commit;;
        mret true
    end
  end.

(** *** [app/services/notification_service.py] *)

Definition get_notification_statistics (user_id : Z)
    : M notification_statistics :=
  upcoming_schedule ← get_user_schedule user_id 7 false;
  overdue ← get_overdue_repetitions (Some user_id);
  today ← date_today;
  today_repetitions ← get_due_repetitions (Some user_id) (Some today);
  mret (mk_notification_statistics
          (Z.of_nat (length upcoming_schedule))
          (Z.of_nat (length overdue))
          (Z.of_nat (length today_repetitions))
          (Z.of_nat
             (length
                (List.filter
                   (fun r : entry => negb (RepetitionSchedule.is_completed r.2))
                   upcoming_schedule)))).

End Callers.

(** ** The history of a material

    [ScheduleService.get_material_schedule_with_history].  The dictionary
    it returns is kept without 'material_text', a column the rows of the
    model do not have, and with the instants that the code prints with
    [isoformat] as they are. *)

Module HistoryItem.
Record t : Type := mk {
  stage : Z;
  repetition_type : string;
  planned_at : option datetime;
  done_at : option datetime;
  result : string
}.
End HistoryItem.

Module MaterialHistory.
Record t : Type := mk {
  user_id : Z;
  material_id : Z;
  created_at : option datetime;
  current_stage : Z;
  next_due_at : option datetime;
  next_repetition_type : option string;
  timezone : string;
  history : list HistoryItem.t
}.
End MaterialHistory.

Section History.
Context `{Platform}.

(** The result rows of one schedule entry. *)
Definition results_of (d : DB) (schedule_id : Z) : list RepetitionResult.t :=
  List.filter (fun res => RepetitionResult.schedule_id res =? schedule_id)
              (repetition_results d).

(** The body of the loop that collects the history. *)
Definition history_step (history : list HistoryItem.t) (schedule : entry)
    : M (list HistoryItem.t) :=
  if RepetitionSchedule.is_completed schedule.2 then
    d ← get_session;
    repetition_result ← scalar_one_or_none (results_of d schedule.1);
    mret (history ++
          [HistoryItem.mk
             (RepetitionSchedule.current_stage schedule.2)
             (RepetitionSchedule.repetition_type schedule.2)
             (RepetitionSchedule.scheduled_datetime schedule.2)
             (RepetitionSchedule.completed_at schedule.2)
             (match repetition_result with
              | Some res =>
                  if RepetitionResult.was_successful res
                  then "success" else "failed"
              | None => "failed"
              end)])
  else mret history.

Definition get_material_schedule_with_history (user_id material_id : Z)
    : M (option MaterialHistory.t) :=
  material ← get_material material_id;
  match material with
  | None => mret None
  | Some material =>
    if negb (StudyMaterial.user_id material =? user_id) then mret None
    else
      all_schedules ← get_material_schedule material_id;
      let next_schedule :=
        List.find
          (fun schedule : entry =>
             negb (RepetitionSchedule.is_completed schedule.2))
          all_schedules in
      history ← for_loop all_schedules [] history_step;
      mret (Some
              (MaterialHistory.mk user_id material_id
                 (Some (StudyMaterial.created_at material))
                 (StudyMaterial.current_stage material)
                 (match next_schedule with
                  | Some s => RepetitionSchedule.scheduled_datetime s.2
                  | None => None
                  end)
                 (match next_schedule with
                  | Some s => Some (RepetitionSchedule.repetition_type s.2)
                  | None => None
                  end)
                 default_timezone
                 history))
  end.

End History.

(** ** The loop of [tests/test_utils.py]

    [TestMonthlyPhaseStability]: the due instant of the monthly phase is
    fed back [n] times as the last success. *)
Section MonthlyChain.
Context `{Platform}.

Fixpoint monthly_chain (n : nat) (created_at : datetime)
    (timezone_name : string) (last_success : datetime) : outcome datetime :=
  match n with
  | O => Return last_success
  | S n' =>
      match calculate_next_repetition created_at 8 timezone_name
              (Some last_success) with
      | Return (next_due_at, _) =>
          monthly_chain n' created_at timezone_name next_due_at
      | Raise e => Raise e
      end
  end.

End MonthlyChain.

(** ** The words of the specification

    The predicates the claims are stated with, written after the
    specification and compared below with what the code computes. *)

(** The due set in the words of the specification: an incomplete entry of
    an intraday kind scheduled on the target date, or of a long-horizon
    kind scheduled on or before it. *)
Definition due_set_member_spec (target_date : Z) (r : RepetitionSchedule.t)
    : Prop :=
  RepetitionSchedule.is_completed r = false
  /\ ((RepetitionSchedule.repetition_type r
         ∈ ["immediate"; "short_term"; "evening"]
       /\ RepetitionSchedule.scheduled_date r = target_date)
      \/ (RepetitionSchedule.repetition_type r
            ∈ ["day_1"; "day_3"; "day_7"; "day_14"; "day_30"; "monthly"]
          /\ RepetitionSchedule.scheduled_date r <= target_date)).

(** The order of the specification: by scheduled date, then stage, then
    creation time. *)
Definition due_set_order_spec (a b : entry) : Prop :=
  RepetitionSchedule.scheduled_date a.2 < RepetitionSchedule.scheduled_date b.2
  \/ (RepetitionSchedule.scheduled_date a.2
      = RepetitionSchedule.scheduled_date b.2
      /\ (RepetitionSchedule.current_stage a.2
          < RepetitionSchedule.current_stage b.2
          \/ (RepetitionSchedule.current_stage a.2
              = RepetitionSchedule.current_stage b.2
              /\ datetime_leb (RepetitionSchedule.created_at a.2)
                              (RepetitionSchedule.created_at b.2) = true))).

(** The entries the sweep is to resolve, in the words of the
    specification: incomplete, of an intraday kind, scheduled before
    today. *)
Definition expired_spec (today : Z) (r : RepetitionSchedule.t) : Prop :=
  RepetitionSchedule.is_completed r = false
  /\ RepetitionSchedule.repetition_type r
       ∈ ["immediate"; "short_term"; "evening"]
  /\ RepetitionSchedule.scheduled_date r < today.

(** An incomplete entry of the user for the material. *)
Definition pending_of (uid mid : Z) (r : RepetitionSchedule.t) : Prop :=
  RepetitionSchedule.user_id r = uid
  /\ RepetitionSchedule.material_id r = mid
  /\ RepetitionSchedule.is_completed r = false.

(** The invariant of the specification on a database: the user has exactly
    one incomplete entry for the material, and the material's stage is the
    stage of that entry. *)
Definition stage_invariant_spec (uid mid : Z) (d : DB) : Prop :=
  exists (k : Z) (next : RepetitionSchedule.t) (m : StudyMaterial.t),
    repetition_schedule d !! k = Some next
    /\ pending_of uid mid next
    /\ (forall k' r, repetition_schedule d !! k' = Some r ->
          pending_of uid mid r -> k' = k)
    /\ study_materials d !! mid = Some m
    /\ StudyMaterial.current_stage m = RepetitionSchedule.current_stage next.

(** ** Notions of the proofs *)

(** The loop over [all_repetitions], as a recursive function. *)
Fixpoint first_seen (seen : gset Z) (l : list entry) : list entry :=
  match l with
  | [] => []
  | rep :: l' =>
      if decide (RepetitionSchedule.material_id rep.2 ∈ seen)
      then first_seen seen l'
      else rep :: first_seen (seen ∪ {[RepetitionSchedule.material_id rep.2]}) l'
  end.

(** At most one row of [user_statistics] per user and day: what
    [scalar_one_or_none] needs in order not to raise. *)
Definition stats_unique (l : list UserStatistics.t) : Prop :=
  forall u d, (length (List.filter (stats_for u d) l) <= 1)%nat.

(** The id sequence is ahead of every stored schedule row. *)
Definition seq_fresh (d : DB) : Prop :=
  forall k r, repetition_schedule d !! k = Some r -> k < repetition_schedule_seq d.

(** The stage the calculator moves to from stage [s]. *)
Definition stage_after (s : Z) : Z :=
  if decide (0 <= s <= 6) then s + 1 else 8.

(** [keeps P m]: running [m] in a world where [P] holds ends, whether [m]
    returns or raises, in a world where [P] holds. *)
Definition keeps {A : Type} (P : World -> Prop) (m : M A) : Prop :=
  forall w, P w -> P (m w).2.

(** The row [r] is stored under [sid], behind the id sequence, in the
    session and, when [committed] is set, in the persisted state too. *)
Definition stored_at (committed : bool) (sid : Z) (r : RepetitionSchedule.t)
    (w : World) : Prop :=
  repetition_schedule (session w) !! sid = Some r
  /\ sid < repetition_schedule_seq (session w)
  /\ (committed = true ->
      repetition_schedule (persisted w) !! sid = Some r
      /\ sid < repetition_schedule_seq (persisted w)).

(** The result row of an expired entry. *)
Definition missed_result_of (e : entry) (res : RepetitionResult.t) : Prop :=
  RepetitionResult.schedule_id res = e.1
  /\ RepetitionResult.user_id res = RepetitionSchedule.user_id e.2
  /\ RepetitionResult.material_id res = RepetitionSchedule.material_id e.2
  /\ RepetitionResult.was_successful res = false.

(** The world after the loop of the sweep over the entries [l]. *)
Definition swept (l : list entry) (w w' : World) : Prop :=
  users (session w') = users (session w)
  /\ study_materials (session w') = study_materials (session w)
  /\ repetition_schedule_seq (session w') = repetition_schedule_seq (session w)
  /\ stats_unique (user_statistics (session w'))
  /\ (forall k, k ∉ l.*1 ->
        repetition_schedule (session w') !! k
        = repetition_schedule (session w) !! k)
  /\ (forall k r, (k, r) ∈ l ->
        exists t, repetition_schedule (session w') !! k
                  = Some (mark_completed r t))
  /\ (exists new,
        repetition_results (session w') = repetition_results (session w) ++ new
        /\ Forall2 missed_result_of l new)
  /\ (l <> [] -> persisted w' = session w')
  /\ (l = [] -> w' = w).

(** [mrun] unfolds the operations of the monad and of the session and
    reduces what they leave behind. *)
Ltac mrun :=
  repeat (progress (
    cbv beta delta
      [mbind M_bind mret M_ret raise lift get_session put_session commit
       rollback utcnow date_today add_schedule update_schedule update_material
       add_result get_material _delete_incomplete_repetitions];
    cbn [session persisted commits clock fst snd
         with_study_materials with_repetition_schedule
         with_repetition_results with_user_statistics
         users study_materials repetition_schedule repetition_schedule_seq
         repetition_results user_statistics])).

(** [store_run H] steps through the flush of a row whose instant [H]
    settles. *)
Ltac store_run H :=
  cbv delta [stored_schedule];
  cbn [RepetitionSchedule.material_id RepetitionSchedule.user_id
       RepetitionSchedule.scheduled_date RepetitionSchedule.repetition_type
       RepetitionSchedule.interval_days RepetitionSchedule.current_stage
       RepetitionSchedule.is_completed RepetitionSchedule.completed_at
       RepetitionSchedule.created_at RepetitionSchedule.scheduled_datetime];
  match type of H with
  | bind_datetime ?d = _ =>
      match goal with
      | |- context [bind_datetime ?x] =>
          change (bind_datetime x) with (bind_datetime d); rewrite H
      end
  end.

Create HintDb keeps.

(** A time of day Python accepts. *)
Definition well_formed_time (dt : datetime) : Prop :=
  0 <= hour dt < 24 /\ 0 <= minute dt < 60 /\ 0 <= second dt < 60.

(** [a < b] for two datetimes that carry the same [tzinfo]. *)
Definition datetime_ltb (a b : datetime) : bool := negb (datetime_leb b a).

(** The clock after [mark_failed] has taken its instant. *)
Definition clock_after_failed_at (failed_at : option datetime) (w : World)
    : nat :=
  match failed_at with Some _ => clock w | None => S (clock w) end.

(** The sum of a counter over the statistics rows of a user and a day. *)
Definition counter (field : UserStatistics.t -> Z) (u d : Z)
    (l : list UserStatistics.t) : Z :=
  foldr (fun s acc => field s + acc) 0 (List.filter (stats_for u d) l).

(** The statistics rows after [_update_user_statistics] has found at most
    one row of the user and the day. *)
Definition upsert_stats (u today a s f : Z) (now : datetime)
    (l : list UserStatistics.t) : list UserStatistics.t :=
  match List.filter (stats_for u today) l with
  | [] => l ++ [UserStatistics.mk u today s f a now]
  | _ :: _ =>
      map (fun x =>
             if stats_for u today x then
               UserStatistics.mk
                 (UserStatistics.user_id x) (UserStatistics.date x)
                 (UserStatistics.successful_repetitions x + s)
                 (UserStatistics.failed_repetitions x + f)
                 (UserStatistics.total_materials_added x + a)
                 now
             else x) l
  end.

(** *** The database as a transition system

    The calls of the services, the sessions they run in, the changes they
    make to the database one at a time, and what holds of a database that
    only such changes have been made to. *)

Inductive call : Type :=
| Create_initial_repetitions (material_id user_id : Z)
    (material_created_at : datetime) (user_timezone : option string)
| Complete_repetition (schedule_id user_id : Z) (was_successful : bool)
| Mark_failed (user_id material_id : Z) (failed_at : option datetime)
| Auto_complete_expired_intraday_repetitions
| Update_user_settings (user_id : Z) (timezone : option string).

(** A handler opens a session, makes calls in it and closes it; the next
    session sees what has been committed. *)
Inductive event : Type :=
| Call (c : call)
| New_session.

Definition new_session (w : World) : World :=
  mkWorld (persisted w) (persisted w) (commits w) (clock w).

(** The exception a call has raised, if any, and the world it ends in. *)
Definition raised {A : Type} (r : outcome A * World) : option exn * World :=
  (match r.1 with Return _ => None | Raise e => Some e end, r.2).

Section Transitions.
Context `{Platform}.

Definition run_call (c : call) (w : World) : option exn * World :=
  match c with
  | Create_initial_repetitions material_id user_id created user_timezone =>
      raised (create_initial_repetitions material_id user_id created
                user_timezone w)
  | Complete_repetition schedule_id user_id was_successful =>
      raised (complete_repetition schedule_id user_id was_successful w)
  | Mark_failed user_id material_id failed_at =>
      raised (mark_failed user_id material_id failed_at w)
  | Auto_complete_expired_intraday_repetitions =>
      raised (auto_complete_expired_intraday_repetitions w)
  | Update_user_settings user_id timezone =>
      raised (update_user_settings user_id timezone w)
  end.

Definition run_event (e : event) (w : World) : World :=
  match e with
  | Call c => (run_call c w).2
  | New_session => new_session w
  end.

Definition run_events (es : list event) (w : World) : World :=
  fold_left (fun w e => run_event e w) es w.

(** Every entry has the kind of its stage, and a stage from 0 to 8. *)
Definition rows_ok (d : DB) : Prop :=
  forall k r, repetition_schedule d !! k = Some r ->
    RepetitionSchedule.repetition_type r
    = get_stage_name (RepetitionSchedule.current_stage r)
    /\ 0 <= RepetitionSchedule.current_stage r <= 8.

Definition materials_ok (d : DB) : Prop :=
  forall k m, study_materials d !! k = Some m ->
    0 <= StudyMaterial.current_stage m <= 9.

Definition timezones_valid (d : DB) : Prop :=
  forall u r, users d !! u = Some r ->
    is_valid_timezone (User.timezone r) = true.

(** The results and the completed entries match one to one. *)
Definition results_match (d : DB) : Prop :=
  NoDup (map RepetitionResult.schedule_id (repetition_results d))
  /\ (forall res, res ∈ repetition_results d ->
        exists r,
          repetition_schedule d !! RepetitionResult.schedule_id res = Some r
          /\ RepetitionSchedule.is_completed r = true
          /\ RepetitionSchedule.user_id r = RepetitionResult.user_id res
          /\ RepetitionSchedule.material_id r
             = RepetitionResult.material_id res)
  /\ (forall k r, repetition_schedule d !! k = Some r ->
        RepetitionSchedule.is_completed r = true ->
        k ∈ map RepetitionResult.schedule_id (repetition_results d)).

(** A well-formed database. *)
Definition wf (d : DB) : Prop :=
  seq_fresh d
  /\ stats_unique (user_statistics d)
  /\ rows_ok d
  /\ materials_ok d
  /\ timezones_valid d
  /\ results_match d.

(** The changes the calls make to a well-formed database, one at a
    time. *)
Inductive step : DB -> DB -> Prop :=
| step_delete d uid mid :
    step d
      (with_repetition_schedule d
         (filter (fun kv : entry => incomplete_for uid mid kv.2 = false)
            (repetition_schedule d))
         (repetition_schedule_seq d))
| step_add d r :
    RepetitionSchedule.is_completed r = false ->
    RepetitionSchedule.repetition_type r
    = get_stage_name (RepetitionSchedule.current_stage r) ->
    0 <= RepetitionSchedule.current_stage r <= 8 ->
    step d
      (with_repetition_schedule d
         (<[repetition_schedule_seq d := r]> (repetition_schedule d))
         (repetition_schedule_seq d + 1))
| step_complete d k r now res :
    repetition_schedule d !! k = Some r ->
    RepetitionSchedule.is_completed r = false ->
    RepetitionResult.schedule_id res = k ->
    RepetitionResult.user_id res = RepetitionSchedule.user_id r ->
    RepetitionResult.material_id res = RepetitionSchedule.material_id r ->
    step d
      (with_repetition_results
         (with_repetition_schedule d
            (<[k := mark_completed r now]> (repetition_schedule d))
            (repetition_schedule_seq d))
         (repetition_results d ++ [res]))
| step_material d k m m' :
    study_materials d !! k = Some m ->
    StudyMaterial.user_id m' = StudyMaterial.user_id m ->
    StudyMaterial.created_at m' = StudyMaterial.created_at m ->
    0 <= StudyMaterial.current_stage m' <= 9 ->
    step d (with_study_materials d (<[k := m']> (study_materials d)))
| step_stats d l' :
    stats_unique l' ->
    step d (with_user_statistics d l')
| step_user d u r :
    is_Some (users d !! u) ->
    is_valid_timezone (User.timezone r) = true ->
    step d (with_users d (<[u := r]> (users d))).

(** An entry of [d] as it may be found in a later database: as it was, or
    completed. *)
Definition entry_later (r r' : RepetitionSchedule.t) : Prop :=
  r' = r
  \/ (RepetitionSchedule.is_completed r = false
      /\ exists t, r' = mark_completed r t).

End Transitions.

Section Traces.
Context `{Platform}.

(** From [w] to [w'] with no rollback: the session of [w'] comes from the
    session of [w] by changes of the kinds above, and so does the
    persisted state of [w'] unless nothing has been committed. *)
Definition advances (w w' : World) : Prop :=
  rtc step (session w) (session w')
  /\ (persisted w' = persisted w \/ rtc step (session w) (persisted w')).

(** [d] comes from the session of [w] or from its persisted state by
    changes of the kinds above. *)
Definition reaches (w : World) (d : DB) : Prop :=
  rtc step (session w) d \/ rtc step (persisted w) d.

(** From [w] to [w'], rollbacks included: a rollback takes the session
    back to the persisted state. *)
Definition traces (w w' : World) : Prop :=
  reaches w (session w') /\ reaches w (persisted w').

(** Why a call has raised [e] while resolving the timezone [name]: the
    name is unknown, or the store has refused an instant. *)
Definition raise_cause (name : string) (e : exn) : Prop :=
  (e = UnknownTimeZoneError /\ get_tz name = Raise e)
  \/ (e = DBAPIError
      /\ (exists tz, get_tz name = Return tz)
      /\ exists dt, bind_datetime dt = None).

(** The timezone name a call resolves, if it resolves one. *)
Definition call_timezone (c : call) (d : DB) : option string :=
  match c with
  | Create_initial_repetitions _ _ _ user_timezone =>
      Some match user_timezone with
           | Some name => if decide (name = "") then default_timezone else name
           | None => default_timezone
           end
  | Complete_repetition _ user_id _ => Some (timezone_of_user d user_id)
  | Mark_failed user_id _ _ => Some (timezone_of_user d user_id)
  | Auto_complete_expired_intraday_repetitions => None
  | Update_user_settings _ _ => None
  end.

End Traces.

(** What a later database [d'] keeps of the schedule of [d]: the id
    sequence does not go back; under an id that [d] has given out, [d']
    holds nothing or the entry [d] holds there, as it was or completed;
    and the completed entries of [d] are in [d'] as they were. *)
Definition history_kept (d d' : DB) : Prop :=
  repetition_schedule_seq d <= repetition_schedule_seq d'
  /\ (forall k r',
        k < repetition_schedule_seq d ->
        repetition_schedule d' !! k = Some r' ->
        exists r, repetition_schedule d !! k = Some r /\ entry_later r r')
  /\ (forall k r,
        repetition_schedule d !! k = Some r ->
        RepetitionSchedule.is_completed r = true ->
        repetition_schedule d' !! k = Some r).

(** What a later database [d'] keeps of the other tables of [d]: the
    results of [d] come first in the results of [d']; the materials and
    the users are the same ones, and a material has its owner and its
    creation time. *)
Definition never_rewritten (d d' : DB) : Prop :=
  (exists new, repetition_results d' = repetition_results d ++ new)
  /\ (forall k, is_Some (study_materials d' !! k)
                <-> is_Some (study_materials d !! k))
  /\ (forall k m m',
        study_materials d !! k = Some m ->
        study_materials d' !! k = Some m' ->
        StudyMaterial.user_id m' = StudyMaterial.user_id m
        /\ StudyMaterial.created_at m' = StudyMaterial.created_at m)
  /\ (forall u, is_Some (users d' !! u) <-> is_Some (users d !! u)).

(** The timezone argument of [create_initial_repetitions] is one that
    [is_valid_timezone] accepts, or none. *)
Definition timezone_argument_valid `{Platform} (c : call) : Prop :=
  match c with
  | Create_initial_repetitions _ _ _ (Some name) =>
      name = "" \/ is_valid_timezone name = true
  | _ => True
  end.

(** An item of the history and the entry it is made of. *)
Definition item_of (d : DB) (e : entry) (item : HistoryItem.t) : Prop :=
  HistoryItem.stage item = RepetitionSchedule.current_stage e.2
  /\ HistoryItem.repetition_type item = RepetitionSchedule.repetition_type e.2
  /\ HistoryItem.planned_at item = RepetitionSchedule.scheduled_datetime e.2
  /\ HistoryItem.done_at item = RepetitionSchedule.completed_at e.2
  /\ exists res,
       results_of d e.1 = [res]
       /\ HistoryItem.result item
          = if RepetitionResult.was_successful res
            then "success" else "failed".

(** ** Two concrete platforms

    Two zones at fixed offsets from UTC and a clock that starts on
    2025-01-10 at 12:00 and advances one second per reading.  On
    [fixed_platform] the store is the one the repository configures, which
    refuses an aware datetime; on [lenient_platform] it holds the fields
    of an aware datetime without the zone.  The model is run on them in
    the examples below. *)
Definition offset_minutes (tz : tzinfo) : Z :=
  match tz with
  | ZoneInfo "Asia/Yekaterinburg" | PytzInfo "Asia/Yekaterinburg" => 300
  | ZoneInfo "Europe/Moscow" | PytzInfo "Europe/Moscow" => 180
  | _ => 0
  end.

Definition known_zones : list string :=
  ["UTC"; "Asia/Yekaterinburg"; "Europe/Moscow"].

Definition platform_with (bind : datetime -> option datetime) : Platform := {|
  zoneinfo_has name := bool_decide (name ∈ known_zones);
  pytz_has name := bool_decide (name ∈ known_zones);
  tz_shift src dst dt :=
    add_timedelta dt 0 (offset_minutes dst - offset_minutes src);
  utcnow_at n :=
    add_timedelta (Datetime (ymd 2025 1 10) 12 0 (Z.of_nat n) 0 None) 0 0;
  today_at n := ymd 2025 1 10;
  default_timezone := "Asia/Yekaterinburg";
  bind_aware := bind
|}.

Definition fixed_platform : Platform := platform_with (fun _ => None).

Definition lenient_platform : Platform :=
  platform_with (fun dt => Some (replace_tzinfo dt None)).

Definition yekaterinburg : tzinfo := ZoneInfo "Asia/Yekaterinburg".

(** ** Concrete worlds

    One user in Asia/Yekaterinburg with materials created on 2025-01-01 at
    10:00.  The instants of the rows are naive, as the columns hold
    them. *)
Definition material_created : datetime := Datetime (ymd 2025 1 1) 10 0 0 0 None.

Definition the_users : gmap Z User.t := {[ 123 := User.mk "Asia/Yekaterinburg" ]}.

(** A new material with no schedule yet. *)
Definition db_new : DB :=
  mkDB the_users {[ 1 := StudyMaterial.mk 123 material_created 0 None ]}
       ∅ 1 [] [].

Definition world_new : World := mkWorld db_new db_new [db_new] 0.

(** A material at stage 3 whose day_1 entry, of id 10, is pending. *)
Definition material_day_1 : StudyMaterial.t :=
  StudyMaterial.mk 123 material_created 3 None.

Definition day_1_entry : RepetitionSchedule.t :=
  RepetitionSchedule.mk 1 123 (ymd 2025 1 2) "day_1" 0 3 false None
    (Datetime (ymd 2025 1 1) 15 0 0 0 None)
    (Some (Datetime (ymd 2025 1 2) 7 0 0 0 None)).

Definition db_day_1 : DB :=
  mkDB the_users {[ 1 := material_day_1 ]} {[ 10 := day_1_entry ]} 11 [] [].

Definition world_day_1 : World := mkWorld db_day_1 db_day_1 [db_day_1] 0.

(** A material at stage 8 whose monthly entry, of id 20, is pending. *)
Definition monthly_entry : RepetitionSchedule.t :=
  RepetitionSchedule.mk 1 123 (ymd 2025 3 1) "monthly" 0 8 false None
    (Datetime (ymd 2025 1 30) 15 0 0 0 None)
    (Some (Datetime (ymd 2025 3 1) 7 0 0 0 None)).

Definition db_monthly : DB :=
  mkDB the_users {[ 1 := StudyMaterial.mk 123 material_created 8 None ]}
       {[ 20 := monthly_entry ]} 21 [] [].

Definition world_monthly : World := mkWorld db_monthly db_monthly [db_monthly] 0.

(** On 2025-01-10: an evening entry of 2025-01-08 and a day_1 entry of
    2025-01-08, both pending, and an immediate entry of the day. *)
Definition stale_evening : RepetitionSchedule.t :=
  RepetitionSchedule.mk 1 123 (ymd 2025 1 8) "evening" 0 2 false None
    (Datetime (ymd 2025 1 8) 5 0 0 0 None)
    (Some (Datetime (ymd 2025 1 8) 20 0 0 0 None)).

Definition old_day_1 : RepetitionSchedule.t :=
  RepetitionSchedule.mk 2 123 (ymd 2025 1 8) "day_1" 0 3 false None
    (Datetime (ymd 2025 1 7) 5 0 0 0 None)
    (Some (Datetime (ymd 2025 1 8) 7 0 0 0 None)).

Definition fresh_immediate : RepetitionSchedule.t :=
  RepetitionSchedule.mk 3 123 (ymd 2025 1 10) "immediate" 0 0 false None
    (Datetime (ymd 2025 1 10) 5 0 0 0 None)
    (Some (Datetime (ymd 2025 1 10) 5 0 0 0 None)).

Definition db_stale : DB :=
  mkDB the_users
       {[ 1 := StudyMaterial.mk 123 material_created 2 None;
          2 := StudyMaterial.mk 123 material_created 3 None;
          3 := StudyMaterial.mk 123 material_created 0 None ]}
       {[ 1 := stale_evening; 2 := old_day_1; 3 := fresh_immediate ]}
       4 [] [].

Definition world_stale : World := mkWorld db_stale db_stale [db_stale] 0.


(** The pending day_1 entry of a user whose timezone no library knows. *)
Definition db_unknown_zone : DB :=
  mkDB {[ 123 := User.mk "Mars/Olympus" ]} {[ 1 := material_day_1 ]}
       {[ 10 := day_1_entry ]} 11 [] [].

Definition world_unknown_zone : World :=
  mkWorld db_unknown_zone db_unknown_zone [db_unknown_zone] 0.

(** The pending day_1 entry of a material that does not exist. *)
Definition db_no_material : DB :=
  mkDB the_users ∅ {[ 10 := day_1_entry ]} 11 [] [].

Definition world_no_material : World :=
  mkWorld db_no_material db_no_material [db_no_material] 0.

(** A success, a new session, a failure, a sweep and a change of the
    timezone. *)
Definition some_events : list event :=
  [Call (Complete_repetition 10 123 true); New_session;
   Call (Mark_failed 123 1 None);
   Call Auto_complete_expired_intraday_repetitions;
   Call (Update_user_settings 123 (Some "Europe/Moscow"))].

(** ** Properties of the calculators and of the stage table *)

Section Calculators.
Context `{Platform}.

Lemma tzinfo_of_attach tz dt : tzinfo_of (attach tz dt) = Some tz.
Proof. by destruct tz. Qed.

Lemma tzinfo_of_localized tz dt : tzinfo_of (localized tz dt) = Some tz.
Proof.
  unfold localized, astimezone.
  destruct (tzinfo_of dt) as [src|] eqn:E; [|apply tzinfo_of_attach].
  destruct (decide (src = tz)) as [->|]; [done|]. reflexivity.
Qed.

(** Converting twice into the same zone is converting once. *)
Lemma localized_idemp tz dt : localized tz (localized tz dt) = localized tz dt.
Proof.
  pose proof (tzinfo_of_localized tz dt) as E.
  unfold localized at 1. rewrite E. unfold astimezone. rewrite E.
  by rewrite decide_True.
Qed.

Lemma morning_after_eq tz dt n :
  morning_after tz dt n = Datetime (date dt + n) 7 0 0 0 (Some tz).
Proof. by destruct tz. Qed.

Lemma replace_time_localized tz dt h :
  replace_time (localized tz dt) h
  = Datetime (date (localized tz dt)) h 0 0 0 (Some tz).
Proof. unfold replace_time. by rewrite tzinfo_of_localized. Qed.

Lemma next_day_at_20 d tz :
  add_timedelta (Datetime d 20 0 0 0 tz) 1 0 = Datetime (d + 1) 20 0 0 0 tz.
Proof.
  unfold add_timedelta. cbn [ordinal hour minute second microsecond tzinfo_of].
  f_equal. change (d + 1 + 0 = d + 1). lia.
Qed.

(** The evening slot of the day has passed exactly from 20:00 on. *)
Lemma evening_slot_passed (c : datetime) (tz : option tzinfo) :
  0 <= minute c -> 0 <= second c -> 0 <= microsecond c ->
  datetime_leb (Datetime (date c) 20 0 0 0 tz) c = true <-> 20 <= hour c.
Proof.
  intros Hm Hs Hu. unfold datetime_leb, datetime_key, date.
  cbn [lex_leb ordinal hour minute second microsecond].
  destruct (Z.ltb_spec (ordinal c) (ordinal c)), (Z.eqb_spec (ordinal c) (ordinal c)),
    (Z.ltb_spec 20 (hour c)), (Z.eqb_spec 20 (hour c)),
    (Z.ltb_spec 0 (minute c)), (Z.eqb_spec 0 (minute c)),
    (Z.ltb_spec 0 (second c)), (Z.eqb_spec 0 (second c)),
    (Z.ltb_spec 0 (microsecond c)), (Z.eqb_spec 0 (microsecond c));
    cbn [orb andb]; split; intros; try done; lia.
Qed.

(** C1: for a stage 0 <= s <= 7 the calculator returns stage s + 1 and the
    due instant of the transition table: created_at + 20 minutes for 0;
    20:00 of the local day of created_at for 1, of the next day when that
    instant is not after created_at; 07:00 local 1, 3, 7, 14, 30 days after
    the local date of created_at for 2..6; and 07:00 local 30 days after the
    local date of last_success_at (of created_at when there is none) for 7. *)
Theorem calculate_next_repetition_table
    (created_at : datetime) (s : Z) (timezone_name : string)
    (last_success_at : option datetime) (tz : tzinfo) :
  get_tz timezone_name = Return tz ->
  0 <= s <= 7 ->
  let c := localized tz created_at in
  let base := match last_success_at with
              | Some l => localized tz l
              | None => c
              end in
  calculate_next_repetition created_at s timezone_name last_success_at =
  Return
    (match s with
     | 0 => add_timedelta c 0 20
     | 1 => if datetime_leb (Datetime (date c) 20 0 0 0 (Some tz)) c
            then Datetime (date c + 1) 20 0 0 0 (Some tz)
            else Datetime (date c) 20 0 0 0 (Some tz)
     | 2 => Datetime (date c + 1) 7 0 0 0 (Some tz)
     | 3 => Datetime (date c + 3) 7 0 0 0 (Some tz)
     | 4 => Datetime (date c + 7) 7 0 0 0 (Some tz)
     | 5 => Datetime (date c + 14) 7 0 0 0 (Some tz)
     | 6 => Datetime (date c + 30) 7 0 0 0 (Some tz)
     | _ => Datetime (date base + 30) 7 0 0 0 (Some tz)
     end,
     s + 1).
Proof.
  intros Htz Hs c base.
  unfold calculate_next_repetition. rewrite Htz. fold c.
  assert (s = 0 \/ s = 1 \/ s = 2 \/ s = 3 \/ s = 4 \/ s = 5 \/ s = 6 \/ s = 7)
    as Hcases by lia.
  destruct Hcases as [->|[->|[->|[->|[->|[->|[->| ->]]]]]]]; cbn [Z.eqb Pos.eqb];
    rewrite ?morning_after_eq; try reflexivity.
  - unfold c. rewrite replace_time_localized. fold c.
    destruct (datetime_leb _ c); [|reflexivity].
    by rewrite next_day_at_20.
  - do 3 f_equal. unfold base. destruct last_success_at; [done|].
    unfold c. by rewrite localized_idemp.
Qed.

(** C2: for a stage s >= 7 the calculator returns stage 8 and 07:00 local
    30 days after the local date of last_success_at (of created_at when
    there is none); stages 7 and 8 give the same result. *)
Theorem calculate_next_repetition_monthly
    (created_at : datetime) (s : Z) (timezone_name : string)
    (last_success_at : option datetime) (tz : tzinfo) :
  get_tz timezone_name = Return tz ->
  7 <= s ->
  let base := match last_success_at with
              | Some l => localized tz l
              | None => localized tz created_at
              end in
  calculate_next_repetition created_at s timezone_name last_success_at
  = Return (Datetime (date base + 30) 7 0 0 0 (Some tz), 8)
  /\ calculate_next_repetition created_at 7 timezone_name last_success_at
     = calculate_next_repetition created_at 8 timezone_name last_success_at.
Proof.
  intros Htz Hs base. split; [|reflexivity].
  unfold calculate_next_repetition. rewrite Htz.
  repeat match goal with
         | |- context [?a =? ?b] => destruct (Z.eqb_spec a b) as [?|_]; [lia|]
         end.
  rewrite morning_after_eq. do 3 f_equal.
  unfold base. destruct last_success_at; [done|]. by rewrite localized_idemp.
Qed.

Lemma calculate_failed_repetition_eq failed_at s name tz :
  get_tz name = Return tz ->
  calculate_failed_repetition failed_at s name
  = Return (Datetime (date (localized tz failed_at) + 1) 7 0 0 0 (Some tz),
            Z.max 0 (s - 1)).
Proof.
  intros Htz. unfold calculate_failed_repetition. rewrite Htz.
  by rewrite morning_after_eq.
Qed.

(** C3: for every stage s the failure resolver returns stage max(0, s - 1),
    which is s - 1 for s >= 1 and 0 otherwise, and 07:00 local of the day
    after the local date of failed_at, whatever the stage. *)
Theorem calculate_failed_repetition_spec
    (failed_at : datetime) (s : Z) (timezone_name : string) (tz : tzinfo) :
  get_tz timezone_name = Return tz ->
  exists next_stage,
    calculate_failed_repetition failed_at s timezone_name
    = Return (Datetime (date (localized tz failed_at) + 1) 7 0 0 0 (Some tz),
              next_stage)
    /\ next_stage = Z.max 0 (s - 1)
    /\ 0 <= next_stage
    /\ (1 <= s -> next_stage = s - 1)
    /\ (s <= 0 -> next_stage = 0).
Proof.
  intros Htz. exists (Z.max 0 (s - 1)).
  split; [by apply calculate_failed_repetition_eq|]. lia.
Qed.

Lemma calculate_next_repetition_stage_0 created_at name last tz :
  get_tz name = Return tz ->
  calculate_next_repetition created_at 0 name last
  = Return (add_timedelta (localized tz created_at) 0 20, 1).
Proof. intros Htz. unfold calculate_next_repetition. by rewrite Htz. Qed.

Lemma calculate_next_repetition_stage_1 created_at name last tz :
  get_tz name = Return tz ->
  let c := localized tz created_at in
  calculate_next_repetition created_at 1 name last
  = Return (if datetime_leb (Datetime (date c) 20 0 0 0 (Some tz)) c
            then Datetime (date c + 1) 20 0 0 0 (Some tz)
            else Datetime (date c) 20 0 0 0 (Some tz), 2).
Proof.
  intros Htz c. unfold calculate_next_repetition. rewrite Htz.
  cbn [Z.eqb Pos.eqb]. fold c. unfold c. rewrite replace_time_localized.
  fold c. destruct (datetime_leb _ c); [|done]. by rewrite next_day_at_20.
Qed.

Lemma stage_table_miss (l : list (Z * string)) (s : Z) :
  Forall (fun kv => 0 <= kv.1) l -> s < 0 ->
  (list_to_map l : gmap Z string) !! s = None.
Proof.
  intros Hl Hs. apply not_elem_of_list_to_map_1.
  intros [kv [-> Hin]]%list_elem_of_fmap.
  rewrite Forall_forall in Hl. specialize (Hl _ Hin). lia.
Qed.

(** C10: for a negative stage the two lookups of the stage table raise
    nothing and return the sentinels 'unknown' and 'Неизвестная стадия',
    which are none of the nine kinds and descriptions. *)
Theorem stage_table_negative (s : Z) :
  s < 0 ->
  get_stage_name s = "unknown"
  /\ get_stage_description s = "Неизвестная стадия"
  /\ (forall k name, stage_names !! k = Some name -> name <> "unknown")
  /\ (forall k d, descriptions !! k = Some d -> d <> "Неизвестная стадия").
Proof.
  intros Hs. unfold get_stage_name, get_stage_description.
  destruct (Z.leb_spec 8 s) as [?|_]; [lia|].
  unfold stage_names, descriptions.
  rewrite !stage_table_miss by (repeat constructor; cbn; lia || done).
  repeat split.
  - intros k name Hk ->. apply elem_of_list_to_map_2 in Hk.
    repeat (apply elem_of_cons in Hk as [Hk|Hk]; [discriminate|]).
    by apply elem_of_nil in Hk.
  - intros k d Hk ->. apply elem_of_list_to_map_2 in Hk.
    repeat (apply elem_of_cons in Hk as [Hk|Hk]; [discriminate|]).
    by apply elem_of_nil in Hk.
Qed.

End Calculators.

(** ** The due set *)

Section DueSet.
Context `{Platform}.

Abbreviation mid e := (RepetitionSchedule.material_id (snd e)).

Lemma lex_leb_total a b : lex_leb a b = true \/ lex_leb b a = true.
Proof.
  revert b. induction a as [|x a IH]; intros [|y b]; cbn; auto.
  destruct (IH b) as [E|E]; rewrite E;
    destruct (Z.ltb_spec x y), (Z.ltb_spec y x), (Z.eqb_spec x y),
             (Z.eqb_spec y x); cbn; auto; lia.
Qed.

Lemma lex_leb_trans a b c :
  lex_leb a b = true -> lex_leb b c = true -> lex_leb a c = true.
Proof.
  revert b c. induction a as [|x a IH]; intros [|y b] [|z c]; cbn; auto;
    try discriminate.
  intros Hab Hbc.
  destruct (Z.ltb_spec x y), (Z.ltb_spec y z), (Z.ltb_spec x z),
           (Z.eqb_spec x y), (Z.eqb_spec y z), (Z.eqb_spec x z);
    cbn in *; try discriminate; try lia; eauto.
Qed.

#[local] Instance due_order_total : Total due_order.
Proof. intros a b. apply lex_leb_total. Qed.

#[local] Instance due_order_trans : Transitive due_order.
Proof. intros a b c. apply lex_leb_trans. Qed.

(** The [order_by] key orders as the specification says. *)
Lemma due_order_spec a b : due_order a b <-> due_set_order_spec a b.
Proof.
  unfold due_order, due_set_order_spec, due_order_key, datetime_leb.
  cbn [app lex_leb].
  destruct (Z.ltb_spec (RepetitionSchedule.scheduled_date a.2)
                       (RepetitionSchedule.scheduled_date b.2)),
           (Z.eqb_spec (RepetitionSchedule.scheduled_date a.2)
                       (RepetitionSchedule.scheduled_date b.2)),
           (Z.ltb_spec (RepetitionSchedule.current_stage a.2)
                       (RepetitionSchedule.current_stage b.2)),
           (Z.eqb_spec (RepetitionSchedule.current_stage a.2)
                       (RepetitionSchedule.current_stage b.2));
    cbn [orb andb]; try lia; intuition (try lia; try discriminate).
Qed.

Lemma due_on_spec D r : due_on D r = true <-> due_set_member_spec D r.
Proof.
  unfold due_on, due_set_member_spec, intraday_types, long_term_types.
  rewrite andb_true_iff, negb_true_iff, orb_true_iff, !andb_true_iff,
    !bool_decide_eq_true, Z.eqb_eq, Z.leb_le.
  reflexivity.
Qed.

Lemma StronglySorted_weaken {A} (R S : relation A) (l : list A) :
  (forall a b, R a b -> S a b) -> StronglySorted R l -> StronglySorted S l.
Proof.
  intros HRS. induction 1 as [|x l Hl IH Hx]; constructor; [done|].
  eapply Forall_impl; [apply Hx|]. intros b. apply HRS.
Qed.

Lemma fold_keep_unseen l u seen :
  (fold_left keep_unseen l (u, seen)).1 = u ++ first_seen seen l.
Proof.
  revert u seen. induction l as [|e l IH]; intros u seen; cbn.
  - by rewrite app_nil_r.
  - destruct (decide (mid e ∈ seen)); [apply IH|].
    rewrite IH. by rewrite <- app_assoc.
Qed.

Lemma first_seen_sublist seen l : sublist (first_seen seen l) l.
Proof.
  revert seen. induction l as [|e l IH]; intros seen; cbn.
  - constructor.
  - destruct (decide _); [apply sublist_cons | apply sublist_skip]; apply IH.
Qed.

Lemma first_seen_unseen seen l e : e ∈ first_seen seen l -> mid e ∉ seen.
Proof.
  revert seen. induction l as [|x l IH]; intros seen; cbn.
  - by intros ?%elem_of_nil.
  - destruct (decide _) as [|Hx]; [apply IH|].
    intros [->|Hin]%elem_of_cons; [done|].
    apply IH in Hin. set_solver.
Qed.

Lemma first_seen_NoDup seen l :
  NoDup (map (fun e : entry => mid e) (first_seen seen l)).
Proof.
  revert seen. induction l as [|x l IH]; intros seen; cbn.
  - constructor.
  - destruct (decide _) as [|Hx]; [apply IH|].
    cbn. constructor; [|apply IH].
    intros [e [Heq Hin]]%list_elem_of_fmap.
    apply first_seen_unseen in Hin. set_solver.
Qed.

(** An entry is kept exactly when no entry of its material comes before
    it. *)
Lemma first_seen_first seen pre e post :
  NoDup (pre ++ e :: post) ->
  e ∈ first_seen seen (pre ++ e :: post)
  <-> (mid e ∉ seen) /\ (mid e ∉ map (fun x : entry => mid x) pre).
Proof.
  revert seen. induction pre as [|x pre IH]; intros seen Hnd; cbn.
  - destruct (decide _) as [Hs|Hs].
    + split; [|tauto]. intros Hin%first_seen_unseen. done.
    + split; [intros _; split; [done|apply not_elem_of_nil]|].
      intros _. apply elem_of_cons; auto.
  - cbn in Hnd. apply NoDup_cons in Hnd as [Hx Hnd].
    assert (e <> x) as Hne.
    { intros ->. apply Hx, elem_of_app. right. apply elem_of_cons. by left. }
    rewrite not_elem_of_cons.
    destruct (decide _) as [Hs|Hs].
    + rewrite IH by done. split; [|tauto].
      intros [? ?]; repeat split; try done. congruence.
    + rewrite elem_of_cons, IH, not_elem_of_union, not_elem_of_singleton
        by done.
      split.
      * intros [?|[[? ?] ?]]; done.
      * intros [? [? ?]]. by right.
Qed.

(** C7: the due set.  For every world, owner filter and target date D
    (today when none is given), [get_due_repetitions] leaves the store as
    it is and returns a list [res] that is obtained from a list [all] such
    that: [all] holds, once each, exactly the stored entries that are
    incomplete and either of an intraday kind scheduled on D or of a
    long-horizon kind scheduled on or before D (and belong to the owner
    asked for); [all] is ordered by scheduled date, then stage, then
    creation time; [res] is a sublist of [all] with at most one entry per
    material, and an entry of [all] is in [res] exactly when no entry of
    the same material comes before it in [all]. *)
Theorem get_due_repetitions_due_set
    (user_id target_date : option Z) (w : World) :
  let D := match target_date with
           | Some d => d
           | None => today_at (clock w)
           end in
  exists all res : list entry,
    (get_due_repetitions user_id target_date w).1 = Return res
    /\ session (get_due_repetitions user_id target_date w).2 = session w
    /\ persisted (get_due_repetitions user_id target_date w).2 = persisted w
    /\ commits (get_due_repetitions user_id target_date w).2 = commits w
    /\ NoDup all
    /\ (forall e : entry,
          e ∈ all <->
          repetition_schedule (session w) !! e.1 = Some e.2
          /\ due_set_member_spec D e.2
          /\ match user_id with
             | Some u => u <> 0 -> RepetitionSchedule.user_id e.2 = u
             | None => True
             end)
    /\ StronglySorted due_set_order_spec all
    /\ sublist res all
    /\ NoDup (map (fun e : entry => mid e) res)
    /\ (forall pre e post,
          all = pre ++ e :: post ->
          (e ∈ res <-> mid e ∉ map (fun x : entry => mid x) pre)).
Proof.
  intros D.
  set (rows := List.filter
                 (fun e : entry => due_on D e.2 && for_user user_id e.2)
                 (map_to_list (repetition_schedule (session w)))).
  exists (merge_sort due_order rows), (first_seen ∅ (merge_sort due_order rows)).
  assert (NoDup (merge_sort due_order rows)) as Hnd.
  { rewrite merge_sort_Permutation. unfold rows.
    apply NoDup_ListNoDup, List.NoDup_filter, NoDup_ListNoDup,
      NoDup_map_to_list. }
  assert ((get_due_repetitions user_id target_date w).1
          = Return (first_seen ∅ (merge_sort due_order rows))
          /\ session (get_due_repetitions user_id target_date w).2 = session w
          /\ persisted (get_due_repetitions user_id target_date w).2 = persisted w
          /\ commits (get_due_repetitions user_id target_date w).2 = commits w)
    as (-> & -> & -> & ->).
  { unfold get_due_repetitions, D, rows.
    destruct target_date; mrun; rewrite fold_keep_unseen; done. }
  assert (forall e : entry, e ∈ merge_sort due_order rows <->
            e ∈ map_to_list (repetition_schedule (session w))
            /\ due_on D e.2 = true /\ for_user user_id e.2 = true) as Hin.
  { intros e. rewrite merge_sort_Permutation. unfold rows.
    rewrite !list_elem_of_In, filter_In, andb_true_iff. reflexivity. }
  split_and!; try done.
  - intros [k r]. rewrite Hin, elem_of_map_to_list, due_on_spec.
    cbn [fst snd]. unfold for_user.
    destruct user_id as [u|]; [|tauto].
    destruct (Z.eqb_spec u 0) as [->|Hu]; [tauto|].
    rewrite Z.eqb_eq. tauto.
  - eapply StronglySorted_weaken; [|apply StronglySorted_merge_sort; apply _].
    intros a b. apply due_order_spec.
  - apply first_seen_sublist.
  - apply first_seen_NoDup.
  - intros pre e post Hall. rewrite Hall in *.
    rewrite first_seen_first by done.
    split; [tauto|]. split; [apply not_elem_of_empty | done].
Qed.

End DueSet.

(** ** The statistics of the day *)

Section Statistics.
Context `{Platform}.

Lemma filter_map_same {A} (f : A -> bool) (g : A -> A) (l : list A) :
  (forall x, f (g x) = f x) ->
  length (List.filter f (map g l)) = length (List.filter f l).
Proof.
  intros Hfg. induction l as [|x l IH]; [done|]. cbn.
  rewrite Hfg. destruct (f x); cbn; by rewrite IH.
Qed.

(** With unique rows the update returns, commits, and keeps the rows
    unique; it reads the clock twice and touches no other table. *)
Lemma update_user_statistics_run (w : World) (u a s f : Z) :
  stats_unique (user_statistics (session w)) ->
  exists stats',
    stats_unique stats'
    /\ _update_user_statistics u a s f w
       = (Return tt,
          let d := with_user_statistics (session w) stats' in
          mkWorld d d (d :: commits w) (S (S (clock w)))).
Proof.
  intros Hu. unfold _update_user_statistics. mrun.
  pose proof (Hu u (today_at (clock w))) as Hlen.
  destruct (List.filter _ _) as [|x [|y l]] eqn:E; cbn in Hlen; [| |lia].
  - eexists. split; [|cbn [scalar_one_or_none]; mrun; reflexivity].
    intros u' d'. rewrite List.filter_app, length_app. cbn [List.filter].
    destruct (stats_for u' d' _) eqn:E'; cbn [length]; [|specialize (Hu u' d'); lia].
    unfold stats_for in E'. cbn in E'.
    apply andb_true_iff in E' as [Eu%Z.eqb_eq Ed%Z.eqb_eq].
    rewrite <- Eu, <- Ed, E. cbn. lia.
  - eexists. split; [|cbn [scalar_one_or_none]; mrun; reflexivity].
    intros u' d'. rewrite filter_map_same; [apply Hu|].
    intros r. by destruct (stats_for u (today_at (clock w)) r).
Qed.

Lemma stats_unique_nil : stats_unique [].
Proof. intros u d. cbn. lia. Qed.

(** The freshness of the id sequence, checked by computation. *)
Lemma seq_fresh_check (d : DB) :
  bool_decide (map_Forall (fun k _ => k < repetition_schedule_seq d)
                 (repetition_schedule d)) = true ->
  seq_fresh d.
Proof. intros Hd%bool_decide_eq_true k r Hk. by apply (Hd k r). Qed.

End Statistics.

(** ** Runs of the mutations

    Each lemma of this section runs one operation of the service on an
    arbitrary world and gives the world it ends in. *)

Section Runs.
Context `{Platform}.

Lemma calculate_next_repetition_returns created_at s name last tz :
  get_tz name = Return tz ->
  exists due,
    calculate_next_repetition created_at s name last
    = Return (due, stage_after s).
Proof.
  intros Htz. unfold calculate_next_repetition, stage_after. rewrite Htz.
  destruct (decide (0 <= s <= 6)) as [Hs|Hs].
  - assert (s = 0 \/ s = 1 \/ s = 2 \/ s = 3 \/ s = 4 \/ s = 5 \/ s = 6)
      as Hc by lia.
    destruct Hc as [->|[->|[->|[->|[->|[->| ->]]]]]]; cbn [Z.eqb Pos.eqb];
      eexists; reflexivity.
  - repeat match goal with
           | |- context [?a =? ?b] => destruct (Z.eqb_spec a b) as [?|_]; [lia|]
           end.
    eexists; reflexivity.
Qed.

(** A row whose instant the store accepts is held with the instant the
    column then holds; a row whose instant it refuses is not held. *)
Lemma stored_schedule_accepted (r : RepetitionSchedule.t) (dt dt' : datetime) :
  RepetitionSchedule.scheduled_datetime r = Some dt ->
  bind_datetime dt = Some dt' ->
  stored_schedule r
  = Some (RepetitionSchedule.mk
            (RepetitionSchedule.material_id r) (RepetitionSchedule.user_id r)
            (RepetitionSchedule.scheduled_date r)
            (RepetitionSchedule.repetition_type r)
            (RepetitionSchedule.interval_days r)
            (RepetitionSchedule.current_stage r)
            (RepetitionSchedule.is_completed r)
            (RepetitionSchedule.completed_at r)
            (RepetitionSchedule.created_at r) (Some dt')).
Proof. intros Hr Hb. unfold stored_schedule. by rewrite Hr, Hb. Qed.

Lemma stored_schedule_refused (r : RepetitionSchedule.t) (dt : datetime) :
  RepetitionSchedule.scheduled_datetime r = Some dt ->
  bind_datetime dt = None ->
  stored_schedule r = None.
Proof. intros Hr Hb. unfold stored_schedule. by rewrite Hr, Hb. Qed.

(** A naive instant is held as it is. *)
Lemma bind_datetime_naive (dt : datetime) :
  tzinfo_of dt = None -> bind_datetime dt = Some dt.
Proof. intros Hz. unfold bind_datetime. by rewrite Hz. Qed.

(** An aware instant is held as the driver binds it. *)
Lemma bind_datetime_aware (dt : datetime) (tz : tzinfo) :
  tzinfo_of dt = Some tz -> bind_datetime dt = bind_aware dt.
Proof. intros Hz. unfold bind_datetime. by rewrite Hz. Qed.

(** The first part of [mark_failed] on a material that exists, for a user
    whose timezone resolves, stated once for the two answers of the store:
    the instant of the new entry, and the world in which the entry is
    added. *)
Lemma mark_failed_run (w : World) (uid mid : Z) (failed_at : option datetime)
    (m : StudyMaterial.t) (tz : tzinfo) (due' : datetime) :
  study_materials (session w) !! mid = Some m ->
  get_tz (timezone_of_user (session w) uid) = Return tz ->
  stats_unique (user_statistics (session w)) ->
  let t := default (utcnow_at (clock w)) failed_at in
  let c := match failed_at with Some _ => clock w | None => S (clock w) end in
  let new_stage := Z.max 0 (StudyMaterial.current_stage m - 1) in
  let due := Datetime (date (localized tz t) + 1) 7 0 0 0 (Some tz) in
  bind_datetime due = Some due' ->
  let new_schedule :=
    RepetitionSchedule.mk mid uid (date due) (get_stage_name new_stage) 0
      new_stage false None (utcnow_at c) (Some due') in
  exists stats',
    stats_unique stats'
    /\ mark_failed uid mid failed_at w
       = (Return true,
          let d :=
            mkDB (users (session w))
              (<[mid := StudyMaterial.mk (StudyMaterial.user_id m)
                          (StudyMaterial.created_at m) new_stage
                          (StudyMaterial.last_success_at m)]>
                 (study_materials (session w)))
              (<[repetition_schedule_seq (session w) := new_schedule]>
                 (filter (fun kv : entry => incomplete_for uid mid kv.2 = false)
                    (repetition_schedule (session w))))
              (repetition_schedule_seq (session w) + 1)
              (repetition_results (session w))
              stats' in
          mkWorld d d (d :: d :: commits w) (S (S (S c)))).
Proof.
  intros Hm Htz Hu t c new_stage due Hb new_schedule.
  unfold mark_failed.
  destruct failed_at as [t0|]; mrun; rewrite Hm; mrun;
    rewrite (calculate_failed_repetition_eq _ _ _ _ Htz); mrun.
  all: store_run Hb; mrun.
  all: match goal with
       | |- context [_update_user_statistics ?u ?a ?s ?f ?w1] =>
           destruct (update_user_statistics_run w1 u a s f)
             as (stats' & Hu' & Hrun); [done|]
       end.
  all: rewrite Hrun; mrun; exists stats'; split; [done|]; reflexivity.
Qed.

(** [mark_failed] when the store refuses the new entry: the flush raises,
    and the deletion of the incomplete entries is rolled back with it. *)
Lemma mark_failed_refused_run (w : World) (uid mid : Z)
    (failed_at : option datetime) (m : StudyMaterial.t) (tz : tzinfo) :
  study_materials (session w) !! mid = Some m ->
  get_tz (timezone_of_user (session w) uid) = Return tz ->
  let t := default (utcnow_at (clock w)) failed_at in
  let c := match failed_at with Some _ => clock w | None => S (clock w) end in
  let due := Datetime (date (localized tz t) + 1) 7 0 0 0 (Some tz) in
  bind_datetime due = None ->
  mark_failed uid mid failed_at w
  = (Raise DBAPIError,
     mkWorld (persisted w) (persisted w) (commits w) (S c)).
Proof.
  intros Hm Htz t c due Hb.
  unfold mark_failed.
  destruct failed_at as [t0|]; mrun; rewrite Hm; mrun;
    rewrite (calculate_failed_repetition_eq _ _ _ _ Htz); mrun.
  all: store_run Hb; mrun; reflexivity.
Qed.

(** [create_initial_repetitions] for a timezone that resolves, when the
    store accepts the three rows. *)
Lemma create_initial_repetitions_run (w : World) (mid uid : Z)
    (created : datetime) (user_timezone : option string) (tz : tzinfo)
    (s s0 s1 : datetime) :
  get_tz (match user_timezone with
          | Some name => if decide (name = "") then default_timezone else name
          | None => default_timezone
          end) = Return tz ->
  let c := localized tz created in
  let due0 := add_timedelta c 0 20 in
  let due1 := if datetime_leb (Datetime (date c) 20 0 0 0 (Some tz)) c
              then Datetime (date c + 1) 20 0 0 0 (Some tz)
              else Datetime (date c) 20 0 0 0 (Some tz) in
  bind_datetime created = Some s ->
  bind_datetime due0 = Some s0 ->
  bind_datetime due1 = Some s1 ->
  let immediate :=
    RepetitionSchedule.mk mid uid (date created) "immediate" 0 0 false None
      (utcnow_at (clock w)) (Some s) in
  let short_term :=
    RepetitionSchedule.mk mid uid (date due0) "short_term" 0 1 false None
      (utcnow_at (S (clock w))) (Some s0) in
  let evening :=
    RepetitionSchedule.mk mid uid (date due1) "evening" 0 2 false None
      (utcnow_at (S (S (clock w)))) (Some s1) in
  let id0 := repetition_schedule_seq (session w) in
  create_initial_repetitions mid uid created user_timezone w
  = (Return [(id0, immediate); (id0 + 1, short_term); (id0 + 1 + 1, evening)],
     let d :=
       mkDB (users (session w)) (study_materials (session w))
         (<[id0 + 1 + 1 := evening]>
            (<[id0 + 1 := short_term]>
               (<[id0 := immediate]>
                  (filter (fun kv : entry => incomplete_for uid mid kv.2 = false)
                     (repetition_schedule (session w))))))
         (id0 + 1 + 1 + 1)
         (repetition_results (session w))
         (user_statistics (session w)) in
     mkWorld d d (d :: commits w) (S (S (S (clock w))))).
Proof.
  intros Htz c due0 due1 Hb Hb0 Hb1 immediate short_term evening id0.
  unfold create_initial_repetitions. mrun.
  rewrite (calculate_next_repetition_stage_0 _ _ _ _ Htz). mrun.
  rewrite (calculate_next_repetition_stage_1 _ _ _ _ Htz). mrun.
  store_run Hb; mrun. store_run Hb0; mrun. store_run Hb1; mrun.
  reflexivity.
Qed.

(** [create_initial_repetitions] for a timezone that resolves, when the
    store refuses one of the three rows: the flush raises, and the deletion
    of the incomplete entries is rolled back with it. *)
Lemma create_initial_repetitions_refused_run (w : World) (mid uid : Z)
    (created : datetime) (user_timezone : option string) (tz : tzinfo) :
  get_tz (match user_timezone with
          | Some name => if decide (name = "") then default_timezone else name
          | None => default_timezone
          end) = Return tz ->
  let c := localized tz created in
  let due0 := add_timedelta c 0 20 in
  let due1 := if datetime_leb (Datetime (date c) 20 0 0 0 (Some tz)) c
              then Datetime (date c + 1) 20 0 0 0 (Some tz)
              else Datetime (date c) 20 0 0 0 (Some tz) in
  bind_datetime created = None \/ bind_datetime due0 = None
  \/ bind_datetime due1 = None ->
  create_initial_repetitions mid uid created user_timezone w
  = (Raise DBAPIError,
     mkWorld (persisted w) (persisted w) (commits w) (S (S (S (clock w))))).
Proof.
  intros Htz c due0 due1 Hb.
  unfold create_initial_repetitions. mrun.
  rewrite (calculate_next_repetition_stage_0 _ _ _ _ Htz). mrun.
  rewrite (calculate_next_repetition_stage_1 _ _ _ _ Htz). mrun.
  destruct (bind_datetime created) as [s|] eqn:Hs; [|store_run Hs; mrun; done].
  store_run Hs; mrun.
  destruct (bind_datetime due0) as [s0|] eqn:Hs0;
    [|store_run Hs0; mrun; done].
  store_run Hs0; mrun.
  destruct (bind_datetime due1) as [s1|] eqn:Hs1;
    [|store_run Hs1; mrun; done].
  by destruct Hb as [?|[?|?]].
Qed.

(** [_create_next_repetition_on_success] on a material that exists, for a
    user whose timezone resolves: the instant of the next entry, and the
    run for each answer of the store. *)
Lemma create_next_repetition_on_success_run (w : World) (sid : Z)
    (cs : RepetitionSchedule.t) (m : StudyMaterial.t) (tz : tzinfo) :
  study_materials (session w) !! RepetitionSchedule.material_id cs = Some m ->
  get_tz (timezone_of_user (session w) (RepetitionSchedule.user_id cs))
  = Return tz ->
  let mid := RepetitionSchedule.material_id cs in
  let uid := RepetitionSchedule.user_id cs in
  let s := RepetitionSchedule.current_stage cs in
  exists due,
    calculate_next_repetition (StudyMaterial.created_at m) s
      (timezone_of_user (session w) uid) (Some (utcnow_at (clock w)))
    = Return (due, stage_after s)
    /\ (forall due', bind_datetime due = Some due' ->
        let next_schedule :=
          RepetitionSchedule.mk mid uid (date due)
            (get_stage_name (stage_after s)) 0 (stage_after s) false None
            (utcnow_at (S (clock w))) (Some due') in
        _create_next_repetition_on_success (sid, cs) w
        = (Return (Some (repetition_schedule_seq (session w), next_schedule)),
           let d :=
             mkDB (users (session w))
               (<[mid := StudyMaterial.mk (StudyMaterial.user_id m)
                           (StudyMaterial.created_at m) (s + 1)
                           (Some (utcnow_at (clock w)))]>
                  (study_materials (session w)))
               (<[repetition_schedule_seq (session w) := next_schedule]>
                  (filter (fun kv : entry => incomplete_for uid mid kv.2 = false)
                     (repetition_schedule (session w))))
               (repetition_schedule_seq (session w) + 1)
               (repetition_results (session w))
               (user_statistics (session w)) in
           mkWorld d d (d :: commits w) (S (S (clock w)))))
    /\ (bind_datetime due = None ->
        _create_next_repetition_on_success (sid, cs) w
        = (Raise DBAPIError,
           mkWorld (persisted w) (persisted w) (commits w) (S (S (clock w))))).
Proof.
  intros Hm Htz mid uid s. subst mid uid s.
  destruct (calculate_next_repetition_returns (StudyMaterial.created_at m)
              (RepetitionSchedule.current_stage cs)
              _ (Some (utcnow_at (clock w))) _ Htz) as [due Hdue].
  exists due. split; [done|].
  split; [intros due' Hb|intros Hb].
  all: unfold _create_next_repetition_on_success; mrun; rewrite Hm; mrun.
  all: cbn [StudyMaterial.created_at StudyMaterial.last_success_at].
  all: rewrite Hdue; mrun; store_run Hb; mrun; reflexivity.
Qed.

(** The first half of [complete_repetition] on an entry it selects: the
    entry is marked, its result added, the statistics updated, and the
    state committed (by the statistics update and once more); the second
    half then runs in that world. *)
Lemma complete_repetition_first_commit (w : World) (sid uid : Z) (ok : bool)
    (e : RepetitionSchedule.t) :
  select_incomplete (session w) sid uid = Some e ->
  stats_unique (user_statistics (session w)) ->
  let e' := mark_completed e (utcnow_at (clock w)) in
  let result :=
    RepetitionResult.mk sid uid (RepetitionSchedule.material_id e) ok
      (utcnow_at (S (clock w))) in
  exists stats',
    stats_unique stats'
    /\ let d1 :=
         mkDB (users (session w)) (study_materials (session w))
           (<[sid := e']> (repetition_schedule (session w)))
           (repetition_schedule_seq (session w))
           (repetition_results (session w) ++ [result])
           stats' in
       complete_repetition sid uid ok w
       = ((if ok
           then _create_next_repetition_on_success (sid, e');; mret tt
           else _create_next_repetition_on_failure (sid, e');; mret tt);;
          mret true)
           (mkWorld d1 d1 (d1 :: d1 :: commits w) (S (S (S (S (clock w)))))).
Proof.
  intros Hsel Hu e' result.
  unfold complete_repetition. mrun. rewrite Hsel. mrun.
  destruct ok.
  all: match goal with
       | |- context [_update_user_statistics ?u ?a ?s ?f ?w1] =>
           destruct (update_user_statistics_run w1 u a s f)
             as (stats' & Hu' & Hrun); [done|]
       end.
  all: exists stats'; split; [done|]; rewrite Hrun; mrun; reflexivity.
Qed.

End Runs.

(** ** What a completed entry survives *)

Section Keeps.
Context `{Platform}.

Lemma keeps_ret {A} P (a : A) : keeps P (mret a).
Proof. by intros w HP. Qed.

Lemma keeps_bind {A B} P (m : M A) (k : A -> M B) :
  keeps P m -> (forall a, keeps P (k a)) -> keeps P (m ≫= k).
Proof.
  intros Hm Hk w HP. unfold mbind, M_bind.
  specialize (Hm w HP). destruct (m w) as [[a|e] w']; [by apply Hk|done].
Qed.

Lemma bind_run {A B} (m : M A) (k : A -> M B) w a w' :
  m w = (Return a, w') -> (m ≫= k) w = k a w'.
Proof. intros E. unfold mbind, M_bind. by rewrite E. Qed.

Lemma keeps_lift {A} P (o : outcome A) : keeps P (lift o).
Proof. by intros w HP. Qed.

Lemma keeps_scalar_one_or_none {A} P (l : list A) :
  keeps P (scalar_one_or_none l).
Proof. intros w HP. by destruct l as [|? [|? ?]]. Qed.

Lemma bind_return_inv {A B} (m : M A) (k : A -> M B) w b w1 :
  (m ≫= k) w = (Return b, w1) ->
  exists a w', m w = (Return a, w') /\ k a w' = (Return b, w1).
Proof.
  unfold mbind, M_bind. destruct (m w) as [[a|e] w']; [eauto|done].
Qed.

Lemma bind_raise {A B} (m : M A) (k : A -> M B) w e w' :
  m w = (Raise e, w') -> (m ≫= k) w = (Raise e, w').
Proof. intros E. unfold mbind, M_bind. by rewrite E. Qed.

Lemma stored_at_weaken c sid r w :
  stored_at true sid r w -> stored_at c sid r w.
Proof. intros (Hr & Hs & Hp). split_and!; [done..|]. intros _. by apply Hp. Qed.

Lemma stored_at_committed c sid r w :
  stored_at c sid r w -> persisted w = session w -> stored_at true sid r w.
Proof. intros (Hr & Hs & _) Hp. split_and!; [done..|]. by rewrite Hp. Qed.

(** [_update_user_statistics] ends with a commit. *)
Lemma update_user_statistics_commits u a s f w x w' :
  _update_user_statistics u a s f w = (Return x, w') ->
  persisted w' = session w'.
Proof.
  unfold _update_user_statistics. mrun.
  destruct (List.filter _ _) as [|? [|? ?]]; cbn [scalar_one_or_none]; mrun;
    [| |done]; by intros [= _ <-].
Qed.

Section StoredAt.
Variables (sid : Z) (r : RepetitionSchedule.t).
Hypothesis r_completed : RepetitionSchedule.is_completed r = true.

Lemma keeps_utcnow c : keeps (stored_at c sid r) utcnow.
Proof. by intros w HP. Qed.

Lemma keeps_date_today c : keeps (stored_at c sid r) date_today.
Proof. by intros w HP. Qed.

Lemma keeps_commit c : keeps (stored_at c sid r) commit.
Proof. intros w (Hr & Hs & _). by split_and!. Qed.

Lemma keeps_get_session c : keeps (stored_at c sid r) get_session.
Proof. by intros w HP. Qed.

Lemma keeps_get_material c mid : keeps (stored_at c sid r) (get_material mid).
Proof. by intros w HP. Qed.

Lemma keeps_update_material c mid m :
  keeps (stored_at c sid r) (update_material mid m).
Proof. by intros w HP. Qed.

Lemma keeps_add_result c res : keeps (stored_at c sid r) (add_result res).
Proof. by intros w HP. Qed.

(** A committed row outlives the rollback of a refused flush. *)
Lemma keeps_add_schedule new : keeps (stored_at true sid r) (add_schedule new).
Proof.
  intros w (Hr & Hs & Hp). destruct (Hp eq_refl) as [Hp1 Hp2].
  unfold stored_at, add_schedule.
  destruct (stored_schedule new) as [new'|]; mrun; [|by split_and!].
  split_and!; [|lia|done]. rewrite lookup_insert_ne by lia. done.
Qed.

Lemma keeps_delete_incomplete c uid mid :
  keeps (stored_at c sid r) (_delete_incomplete_repetitions uid mid).
Proof.
  intros w (Hr & Hs & Hp). unfold stored_at. mrun.
  split_and!; [|done..]. apply map_lookup_filter_Some. split; [done|].
  cbn. unfold incomplete_for. rewrite r_completed. apply andb_false_r.
Qed.

Lemma keeps_update_user_statistics c u a s f :
  keeps (stored_at c sid r) (_update_user_statistics u a s f).
Proof.
  intros w (Hr & Hs & Hp). unfold _update_user_statistics, stored_at. mrun.
  destruct (List.filter _ _) as [|? [|? ?]]; cbn [scalar_one_or_none]; mrun;
    done.
Qed.

Hint Resolve keeps_ret keeps_lift keeps_scalar_one_or_none keeps_utcnow
  keeps_date_today keeps_commit keeps_get_session keeps_get_material
  keeps_update_material keeps_add_result keeps_add_schedule
  keeps_delete_incomplete keeps_update_user_statistics : keeps.

Ltac keeps_steps :=
  repeat first
    [ solve [auto with keeps]
    | apply keeps_bind; [|intros ?]
    | match goal with
      | |- keeps _ (match ?x with _ => _ end) => destruct x
      end ].

Lemma keeps_mark_failed uid mid failed_at :
  keeps (stored_at true sid r) (mark_failed uid mid failed_at).
Proof. unfold mark_failed. keeps_steps. Qed.

Lemma keeps_create_next_on_success cs :
  keeps (stored_at true sid r) (_create_next_repetition_on_success cs).
Proof. unfold _create_next_repetition_on_success. keeps_steps. Qed.

Lemma keeps_create_next_on_failure cs :
  keeps (stored_at true sid r) (_create_next_repetition_on_failure cs).
Proof. unfold _create_next_repetition_on_failure. apply keeps_mark_failed. Qed.

(** What [complete_repetition] runs after the statistics update. *)
Lemma keeps_next_repetition (ok : bool) cs :
  keeps (stored_at true sid r)
    (commit;;
     (if ok
      then _create_next_repetition_on_success cs;; mret tt
      else _create_next_repetition_on_failure cs;; mret tt);;
     mret true).
Proof.
  pose proof (keeps_create_next_on_success cs).
  pose proof (keeps_create_next_on_failure cs).
  destruct ok; keeps_steps.
Qed.

End StoredAt.

(** Once [complete_repetition] has selected an entry, the entry is stored
    as completed in the session the call ends in, however it ends; and in
    the persisted state too when the call returns. *)
Lemma complete_repetition_marks (w : World) (sid uid : Z) (ok : bool)
    (e : RepetitionSchedule.t) :
  select_incomplete (session w) sid uid = Some e ->
  seq_fresh (session w) ->
  let e' := mark_completed e (utcnow_at (clock w)) in
  stored_at false sid e' (complete_repetition sid uid ok w).2
  /\ (forall b w1, complete_repetition sid uid ok w = (Return b, w1) ->
        stored_at true sid e' w1).
Proof.
  intros Hsel Hfresh e'.
  assert (repetition_schedule (session w) !! sid = Some e) as Hrow.
  { unfold select_incomplete in Hsel.
    destruct (repetition_schedule (session w) !! sid) as [r|]; [|done].
    destruct (_ && _); congruence. }
  assert (RepetitionSchedule.is_completed e' = true) as He' by done.
  unfold complete_repetition.
  erewrite bind_run by reflexivity. rewrite Hsel.
  erewrite bind_run by reflexivity. cbv zeta. fold e'.
  erewrite bind_run by (unfold update_schedule; mrun; reflexivity).
  erewrite bind_run by reflexivity.
  erewrite bind_run by (unfold add_result; mrun; reflexivity).
  match goal with
  | |- context [(_ ≫= _) ?w1] => set (wa := w1)
  end.
  assert (stored_at false sid e' wa) as Ha.
  { split_and!; [apply lookup_insert_eq | by eapply Hfresh | done]. }
  pose proof (keeps_next_repetition sid e' He' ok (sid, e')) as Hn.
  match goal with
  | |- context [(?m ≫= _) wa] => set (stats := m)
  end.
  assert (keeps (stored_at false sid e') stats) as Hk
    by (subst stats; destruct ok; by apply keeps_update_user_statistics).
  destruct (stats wa) as [[u|ex] wb] eqn:Hstats.
  - assert (stored_at true sid e' wb) as Hb.
    { apply (stored_at_committed false).
      - specialize (Hk wa Ha). by rewrite Hstats in Hk.
      - subst stats. destruct ok; by eapply update_user_statistics_commits. }
    erewrite bind_run by exact Hstats.
    split; [apply stored_at_weaken; by apply Hn|].
    intros b w1 Hrun. specialize (Hn wb Hb). by rewrite Hrun in Hn.
  - erewrite bind_raise by exact Hstats.
    split; [|done]. specialize (Hk wa Ha). by rewrite Hstats in Hk.
Qed.

End Keeps.

(** ** Completion, failure and creation *)

Section Mutations.
Context `{Platform}.

(** The filter of the deletion, in the words of the columns. *)
Lemma incomplete_for_pending uid mid r :
  incomplete_for uid mid r = true <-> pending_of uid mid r.
Proof.
  unfold incomplete_for, pending_of.
  rewrite !andb_true_iff, negb_true_iff, !Z.eqb_eq. tauto.
Qed.

(** The schedule table after the incomplete entries of a pair are deleted
    and one row is added under the next id. *)
Lemma replaced_lookup (T : gmap Z RepetitionSchedule.t) uid mid id new k r :
  <[id := new]>
    (filter (fun kv : entry => incomplete_for uid mid kv.2 = false) T) !! k
  = Some r
  <-> (k = id /\ r = new)
      \/ (k <> id /\ T !! k = Some r /\ incomplete_for uid mid r = false).
Proof.
  destruct (decide (k = id)) as [->|Hne].
  - rewrite lookup_insert_eq. split; [intros [= ->]; auto|].
    intros [[_ ->]|[? _]]; done.
  - rewrite lookup_insert_ne by done. rewrite map_lookup_filter_Some. cbn.
    split; [intros [? ?]; auto|]. intros [[? _]|[_ ?]]; done.
Qed.

Lemma select_incomplete_Some d sid uid e :
  select_incomplete d sid uid = Some e ->
  repetition_schedule d !! sid = Some e
  /\ RepetitionSchedule.user_id e = uid
  /\ RepetitionSchedule.is_completed e = false.
Proof.
  unfold select_incomplete.
  destruct (repetition_schedule d !! sid) as [r|]; [|done].
  destruct (Z.eqb_spec (RepetitionSchedule.user_id r) uid);
    destruct (RepetitionSchedule.is_completed r) eqn:E; cbn; try done.
  by intros [= ->].
Qed.

Lemma select_incomplete_None d sid uid :
  select_incomplete d sid uid = None
  <-> repetition_schedule d !! sid = None
      \/ exists r, repetition_schedule d !! sid = Some r
                   /\ (RepetitionSchedule.is_completed r = true
                       \/ RepetitionSchedule.user_id r <> uid).
Proof.
  unfold select_incomplete.
  destruct (repetition_schedule d !! sid) as [r|]; [|split; auto].
  destruct (Z.eqb_spec (RepetitionSchedule.user_id r) uid);
    destruct (RepetitionSchedule.is_completed r) eqn:E; cbn; split;
    intros Hx; try done; try (right; eexists; split; [done|]; auto; fail).
  destruct Hx as [?|(r' & Heq & [?|?])]; [done| |];
    injection Heq as <-; congruence.
Qed.



(** The whole of [complete_repetition] on an entry it selects, whose
    material exists and whose user has a timezone that resolves: the
    state [d1] of its first two commits, the instant [due] of the follow-up
    entry, and the run for each answer of the store, ending in [d2] or
    in [d1]. *)
Lemma complete_repetition_run
    (w : World) (sid uid : Z) (ok : bool)
    (e : RepetitionSchedule.t) (m : StudyMaterial.t) (tz : tzinfo) :
  select_incomplete (session w) sid uid = Some e ->
  stats_unique (user_statistics (session w)) ->
  study_materials (session w) !! RepetitionSchedule.material_id e = Some m ->
  get_tz (timezone_of_user (session w) uid) = Return tz ->
  let e' := mark_completed e (utcnow_at (clock w)) in
  let result :=
    RepetitionResult.mk sid uid (RepetitionSchedule.material_id e) ok
      (utcnow_at (S (clock w))) in
  let mid := RepetitionSchedule.material_id e in
  let s := RepetitionSchedule.current_stage e in
  let next_stage :=
    if ok then stage_after s
    else Z.max 0 (StudyMaterial.current_stage m - 1) in
  exists (stats1 : list UserStatistics.t) (due : datetime),
    let d1 :=
      mkDB (users (session w)) (study_materials (session w))
        (<[sid := e']> (repetition_schedule (session w)))
        (repetition_schedule_seq (session w))
        (repetition_results (session w) ++ [result])
        stats1 in
    (if ok
     then calculate_next_repetition (StudyMaterial.created_at m) s
            (timezone_of_user (session w) uid)
            (Some (utcnow_at (S (S (S (S (clock w)))))))
     else calculate_failed_repetition (utcnow_at (clock w))
            (StudyMaterial.current_stage m)
            (timezone_of_user (session w) uid))
    = Return (due, next_stage)
    /\ (forall due', bind_datetime due = Some due' ->
        exists (stats2 : list UserStatistics.t) (created : datetime)
               (n : nat),
          let next :=
            RepetitionSchedule.mk mid uid (date due)
              (get_stage_name next_stage) 0 next_stage false None created
              (Some due') in
          let m' :=
            if ok
            then StudyMaterial.mk (StudyMaterial.user_id m)
                   (StudyMaterial.created_at m) (s + 1)
                   (Some (utcnow_at (S (S (S (S (clock w)))))))
            else StudyMaterial.mk (StudyMaterial.user_id m)
                   (StudyMaterial.created_at m) next_stage
                   (StudyMaterial.last_success_at m) in
          let d2 :=
            mkDB (users (session w))
              (<[mid := m']> (study_materials (session w)))
              (<[repetition_schedule_seq (session w) := next]>
                 (filter
                    (fun kv : entry => incomplete_for uid mid kv.2 = false)
                    (<[sid := e']> (repetition_schedule (session w)))))
              (repetition_schedule_seq (session w) + 1)
              (repetition_results (session w) ++ [result])
              stats2 in
          complete_repetition sid uid ok w
          = (Return true,
             mkWorld d2 d2
               (d2 :: (if ok then [] else [d2]) ++ d1 :: d1 :: commits w) n))
    /\ (bind_datetime due = None ->
        exists n : nat,
          complete_repetition sid uid ok w
          = (Raise DBAPIError, mkWorld d1 d1 (d1 :: d1 :: commits w) n)).
Proof.
  intros Hsel Hu Hm Htz e' result mid s next_stage.
  destruct (select_incomplete_Some _ _ _ _ Hsel) as (Hrow & Huid & Hinc).
  destruct (complete_repetition_first_commit w sid uid ok e Hsel Hu)
    as (stats1 & Hu1 & Hrun).
  cbv zeta in Hrun. fold e' result in Hrun. rewrite Hrun. clear Hrun.
  match goal with
  | |- context [(_ ≫= _) (mkWorld ?d _ _ ?c)] => set (d1 := d); set (c1 := c)
  end.
  subst next_stage. destruct ok.
  - destruct (create_next_repetition_on_success_run
                (mkWorld d1 d1 (d1 :: d1 :: commits w) c1) sid e' m tz)
      as (due & Hdue & Hnext & Hno); [done | by rewrite <- Huid in Htz |].
    cbv zeta in Hnext, Hno, Hdue.
    cbn [session persisted commits clock] in Hnext, Hno, Hdue.
    exists stats1, due.
    split; [subst s; rewrite <- Huid; exact Hdue|].
    split.
    + intros due' Hb. specialize (Hnext due' Hb).
      erewrite bind_run; [|erewrite bind_run; [|exact Hnext]; reflexivity].
      exists stats1. eexists _, _.
      subst d1 c1 mid s. cbn [app]. unfold mret, M_ret.
      rewrite <- Huid. reflexivity.
    + intros Hb. specialize (Hno Hb).
      erewrite bind_raise; [|erewrite bind_raise; [|exact Hno]; reflexivity].
      eexists. reflexivity.
  - exists stats1. eexists.
    split; [by apply calculate_failed_repetition_eq|].
    split.
    + intros due' Hb.
      destruct (mark_failed_run (mkWorld d1 d1 (d1 :: d1 :: commits w) c1)
                  (RepetitionSchedule.user_id e')
                  (RepetitionSchedule.material_id e')
                  (RepetitionSchedule.completed_at e') m tz due')
        as (stats2 & Hu2 & Hnext);
        [done | by rewrite <- Huid in Htz | done | exact Hb |].
      cbv zeta in Hnext. cbn [session persisted commits clock] in Hnext.
      erewrite bind_run;
        [|erewrite bind_run;
           [|unfold _create_next_repetition_on_failure; exact Hnext];
          reflexivity].
      exists stats2. eexists _, _.
      subst d1 c1 mid s. cbn [app]. unfold mret, M_ret.
      rewrite <- Huid. reflexivity.
    + intros Hb.
      pose proof (mark_failed_refused_run
                    (mkWorld d1 d1 (d1 :: d1 :: commits w) c1)
                    (RepetitionSchedule.user_id e')
                    (RepetitionSchedule.material_id e')
                    (RepetitionSchedule.completed_at e') m tz) as Hno.
      cbv zeta in Hno. cbn [session persisted commits clock] in Hno.
      erewrite bind_raise;
        [|erewrite bind_raise;
           [|unfold _create_next_repetition_on_failure; apply Hno;
             [done | by rewrite <- Huid in Htz | exact Hb]];
          reflexivity].
      eexists. reflexivity.
Qed.

(** C4 (as amended): [complete_repetition] on an entry it selects, whose
    material exists and whose user has a timezone that resolves, persists
    its effects in two steps.  The first commit holds the entry marked
    completed and its result, with no follow-up entry and the material
    untouched.  Then the follow-up entry is written, due at the instant
    the calculator gives: when the store accepts it the call returns True
    and the last commit holds, in addition, the stale incomplete entries
    deleted, the next entry created and the material's stage updated; when
    the store refuses it the call raises DBAPIError and the first commit is
    what stays persisted. *)
Theorem complete_repetition_two_commits
    (w : World) (sid uid : Z) (ok : bool)
    (e : RepetitionSchedule.t) (m : StudyMaterial.t) (tz : tzinfo) :
  select_incomplete (session w) sid uid = Some e ->
  stats_unique (user_statistics (session w)) ->
  seq_fresh (session w) ->
  study_materials (session w) !! RepetitionSchedule.material_id e = Some m ->
  get_tz (timezone_of_user (session w) uid) = Return tz ->
  let e' := mark_completed e (utcnow_at (clock w)) in
  let result :=
    RepetitionResult.mk sid uid (RepetitionSchedule.material_id e) ok
      (utcnow_at (S (clock w))) in
  let mid := RepetitionSchedule.material_id e in
  let id := repetition_schedule_seq (session w) in
  let next_stage :=
    if ok then stage_after (RepetitionSchedule.current_stage e)
    else Z.max 0 (StudyMaterial.current_stage m - 1) in
  exists (d1 : DB) (due : datetime),
    (* the first commit *)
    repetition_schedule d1 = <[sid := e']> (repetition_schedule (session w))
    /\ repetition_results d1 = repetition_results (session w) ++ [result]
    /\ study_materials d1 = study_materials (session w)
    (* the instant of the follow-up entry *)
    /\ (if ok
        then calculate_next_repetition (StudyMaterial.created_at m)
               (RepetitionSchedule.current_stage e)
               (timezone_of_user (session w) uid)
               (Some (utcnow_at (S (S (S (S (clock w)))))))
        else calculate_failed_repetition (utcnow_at (clock w))
               (StudyMaterial.current_stage m)
               (timezone_of_user (session w) uid))
       = Return (due, next_stage)
    /\ match bind_datetime due with
       | Some due' =>
           (* the last commit *)
           exists (d2 : DB) (between : list DB) (w' : World),
             complete_repetition sid uid ok w = (Return true, w')
             /\ session w' = d2 /\ persisted w' = d2
             /\ commits w' = d2 :: between ++ d1 :: d1 :: commits w
             /\ (between = [] \/ between = [d2])
             /\ repetition_schedule d2 !! sid = Some e'
             /\ repetition_results d2
                = repetition_results (session w) ++ [result]
             /\ (forall k r, repetition_schedule d2 !! k = Some r ->
                   pending_of uid mid r -> k = id)
             /\ exists next m',
                  repetition_schedule d2 !! id = Some next
                  /\ pending_of uid mid next
                  /\ RepetitionSchedule.repetition_type next
                     = get_stage_name next_stage
                  /\ RepetitionSchedule.current_stage next = next_stage
                  /\ RepetitionSchedule.scheduled_date next = date due
                  /\ RepetitionSchedule.scheduled_datetime next = Some due'
                  /\ study_materials d2 !! mid = Some m'
                  /\ StudyMaterial.current_stage m'
                     = (if ok then RepetitionSchedule.current_stage e + 1
                        else Z.max 0 (StudyMaterial.current_stage m - 1))
       | None =>
           exists w' : World,
             complete_repetition sid uid ok w = (Raise DBAPIError, w')
             /\ session w' = d1 /\ persisted w' = d1
             /\ commits w' = d1 :: d1 :: commits w
       end.
Proof.
  intros Hsel Hu Hfresh Hm Htz e' result mid id next_stage.
  destruct (select_incomplete_Some _ _ _ _ Hsel) as (Hrow & Huid & Hinc).
  destruct (complete_repetition_run w sid uid ok e m tz Hsel Hu Hm Htz)
    as (stats1 & due & Hdue & Hyes & Hno).
  cbv zeta in Hdue, Hyes, Hno. fold e' result mid id next_stage in Hyes, Hno.
  assert (sid < id) as Hlt by (by eapply Hfresh).
  exists (mkDB (users (session w)) (study_materials (session w))
            (<[sid := e']> (repetition_schedule (session w))) id
            (repetition_results (session w) ++ [result]) stats1), due.
  split; [reflexivity|]. split; [reflexivity|]. split; [reflexivity|].
  split; [exact Hdue|].
  destruct (bind_datetime due) as [due'|] eqn:Hb.
  - destruct (Hyes due' eq_refl) as (stats2 & created & n & Hrun).
    eexists _, (if ok then [] else [_]), _. split; [exact Hrun|].
    cbn [session persisted commits repetition_schedule repetition_results
         study_materials].
    split_and!; try reflexivity.
    + destruct ok; auto.
    + apply replaced_lookup. right. split; [lia|].
      split; [apply lookup_insert_eq|].
      unfold incomplete_for, e'. cbn. apply andb_false_r.
    + intros k r [[-> _]|(_ & _ & Hk)]%replaced_lookup;
        [done|intros ?%incomplete_for_pending; congruence].
    + eexists _, _. split; [apply lookup_insert_eq|].
      split; [|split; [reflexivity|]; split; [reflexivity|];
               split; [reflexivity|]; split; [reflexivity|];
               split; [apply lookup_insert_eq|by destruct ok]].
      apply incomplete_for_pending.
      unfold incomplete_for. cbn. by rewrite !Z.eqb_refl.
  - destruct (Hno eq_refl) as (n & Hrun).
    eexists. split; [exact Hrun|]. done.
Qed.

(** C5 (as amended): for a material that exists and a user whose timezone
    resolves.  A successful completion of an entry of stage 0..7, a
    completion reported as failed and [mark_failed] write the follow-up
    entry and the material's stage in one commit: when the store accepts
    the entry, due at the instant the calculator gives, the call returns
    True and the committed state holds exactly one incomplete entry of the
    user for the material, whose stage is the material's stage; when the
    store refuses it, the call raises DBAPIError, the materials are as
    before the call and no entry is created.
    [create_initial_repetitions] leaves the materials as they are; when the
    store accepts its rows it stores three incomplete entries, of stages 0,
    1 and 2, and when not it raises DBAPIError and persists nothing. *)
Theorem material_stage_follows_entry
    (w : World) (uid mid : Z) (m : StudyMaterial.t) (tz : tzinfo) :
  study_materials (session w) !! mid = Some m ->
  get_tz (timezone_of_user (session w) uid) = Return tz ->
  stats_unique (user_statistics (session w)) ->
  seq_fresh (session w) ->
  (forall sid e ok,
     select_incomplete (session w) sid uid = Some e ->
     RepetitionSchedule.material_id e = mid ->
     (ok = true -> 0 <= RepetitionSchedule.current_stage e <= 7) ->
     exists (due : datetime) (next_stage : Z) (w' : World),
       (if ok
        then calculate_next_repetition (StudyMaterial.created_at m)
               (RepetitionSchedule.current_stage e)
               (timezone_of_user (session w) uid)
               (Some (utcnow_at (S (S (S (S (clock w)))))))
        else calculate_failed_repetition (utcnow_at (clock w))
               (StudyMaterial.current_stage m)
               (timezone_of_user (session w) uid))
       = Return (due, next_stage)
       /\ persisted w' = session w'
       /\ match bind_datetime due with
          | Some _ =>
              complete_repetition sid uid ok w = (Return true, w')
              /\ stage_invariant_spec uid mid (session w')
          | None =>
              complete_repetition sid uid ok w = (Raise DBAPIError, w')
              /\ study_materials (session w') = study_materials (session w)
              /\ repetition_schedule (session w')
                 = <[sid := mark_completed e (utcnow_at (clock w))]>
                     (repetition_schedule (session w))
          end)
  /\ (forall failed_at,
        exists (due : datetime) (next_stage : Z) (w' : World),
          calculate_failed_repetition
            (default (utcnow_at (clock w)) failed_at)
            (StudyMaterial.current_stage m)
            (timezone_of_user (session w) uid)
          = Return (due, next_stage)
          /\ match bind_datetime due with
             | Some _ =>
                 mark_failed uid mid failed_at w = (Return true, w')
                 /\ persisted w' = session w'
                 /\ stage_invariant_spec uid mid (session w')
             | None =>
                 mark_failed uid mid failed_at w = (Raise DBAPIError, w')
                 /\ session w' = persisted w
                 /\ persisted w' = persisted w
             end)
  /\ (forall created user_timezone tz',
        let timezone :=
          match user_timezone with
          | Some name =>
              if decide (name = "") then default_timezone else name
          | None => default_timezone
          end in
        get_tz timezone = Return tz' ->
        exists (due0 due1 : datetime) (w' : World),
          calculate_next_repetition created 0 timezone None
          = Return (due0, 1)
          /\ calculate_next_repetition created 1 timezone None
             = Return (due1, 2)
          /\ match bind_datetime created, bind_datetime due0,
                   bind_datetime due1 with
             | Some _, Some _, Some _ =>
                 exists id0 r0 r1 r2,
                   create_initial_repetitions mid uid created user_timezone w
                   = (Return [(id0, r0); (id0 + 1, r1); (id0 + 2, r2)], w')
                   /\ study_materials (session w')
                      = study_materials (session w)
                   /\ repetition_schedule (session w') !! id0 = Some r0
                   /\ repetition_schedule (session w') !! (id0 + 1) = Some r1
                   /\ repetition_schedule (session w') !! (id0 + 2) = Some r2
                   /\ pending_of uid mid r0
                   /\ pending_of uid mid r1
                   /\ pending_of uid mid r2
                   /\ RepetitionSchedule.current_stage r0 = 0
                   /\ RepetitionSchedule.current_stage r1 = 1
                   /\ RepetitionSchedule.current_stage r2 = 2
             | _, _, _ =>
                 create_initial_repetitions mid uid created user_timezone w
                 = (Raise DBAPIError, w')
                 /\ session w' = persisted w
                 /\ persisted w' = persisted w
             end).
Proof.
  intros Hm Htz Hu Hfresh. split_and!.
  - intros sid e ok Hsel Hmid Hstage. rewrite <- Hmid in Hm.
    destruct (complete_repetition_run w sid uid ok e m tz Hsel Hu Hm Htz)
      as (stats1 & due & Hdue & Hyes & Hno).
    cbv zeta in Hdue, Hyes, Hno. exists due. eexists.
    destruct (bind_datetime due) as [due'|] eqn:Hb.
    + destruct (Hyes due' eq_refl) as (stats2 & created & n & Hrun).
      eexists. split; [exact Hdue|].
      split; [|split; [exact Hrun|]]; cbn [session persisted]; [done|].
      rewrite <- Hmid.
      eexists (repetition_schedule_seq (session w)), _, _.
      cbn [repetition_schedule study_materials].
      split; [apply lookup_insert_eq|].
      split; [by split_and!|].
      split; [|split; [apply lookup_insert_eq|]].
      * intros k r [[-> _]|(_ & _ & Hk)]%replaced_lookup;
          [done|intros ?%incomplete_for_pending; congruence].
      * destruct ok; [|reflexivity].
        cbn. unfold stage_after. specialize (Hstage eq_refl).
        destruct (decide _); lia.
    + destruct (Hno eq_refl) as (n & Hrun).
      eexists. split; [exact Hdue|].
      split; [|split; [exact Hrun|]]; cbn [session persisted]; done.
  - intros failed_at. eexists _, _.
    destruct (bind_datetime _) as [due'|] eqn:Hb.
    + destruct (mark_failed_run w uid mid failed_at m tz due' Hm Htz Hu Hb)
        as (stats' & _ & Hrun).
      cbv zeta in Hrun. eexists.
      split; [by apply calculate_failed_repetition_eq|].
      split; [exact Hrun|].
      cbn [session persisted]. split; [done|].
      eexists (repetition_schedule_seq (session w)), _, _.
      cbn [repetition_schedule study_materials].
      split; [apply lookup_insert_eq|].
      split; [by split_and!|].
      split; [|split; [apply lookup_insert_eq|reflexivity]].
      intros k r [[-> _]|(_ & _ & Hk)]%replaced_lookup;
        [done|intros ?%incomplete_for_pending; congruence].
    + pose proof (mark_failed_refused_run w uid mid failed_at m tz Hm Htz Hb)
        as Hrun.
      eexists.
      split; [by apply calculate_failed_repetition_eq|].
      split; [exact Hrun|]. done.
  - intros created user_timezone tz' timezone Htz'.
    eexists _, _.
    pose proof (create_initial_repetitions_refused_run w mid uid created
                  user_timezone tz' Htz') as Hno.
    cbv zeta in Hno.
    destruct (bind_datetime created) as [s|] eqn:Hs;
      [|eexists; split; [by apply calculate_next_repetition_stage_0|];
        split; [by apply calculate_next_repetition_stage_1|];
        split; [apply Hno; by left|done]].
    destruct (bind_datetime (add_timedelta _ _ _)) as [s0|] eqn:Hs0;
      [|eexists; split; [by apply calculate_next_repetition_stage_0|];
        split; [by apply calculate_next_repetition_stage_1|];
        split; [apply Hno; right; by left|done]].
    match goal with
    | |- context [bind_datetime ?x] =>
        destruct (bind_datetime x) as [s1|] eqn:Hs1;
          [|eexists; split; [by apply calculate_next_repetition_stage_0|];
            split; [by apply calculate_next_repetition_stage_1|];
            split; [apply Hno; right; by right|done]]
    end.
    clear Hno.
    pose proof (create_initial_repetitions_run w mid uid created user_timezone
                  tz' s s0 s1 Htz' Hs Hs0 Hs1) as Hrun.
    cbv zeta in Hrun.
    set (id0 := repetition_schedule_seq (session w)) in *.
    replace (id0 + 1 + 1) with (id0 + 2) in Hrun by lia.
    eexists.
    split; [by apply calculate_next_repetition_stage_0|].
    split; [by apply calculate_next_repetition_stage_1|].
    eexists id0, _, _, _. split; [exact Hrun|].
    cbn [session study_materials repetition_schedule].
    split; [done|].
    rewrite lookup_insert_eq.
    rewrite (lookup_insert_ne _ (id0 + 2) (id0 + 1)) by lia.
    rewrite lookup_insert_eq.
    rewrite (lookup_insert_ne _ (id0 + 2) id0) by lia.
    rewrite (lookup_insert_ne _ (id0 + 1) id0) by lia.
    rewrite lookup_insert_eq.
    unfold pending_of. cbn. done.
Qed.

End Mutations.

(** ** The expiry sweep *)

Section Sweep.
Context `{Platform}.

Lemma expired_intraday_spec today r :
  expired_intraday today r = true <-> expired_spec today r.
Proof.
  unfold expired_intraday, expired_spec, intraday_types.
  rewrite !andb_true_iff, negb_true_iff, bool_decide_eq_true, Z.ltb_lt.
  tauto.
Qed.

(** One turn of the loop. *)
Lemma expire_one_run (w : World) (count : Z) (e : entry) :
  stats_unique (user_statistics (session w)) ->
  exists stats',
    stats_unique stats'
    /\ expire_one count e w
       = (Return (count + 1),
          let d :=
            mkDB (users (session w)) (study_materials (session w))
              (<[e.1 := mark_completed e.2 (utcnow_at (clock w))]>
                 (repetition_schedule (session w)))
              (repetition_schedule_seq (session w))
              (repetition_results (session w) ++
               [RepetitionResult.mk e.1 (RepetitionSchedule.user_id e.2)
                  (RepetitionSchedule.material_id e.2) false
                  (utcnow_at (S (clock w)))])
              stats' in
          mkWorld d d (d :: commits w) (S (S (S (S (clock w)))))).
Proof.
  intros Hu. unfold expire_one. mrun.
  match goal with
  | |- context [_update_user_statistics ?u ?a ?s ?f ?w1] =>
      destruct (update_user_statistics_run w1 u a s f)
        as (stats' & Hu' & Hrun); [done|]
  end.
  exists stats'. split; [done|]. rewrite Hrun. mrun. reflexivity.
Qed.

(** The loop, by induction on the entries it visits. *)
Lemma expire_loop_run (l : list entry) :
  NoDup l.*1 ->
  forall (w : World) (count : Z),
    stats_unique (user_statistics (session w)) ->
    exists w',
      for_loop l count expire_one w
      = (Return (count + Z.of_nat (length l)), w')
      /\ swept l w w'.
Proof.
  induction l as [|[k r] l IH]; intros Hnd w count Hu.
  - exists w. split.
    { cbn [for_loop length]. replace (count + Z.of_nat 0) with count by lia.
      reflexivity. }
    unfold swept. split_and!; try done.
    + by intros k r ?%elem_of_nil.
    + exists []. by rewrite app_nil_r.
  - cbn in Hnd. apply NoDup_cons in Hnd as [Hk Hnd].
    destruct (expire_one_run w count (k, r) Hu) as (stats1 & Hu1 & Hone).
    cbv zeta in Hone. cbn [fst snd] in Hone.
    cbn [for_loop]. erewrite bind_run by exact Hone.
    match goal with
    | |- context [for_loop l _ expire_one ?w1] =>
        destruct (IH Hnd w1 (count + 1) Hu1) as (w' & Hloop & Hswept);
        set (w1' := w1) in *
    end.
    exists w'. split.
    { rewrite Hloop. cbn [length].
      replace (count + 1 + Z.of_nat (length l))
        with (count + Z.of_nat (S (length l))) by lia.
      reflexivity. }
    destruct Hswept as (Hus & Hms & Hseq & Hst & Hother & Hdone & Hres & Hp & He).
    unfold swept. split_and!; try done.
    + intros k' Hk'. cbn in Hk'. apply not_elem_of_cons in Hk' as [Hne Hk'].
      rewrite (Hother k' Hk'). subst w1'.
      cbn [session repetition_schedule]. by rewrite lookup_insert_ne.
    + intros k' r' [[= -> ->]|Hin]%elem_of_cons; [|by apply Hdone].
      exists (utcnow_at (clock w)). rewrite (Hother k Hk). subst w1'.
      cbn [session repetition_schedule]. apply lookup_insert_eq.
    + destruct Hres as (new & Hnew & Hall).
      eexists (_ :: new). split.
      * rewrite Hnew. subst w1'. cbn [session repetition_results].
        by rewrite <- app_assoc.
      * constructor; [|done]. by repeat split.
    + intros _. destruct l as [|e' l'].
      * by rewrite (He eq_refl).
      * by apply Hp.
Qed.

(** The sweep, with the marking written as [mark_completed]. *)
Lemma sweep_marks_completed (w : World) :
  stats_unique (user_statistics (session w)) ->
  let today := today_at (clock w) in
  let T := repetition_schedule (session w) in
  exists (count : Z) (w' : World) (new : list RepetitionResult.t),
    let T' := repetition_schedule (session w') in
    auto_complete_expired_intraday_repetitions w = (Return count, w')
    /\ count = Z.of_nat (length new)
    /\ repetition_results (session w') = repetition_results (session w) ++ new
    /\ Forall (fun res => RepetitionResult.was_successful res = false) new
    /\ NoDup (map RepetitionResult.schedule_id new)
    /\ (forall k, k ∈ map RepetitionResult.schedule_id new <->
                  exists r, T !! k = Some r /\ expired_spec today r)
    /\ (forall k r, T !! k = Some r -> expired_spec today r ->
          exists t, T' !! k = Some (mark_completed r t))
    /\ (forall k r, T !! k = Some r -> ~ expired_spec today r ->
          T' !! k = Some r)
    /\ (forall k, T !! k = None -> T' !! k = None)
    /\ repetition_schedule_seq (session w')
       = repetition_schedule_seq (session w)
    /\ study_materials (session w') = study_materials (session w)
    /\ (0 < count -> persisted w' = session w').
Proof.
  intros Hu today T.
  set (l := List.filter (fun e : entry => expired_intraday today e.2)
                        (map_to_list T)).
  assert (forall k r, (k, r) ∈ l <-> T !! k = Some r /\ expired_spec today r)
    as Hl.
  { intros k r. unfold l.
    rewrite list_elem_of_In, filter_In, <- list_elem_of_In,
      elem_of_map_to_list, expired_intraday_spec. reflexivity. }
  assert (NoDup l.*1) as Hnd.
  { unfold l. clear Hl. pose proof (NoDup_fst_map_to_list T) as HT.
    induction (map_to_list T) as [|[k r] m IH]; [constructor|].
    cbn in HT. apply NoDup_cons in HT as [Hk HT]. cbn.
    destruct (expired_intraday today r); [|by apply IH].
    cbn. constructor; [|by apply IH].
    intros [[k' r'] [Heq Hin]]%list_elem_of_fmap. cbn in Heq. subst k'.
    apply list_elem_of_In, filter_In in Hin as [Hin _].
    apply Hk, list_elem_of_fmap. exists (k, r'). split; [done|].
    by apply list_elem_of_In. }
  destruct (expire_loop_run l Hnd
              (mkWorld (session w) (persisted w) (commits w) (S (clock w)))
              0 Hu)
    as (w1 & Hloop & Hus & Hms & Hseq & Hst & Hother & Hdone & Hres & Hp & He).
  cbn [session] in Hus, Hms, Hseq, Hother, Hres.
  destruct Hres as (new & Hnew & Hall).
  assert (length new = length l) as Hlen by (symmetry; eapply Forall2_length, Hall).
  assert (map RepetitionResult.schedule_id new = l.*1) as Hids.
  { clear -Hall. induction Hall as [|e res l new (He & _) _ IH]; [done|].
    cbn. by rewrite He, IH. }
  assert (exists w',
            auto_complete_expired_intraday_repetitions w
            = (Return (0 + Z.of_nat (length l)), w')
            /\ session w' = session w1
            /\ (l <> [] -> persisted w' = session w')) as (w' & Hrun & Hs & Hp').
  { unfold auto_complete_expired_intraday_repetitions.
    erewrite bind_run by reflexivity.
    erewrite bind_run by reflexivity.
    cbn [session]. fold T today l.
    erewrite bind_run by exact Hloop.
    destruct (Z.ltb_spec 0 (0 + Z.of_nat (length l))).
    - erewrite bind_run by reflexivity.
      eexists. split; [reflexivity|]. done.
    - erewrite bind_run by reflexivity.
      eexists. split; [reflexivity|].
      split; [done|]. destruct l; [done|]. cbn [length] in *. lia. }
  rewrite Z.add_0_l in Hrun.
  exists (Z.of_nat (length l)), w', new. cbv zeta. rewrite Hs.
  split_and!; try done.
  - by rewrite Hlen.
  - clear -Hall. induction Hall as [|e res l new (_ & _ & _ & He) _ IH];
      constructor; done.
  - by rewrite Hids.
  - intros k. rewrite Hids, list_elem_of_fmap. split.
    + intros [[k' r] [-> Hin]]. exists r. by apply Hl.
    + intros [r Hr]. exists (k, r). split; [done|]. by apply Hl.
  - intros k r Hk Hexp. apply (Hdone k r). by apply Hl.
  - intros k r Hk Hexp. rewrite Hother; [done|].
    intros [[k' r'] [Heq Hin]]%list_elem_of_fmap. cbn in Heq. subst k'.
    apply Hl in Hin as [Hk' Hexp']. congruence.
  - intros k Hk. rewrite Hother; [done|].
    intros [[k' r'] [Heq Hin]]%list_elem_of_fmap. cbn in Heq. subst k'.
    apply Hl in Hin as [Hk' _]. congruence.
  - intros Hc. rewrite <- Hs. apply Hp'. intros ->. cbn in Hc. lia.
Qed.

(** C8: with at most one statistics row per user and day, the sweep
    returns the number of entries that are incomplete, of an intraday kind
    and scheduled before today; it marks each of them completed, setting
    is_completed and completed_at and no other column, and writes one
    result with was_successful = False for each; it changes no other
    entry, creates no entry, and leaves the materials as they are. *)
Theorem auto_complete_expired_intraday_repetitions_spec (w : World) :
  stats_unique (user_statistics (session w)) ->
  let today := today_at (clock w) in
  let T := repetition_schedule (session w) in
  exists (count : Z) (w' : World) (new : list RepetitionResult.t),
    let T' := repetition_schedule (session w') in
    auto_complete_expired_intraday_repetitions w = (Return count, w')
    /\ count = Z.of_nat (length new)
    /\ repetition_results (session w') = repetition_results (session w) ++ new
    /\ Forall (fun res => RepetitionResult.was_successful res = false) new
    /\ NoDup (map RepetitionResult.schedule_id new)
    /\ (forall k, k ∈ map RepetitionResult.schedule_id new <->
                  exists r, T !! k = Some r /\ expired_spec today r)
    /\ (forall k r, T !! k = Some r -> expired_spec today r ->
          exists (r' : RepetitionSchedule.t) (t : datetime),
            T' !! k = Some r'
            /\ RepetitionSchedule.is_completed r' = true
            /\ RepetitionSchedule.completed_at r' = Some t
            /\ RepetitionSchedule.material_id r'
               = RepetitionSchedule.material_id r
            /\ RepetitionSchedule.user_id r' = RepetitionSchedule.user_id r
            /\ RepetitionSchedule.scheduled_date r'
               = RepetitionSchedule.scheduled_date r
            /\ RepetitionSchedule.repetition_type r'
               = RepetitionSchedule.repetition_type r
            /\ RepetitionSchedule.interval_days r'
               = RepetitionSchedule.interval_days r
            /\ RepetitionSchedule.current_stage r'
               = RepetitionSchedule.current_stage r
            /\ RepetitionSchedule.created_at r'
               = RepetitionSchedule.created_at r
            /\ RepetitionSchedule.scheduled_datetime r'
               = RepetitionSchedule.scheduled_datetime r)
    /\ (forall k r, T !! k = Some r -> ~ expired_spec today r ->
          T' !! k = Some r)
    /\ (forall k, T !! k = None -> T' !! k = None)
    /\ repetition_schedule_seq (session w')
       = repetition_schedule_seq (session w)
    /\ study_materials (session w') = study_materials (session w)
    /\ (0 < count -> persisted w' = session w').
Proof.
  intros Hu today T.
  destruct (sweep_marks_completed w Hu)
    as (count & w' & new & Hrun & Hc & Hres & Hall & Hnd & Hids & Hdone
        & Hother & Hnone & Hseq & Hms & Hp).
  exists count, w', new. cbv zeta.
  split_and!; try done.
  intros k r Hk Hexp. destruct (Hdone k r Hk Hexp) as [t Ht].
  exists (mark_completed r t), t. by split_and!.
Qed.

End Sweep.

(** ** More on the calculators and the stage table *)

Section MoreCalculators.
Context `{Platform}.

Lemma get_tz_returns name :
  (exists tz, get_tz name = Return tz)
  <-> zoneinfo_has name = true \/ pytz_has name = true.
Proof.
  unfold get_tz.
  destruct (zoneinfo_has name), (pytz_has name); split;
    try (intros _; eauto; fail); intros Hx.
  all: try (destruct Hx as [? Hx]; discriminate).
  destruct Hx; discriminate.
Qed.

Lemma get_tz_raises name :
  get_tz name = Raise UnknownTimeZoneError
  <-> zoneinfo_has name = false /\ pytz_has name = false.
Proof.
  unfold get_tz.
  destruct (zoneinfo_has name), (pytz_has name); split;
    try done; intros [? ?]; done.
Qed.

Lemma calculate_next_repetition_else created_at s name last tz :
  get_tz name = Return tz ->
  s < 0 \/ 7 <= s ->
  calculate_next_repetition created_at s name last
  = Return (Datetime
              (date (match last with
                     | Some l => localized tz l
                     | None => localized tz created_at
                     end) + 30) 7 0 0 0 (Some tz), 8).
Proof.
  intros Htz Hs. unfold calculate_next_repetition. rewrite Htz.
  repeat match goal with
         | |- context [?a =? ?b] => destruct (Z.eqb_spec a b) as [?|_]; [lia|]
         end.
  rewrite morning_after_eq. do 3 f_equal.
  destruct last; [done|]. by rewrite localized_idemp.
Qed.

(** X1: [calculate_next_repetition] raises exactly when neither zoneinfo
    nor pytz knows the timezone name; otherwise it returns, for every
    integer stage, a next stage between 1 and 8: s + 1 for 0 <= s <= 6 and
    8 for every other stage, the negative ones included, which are treated
    as the monthly phase. *)
Theorem calculate_next_repetition_outcome
    (created_at : datetime) (s : Z) (name : string)
    (last : option datetime) :
  (zoneinfo_has name = false /\ pytz_has name = false ->
   calculate_next_repetition created_at s name last
   = Raise UnknownTimeZoneError)
  /\ (zoneinfo_has name = true \/ pytz_has name = true ->
      exists due next tz,
        get_tz name = Return tz
        /\ calculate_next_repetition created_at s name last
           = Return (due, next)
        /\ 1 <= next <= 8
        /\ (0 <= s <= 6 -> next = s + 1)
        /\ (s < 0 \/ 7 <= s ->
            next = 8
            /\ due = Datetime
                       (date (match last with
                              | Some l => localized tz l
                              | None => localized tz created_at
                              end) + 30) 7 0 0 0 (Some tz))).
Proof.
  split.
  - intros Hno%get_tz_raises. unfold calculate_next_repetition.
    by rewrite Hno.
  - intros [tz Htz]%get_tz_returns.
    destruct (calculate_next_repetition_returns created_at s name last tz Htz)
      as [due Hdue].
    exists due, (stage_after s), tz. split; [done|]. split; [done|].
    unfold stage_after. destruct (decide (0 <= s <= 6)) as [Hs|Hs].
    + split; [lia|]. split; [done|]. lia.
    + split; [lia|]. split; [lia|]. intros Helse. split; [done|].
      rewrite (calculate_next_repetition_else _ _ _ _ _ Htz Helse) in Hdue.
      unfold stage_after in Hdue. rewrite decide_False in Hdue by done.
      congruence.
Qed.

(** X2: in the monthly phase, feeding the due instant back as the last
    success n + 1 times gives 07:00 local of the day 30 * (n + 1) days
    after the local date of the first last success: the interval between
    two consecutive due dates is exactly 30 days. *)
Theorem monthly_chain_30_days
    (n : nat) (created_at last_success : datetime) (name : string)
    (tz : tzinfo) :
  get_tz name = Return tz ->
  monthly_chain (S n) created_at name last_success
  = Return (Datetime
              (date (localized tz last_success) + 30 * Z.of_nat (S n))
              7 0 0 0 (Some tz)).
Proof.
  intros Htz. revert last_success.
  induction n as [|n IH]; intros last_success.
  - cbn [monthly_chain].
    rewrite (calculate_next_repetition_else _ 8 _ _ _ Htz) by lia.
    do 2 f_equal; lia.
  - change (monthly_chain (S (S n)) created_at name last_success)
      with (match calculate_next_repetition created_at 8 name
                    (Some last_success) with
            | Return (next_due_at, _) =>
                monthly_chain (S n) created_at name next_due_at
            | Raise e => Raise e
            end).
    rewrite (calculate_next_repetition_else _ 8 _ _ _ Htz) by lia.
    rewrite IH. do 2 f_equal.
    unfold localized at 1, astimezone.
    cbn [tzinfo_of]. rewrite decide_True by done.
    unfold date. cbn [ordinal]. lia.
Qed.

Lemma datetime_leb_later_day (a b : datetime) :
  ordinal b < ordinal a -> datetime_leb a b = false.
Proof.
  intros Hlt. unfold datetime_leb, datetime_key. cbn [lex_leb].
  destruct (Z.ltb_spec (ordinal a) (ordinal b)); [lia|].
  destruct (Z.eqb_spec (ordinal a) (ordinal b)); [lia|]. done.
Qed.

Lemma add_20_minutes_later (c : datetime) :
  well_formed_time c -> datetime_leb (add_timedelta c 0 20) c = false.
Proof.
  intros (Hh & Hm & Hs).
  unfold datetime_leb, datetime_key, add_timedelta.
  cbn [lex_leb ordinal hour minute second microsecond].
  set (secs := hour c * 3600 + minute c * 60 + second c + 20 * 60).
  assert (1200 <= secs < 86400 + 1200) as Hsecs by (unfold secs; lia).
  destruct (Z.ltb_spec (ordinal c + 0 + secs `div` 86400) (ordinal c))
    as [Hlt|_].
  { exfalso. revert Hlt. unfold secs. Z.div_mod_to_equations. lia. }
  destruct (Z.eqb_spec (ordinal c + 0 + secs `div` 86400) (ordinal c))
    as [Heq|_]; [|done].
  assert (secs `mod` 86400 = secs) as ->.
  { revert Heq. unfold secs. Z.div_mod_to_equations. lia. }
  assert (secs < 86400)
    by (revert Heq; unfold secs; Z.div_mod_to_equations; lia).
  cbn [orb andb].
  destruct (Z.ltb_spec (secs `div` 3600) (hour c)) as [Hlt|_].
  { exfalso. revert Hlt. unfold secs. Z.div_mod_to_equations. lia. }
  destruct (Z.eqb_spec (secs `div` 3600) (hour c)) as [Heq1|_]; [|done].
  cbn [orb andb].
  destruct (Z.ltb_spec ((secs `mod` 3600) `div` 60) (minute c)) as [Hlt|_].
  { exfalso. revert Hlt Heq1. unfold secs. Z.div_mod_to_equations. lia. }
  destruct (Z.eqb_spec ((secs `mod` 3600) `div` 60) (minute c))
    as [Heq2|_]; [|done].
  exfalso. revert Heq1 Heq2. unfold secs. Z.div_mod_to_equations. lia.
Qed.

(** X3: for the stages 0 to 6 and a creation instant with a time of day in
    range, the due instant is strictly later than the creation instant as
    taken in the zone: the calculator never schedules the next repetition
    at or before the creation. *)
Theorem calculate_next_repetition_after_creation
    (created_at : datetime) (s : Z) (name : string)
    (last : option datetime) (tz : tzinfo) :
  get_tz name = Return tz ->
  0 <= s <= 6 ->
  well_formed_time (localized tz created_at) ->
  exists due next,
    calculate_next_repetition created_at s name last = Return (due, next)
    /\ datetime_ltb (localized tz created_at) due = true.
Proof.
  intros Htz Hs Hwf. set (c := localized tz created_at) in *.
  unfold datetime_ltb.
  assert (s = 0 \/ s = 1 \/ 2 <= s <= 6) as [->|[->|Hs']] by lia.
  - rewrite (calculate_next_repetition_stage_0 _ _ _ _ Htz). fold c.
    eexists _, _. split; [done|]. by rewrite add_20_minutes_later.
  - rewrite (calculate_next_repetition_stage_1 _ _ _ _ Htz). cbv zeta. fold c.
    eexists _, _. split; [done|].
    destruct (datetime_leb (Datetime (date c) 20 0 0 0 (Some tz)) c) eqn:E.
    + rewrite datetime_leb_later_day; [done|]. unfold date. cbn. lia.
    + by rewrite E.
  - unfold calculate_next_repetition. rewrite Htz. fold c.
    assert (s = 2 \/ s = 3 \/ s = 4 \/ s = 5 \/ s = 6) as Hc by lia.
    destruct Hc as [->|[->|[->|[-> | ->]]]]; cbn [Z.eqb Pos.eqb];
      rewrite morning_after_eq; eexists _, _; (split; [done|]);
      rewrite datetime_leb_later_day; try done; unfold date; cbn; lia.
Qed.

(** X4: how a failure and a success compose on the stage.  For a stage
    1..8 a failure followed by a success gives the stage back; for a stage
    0..7 a success followed by a failure gives the stage back.  At the two
    ends they do not: from stage 0 a failure and a success lead to stage 1,
    and from stage 8 a success and a failure lead to stage 7. *)
Theorem failure_and_success_compose
    (created_at failed_at : datetime) (s : Z) (name : string)
    (last : option datetime) (tz : tzinfo) :
  get_tz name = Return tz ->
  exists due_f stage_f due_fs stage_fs due_s stage_s due_sf stage_sf,
    calculate_failed_repetition failed_at s name = Return (due_f, stage_f)
    /\ calculate_next_repetition created_at stage_f name last
       = Return (due_fs, stage_fs)
    /\ calculate_next_repetition created_at s name last
       = Return (due_s, stage_s)
    /\ calculate_failed_repetition failed_at stage_s name
       = Return (due_sf, stage_sf)
    /\ (1 <= s <= 8 -> stage_fs = s)
    /\ (0 <= s <= 7 -> stage_sf = s)
    /\ (s <= 0 -> stage_fs = 1)
    /\ (8 <= s -> stage_sf = 7).
Proof.
  intros Htz.
  destruct (calculate_next_repetition_returns created_at
              (Z.max 0 (s - 1)) name last tz Htz) as [due_fs Hfs].
  destruct (calculate_next_repetition_returns created_at s name last tz Htz)
    as [due_s Hs].
  eexists _, _, _, _, _, _, _, _.
  split; [by apply calculate_failed_repetition_eq|].
  split; [exact Hfs|]. split; [exact Hs|].
  split; [by apply calculate_failed_repetition_eq|].
  unfold stage_after.
  repeat destruct (decide _); lia.
Qed.

Lemma get_stage_name_monthly s : 8 <= s -> get_stage_name s = "monthly".
Proof.
  intros Hs. unfold get_stage_name. by destruct (Z.leb_spec 8 s); [|lia].
Qed.

Lemma get_stage_name_unknown s : s < 0 -> get_stage_name s = "unknown".
Proof.
  intros Hs. unfold get_stage_name.
  destruct (Z.leb_spec 8 s) as [?|_]; [lia|].
  unfold stage_names.
  by rewrite stage_table_miss by (repeat constructor; cbn; lia || done).
Qed.

Lemma stage_cases s :
  s < 0 \/ s = 0 \/ s = 1 \/ s = 2 \/ s = 3 \/ s = 4 \/ s = 5 \/ s = 6
  \/ s = 7 \/ 8 <= s.
Proof. lia. Qed.

Lemma not_in_by_computation (x : string) (l : list string) :
  bool_decide (x ∈ l) = false -> x ∉ l.
Proof. apply bool_decide_eq_false. Qed.

Lemma in_by_computation (x : string) (l : list string) :
  bool_decide (x ∈ l) = true -> x ∈ l.
Proof. apply bool_decide_eq_true. Qed.

(** X5: the stage table sorts the stages into the two families of kinds
    the queries select by: the kind of a stage is an intraday kind exactly
    for the stages 0..2 and a long-horizon kind exactly for the stages
    from 3 on; the kind of a negative stage is in neither family; and the
    stages 0..8 have nine different kinds. *)
Theorem stage_kinds_partition (s : Z) :
  (get_stage_name s ∈ intraday_types <-> 0 <= s <= 2)
  /\ (get_stage_name s ∈ long_term_types <-> 3 <= s)
  /\ (forall s', 0 <= s <= 8 -> 0 <= s' <= 8 ->
        get_stage_name s = get_stage_name s' -> s = s').
Proof.
  split_and!.
  - destruct (stage_cases s) as [Hs|[->|[->|[->|[->|[->|[->|[->|[->|Hs]]]]]]]]].
    1: rewrite get_stage_name_unknown by done.
    10: rewrite get_stage_name_monthly by done.
    all: split; intros Hx; try lia.
    all: try (apply in_by_computation; vm_compute; reflexivity).
    all: exfalso; revert Hx; apply not_in_by_computation; vm_compute;
      reflexivity.
  - destruct (stage_cases s) as [Hs|[->|[->|[->|[->|[->|[->|[->|[->|Hs]]]]]]]]].
    1: rewrite get_stage_name_unknown by done.
    10: rewrite get_stage_name_monthly by done.
    all: split; intros Hx; try lia.
    all: try (apply in_by_computation; vm_compute; reflexivity).
    all: exfalso; revert Hx; apply not_in_by_computation; vm_compute;
      reflexivity.
  - intros s' Hs Hs'.
    assert (s = 0 \/ s = 1 \/ s = 2 \/ s = 3 \/ s = 4 \/ s = 5 \/ s = 6
            \/ s = 7 \/ s = 8) as Hc by lia.
    assert (s' = 0 \/ s' = 1 \/ s' = 2 \/ s' = 3 \/ s' = 4 \/ s' = 5
            \/ s' = 6 \/ s' = 7 \/ s' = 8) as Hc' by lia.
    destruct Hc as [->|[->|[->|[->|[->|[->|[->|[->| ->]]]]]]]];
      destruct Hc' as [->|[->|[->|[->|[->|[->|[->|[->| ->]]]]]]]];
      intros Heq; try reflexivity; vm_compute in Heq; discriminate.
Qed.

(** X6: a timezone name that [is_valid_timezone] accepts, which is what
    [update_user_settings] stores, never makes the two calculators raise:
    where zoneinfo does not know it they fall back on pytz. *)
Theorem valid_timezone_never_raises
    (name : string) (created_at failed_at : datetime) (s : Z)
    (last : option datetime) :
  is_valid_timezone name = true ->
  (exists r, calculate_next_repetition created_at s name last = Return r)
  /\ (exists r, calculate_failed_repetition failed_at s name = Return r).
Proof.
  unfold is_valid_timezone. intros Hv.
  assert (exists tz, get_tz name = Return tz) as [tz Htz]
    by (apply get_tz_returns; auto).
  split.
  - destruct (calculate_next_repetition_returns created_at s name last tz Htz)
      as [due Hdue]. eauto.
  - rewrite (calculate_failed_repetition_eq _ _ _ _ Htz). eauto.
Qed.

(** X7: with a default timezone that pytz knows, [localize_datetime] never
    raises, and its result carries the zone [get_user_timezone] returns:
    the default zone for None and for the empty string, the zone asked
    for when pytz knows it, and the default zone when pytz does not. *)
Theorem localize_datetime_zone
    (dt : datetime) (timezone_name : option string) :
  pytz_has default_timezone = true ->
  exists tz r,
    get_user_timezone timezone_name = Return tz
    /\ localize_datetime dt timezone_name = Return r
    /\ tzinfo_of r = Some tz
    /\ (timezone_name = None \/ timezone_name = Some "" ->
          tz = PytzInfo default_timezone)
    /\ (forall name, timezone_name = Some name -> name <> "" ->
          if is_valid_timezone name then tz = PytzInfo name
          else tz = PytzInfo default_timezone).
Proof.
  intros Hdef.
  assert (exists tz, get_user_timezone timezone_name = Return tz
                     /\ (timezone_name = None \/ timezone_name = Some "" ->
                           tz = PytzInfo default_timezone)
                     /\ (forall name, timezone_name = Some name ->
                           name <> "" ->
                           if is_valid_timezone name then tz = PytzInfo name
                           else tz = PytzInfo default_timezone))
    as (tz & Htz & Hnone & Hname).
  { unfold get_user_timezone, is_valid_timezone.
    destruct timezone_name as [name|].
    - destruct (decide (name = "")) as [->|Hne].
      + rewrite Hdef. eexists. split; [done|]. split; [done|].
        by intros ? [= <-] ?.
      + destruct (pytz_has name) eqn:E.
        * eexists. split; [done|].
          split; [intros [?|[= ?]]; done|].
          intros ? [= <-] _. by rewrite E.
        * rewrite Hdef. eexists. split; [done|]. split; [done|].
          intros ? [= <-] _. by rewrite E.
    - rewrite Hdef. eexists. split; [done|]. split; [done|]. by intros ? [=]. }
  exists tz, (localized tz dt).
  assert (forall x, localize_datetime x timezone_name
                    = Return (localized tz x)) as Hloc.
  { intros x. unfold localize_datetime, localized. rewrite Htz.
    by destruct (tzinfo_of x). }
  split; [done|]. split; [apply Hloc|].
  split; [apply tzinfo_of_localized|]. done.
Qed.

End MoreCalculators.

(** ** The other queries *)

Section MoreQueries.
Context `{Platform}.

#[local] Instance schedule_order_total : Total schedule_order.
Proof. intros a b. apply lex_leb_total. Qed.

#[local] Instance schedule_order_trans : Transitive schedule_order.
Proof. intros a b c. apply lex_leb_trans. Qed.

#[local] Instance due_order_is_total : Total due_order.
Proof. intros a b. apply lex_leb_total. Qed.

#[local] Instance due_order_is_transitive : Transitive due_order.
Proof. intros a b c. apply lex_leb_trans. Qed.

Lemma schedule_order_spec a b :
  schedule_order a b
  <-> RepetitionSchedule.scheduled_date a.2
      < RepetitionSchedule.scheduled_date b.2
      \/ (RepetitionSchedule.scheduled_date a.2
          = RepetitionSchedule.scheduled_date b.2
          /\ RepetitionSchedule.current_stage a.2
             <= RepetitionSchedule.current_stage b.2).
Proof.
  unfold schedule_order, schedule_order_key. cbn [lex_leb].
  destruct (Z.ltb_spec (RepetitionSchedule.scheduled_date a.2)
              (RepetitionSchedule.scheduled_date b.2)),
    (Z.eqb_spec (RepetitionSchedule.scheduled_date a.2)
       (RepetitionSchedule.scheduled_date b.2)),
    (Z.ltb_spec (RepetitionSchedule.current_stage a.2)
       (RepetitionSchedule.current_stage b.2)),
    (Z.eqb_spec (RepetitionSchedule.current_stage a.2)
       (RepetitionSchedule.current_stage b.2));
    cbn [orb andb]; split; intros; try done; lia.
Qed.

(** The rows a statement selects and orders: each stored row that passes
    the filter, once. *)
Lemma sorted_rows_spec (R : relation entry) `{!forall a b, Decision (R a b)}
    (f : entry -> bool) (T : gmap Z RepetitionSchedule.t) :
  NoDup (merge_sort R (List.filter f (map_to_list T)))
  /\ (forall e : entry,
        e ∈ merge_sort R (List.filter f (map_to_list T))
        <-> T !! e.1 = Some e.2 /\ f e = true).
Proof.
  split.
  - rewrite merge_sort_Permutation.
    apply NoDup_ListNoDup, List.NoDup_filter, NoDup_ListNoDup,
      NoDup_map_to_list.
  - intros [k r]. rewrite merge_sort_Permutation.
    rewrite list_elem_of_In, filter_In, <- list_elem_of_In.
    by rewrite elem_of_map_to_list.
Qed.

Lemma rows_spec (f : entry -> bool) (T : gmap Z RepetitionSchedule.t) :
  NoDup (List.filter f (map_to_list T))
  /\ (forall e : entry,
        e ∈ List.filter f (map_to_list T)
        <-> T !! e.1 = Some e.2 /\ f e = true).
Proof.
  split.
  - apply NoDup_ListNoDup, List.NoDup_filter, NoDup_ListNoDup,
      NoDup_map_to_list.
  - intros [k r].
    rewrite list_elem_of_In, filter_In, <- list_elem_of_In.
    by rewrite elem_of_map_to_list.
Qed.

Lemma for_user_spec (u : Z) (r : RepetitionSchedule.t) :
  u <> 0 -> for_user (Some u) r = (RepetitionSchedule.user_id r =? u).
Proof. intros Hu. unfold for_user. by destruct (Z.eqb_spec u 0). Qed.

(** The two families of kinds have no kind in common. *)
Lemma kinds_disjoint (k : string) :
  k ∈ intraday_types -> k ∈ long_term_types -> False.
Proof.
  unfold intraday_types, long_term_types. intros Hi Hl.
  repeat (apply elem_of_cons in Hi as [->|Hi];
          [repeat (apply elem_of_cons in Hl as [Hl|Hl]; [discriminate|]);
           by apply elem_of_nil in Hl|]).
  by apply elem_of_nil in Hi.
Qed.

(** X8: what is overdue.  [get_overdue_repetitions] reads the clock once,
    changes nothing else and returns, each once, exactly the stored
    incomplete entries of a long-horizon kind that are scheduled before
    today (and belong to the user asked for, where 0 asks for everybody).
    Every row it returns is due today and none of them is of an intraday
    kind; an incomplete intraday entry of a past day is neither overdue
    nor due: it is what the sweep resolves. *)
Theorem get_overdue_repetitions_spec (user_id : option Z) (w : World) :
  let today := today_at (clock w) in
  exists res : list entry,
    get_overdue_repetitions user_id w
    = (Return res,
       mkWorld (session w) (persisted w) (commits w) (S (clock w)))
    /\ NoDup res
    /\ (forall e : entry,
          e ∈ res <->
          repetition_schedule (session w) !! e.1 = Some e.2
          /\ RepetitionSchedule.is_completed e.2 = false
          /\ RepetitionSchedule.repetition_type e.2 ∈ long_term_types
          /\ RepetitionSchedule.scheduled_date e.2 < today
          /\ match user_id with
             | Some u => u <> 0 -> RepetitionSchedule.user_id e.2 = u
             | None => True
             end)
    /\ (forall e : entry,
          e ∈ res ->
          due_on today e.2 = true
          /\ RepetitionSchedule.repetition_type e.2 ∉ intraday_types)
    /\ (forall k r,
          repetition_schedule (session w) !! k = Some r ->
          expired_intraday today r = true ->
          ((k, r) ∉ res) /\ due_on today r = false).
Proof.
  intros today.
  set (f := fun e : entry =>
              overdue_on (today - 1) e.2 && for_user user_id e.2).
  exists (List.filter f (map_to_list (repetition_schedule (session w)))).
  destruct (rows_spec f (repetition_schedule (session w))) as [Hnd Hin].
  assert (forall r, overdue_on (today - 1) r = true <->
            RepetitionSchedule.is_completed r = false
            /\ RepetitionSchedule.repetition_type r ∈ long_term_types
            /\ RepetitionSchedule.scheduled_date r < today) as Hover.
  { intros r. unfold overdue_on.
    rewrite !andb_true_iff, negb_true_iff, bool_decide_eq_true, Z.leb_le.
    split; [intros [[? ?] ?]|intros (? & ? & ?)]; split_and!; done || lia. }
  split_and!.
  - unfold get_overdue_repetitions. mrun. reflexivity.
  - done.
  - intros e. rewrite Hin. unfold f. rewrite andb_true_iff, Hover.
    unfold for_user. destruct user_id as [u|]; [|tauto].
    destruct (Z.eqb_spec u 0) as [->|Hu]; [tauto|].
    rewrite Z.eqb_eq. tauto.
  - intros e [_ [(Hc & Hl & Hd)%Hover _]%andb_true_iff]%Hin.
    split.
    + unfold due_on. rewrite Hc. cbn [negb andb].
      apply orb_true_iff. right.
      apply andb_true_iff. split; [by apply bool_decide_eq_true|].
      apply Z.leb_le. lia.
    + intros Hi. by eapply kinds_disjoint.
  - intros k r Hk Hexp. unfold expired_intraday in Hexp.
    apply andb_true_iff in Hexp as [[Hd%Z.ltb_lt Hc%negb_true_iff]%andb_true_iff
                                    Hi%bool_decide_eq_true].
    split.
    + intros [_ [(_ & Hl & _)%Hover _]%andb_true_iff]%Hin.
      by eapply kinds_disjoint.
    + unfold due_on. rewrite Hc. cbn [negb andb].
      apply orb_false_iff. split; apply andb_false_iff.
      * right. apply Z.eqb_neq. lia.
      * left. apply bool_decide_eq_false. intros Hl.
        by eapply kinds_disjoint.
Qed.

Abbreviation mid e := (RepetitionSchedule.material_id (snd e)).

(** Every entry of the list is represented in what the loop keeps: by
    itself or by an entry of its material that comes before it. *)
Lemma first_seen_covers seen pre e post :
  mid e ∉ seen ->
  exists e', e' ∈ first_seen seen (pre ++ e :: post)
             /\ mid e' = mid e
             /\ (e' = e \/ e' ∈ pre).
Proof.
  revert seen. induction pre as [|x pre IH]; intros seen Hs; cbn.
  - rewrite decide_False by done. exists e. split_and!; [|done|by left].
    apply elem_of_cons. by left.
  - destruct (decide (mid x ∈ seen)) as [Hx|Hx].
    + destruct (IH seen Hs) as (e' & Hin & Hm & He).
      exists e'. split_and!; [done..|].
      destruct He as [->|He]; [by left|]. right. apply elem_of_cons. auto.
    + destruct (decide (mid x = mid e)) as [Heq|Hne].
      * exists x. split_and!; [apply elem_of_cons; by left|done|].
        right. apply elem_of_cons. by left.
      * destruct (IH (seen ∪ {[mid x]})) as (e' & Hin & Hm & He).
        { apply not_elem_of_union. split; [done|].
          apply not_elem_of_singleton. congruence. }
        exists e'. split_and!; [apply elem_of_cons; by right|done|].
        destruct He as [->|He]; [by left|]. right. apply elem_of_cons. auto.
Qed.

Lemma StronglySorted_app_before {A} (R : relation A) pre e post e' :
  StronglySorted R (pre ++ e :: post) -> e' ∈ pre -> R e' e.
Proof.
  induction pre as [|x pre IH]; cbn; [by intros _ ?%elem_of_nil|].
  intros Hs [->|Hin]%elem_of_cons.
  - apply StronglySorted_inv in Hs as [_ Hall].
    rewrite Forall_forall in Hall. apply Hall.
    apply elem_of_app. right. apply elem_of_cons. by left.
  - apply StronglySorted_inv in Hs as [Hs _]. by apply IH.
Qed.

(** X9: no overdue material is missing from the list of the day.  When
    [get_overdue_repetitions] and then [get_due_repetitions] are called
    for the same user on the same day, every overdue entry has an entry
    of its material in the due list: the overdue entry itself or one that
    comes before it in the order of the due list. *)
Theorem overdue_materials_are_due (user_id : option Z) (w : World) :
  today_at (S (clock w)) = today_at (clock w) ->
  exists (overdue due : list entry) (w' : World),
    (overdue ← get_overdue_repetitions user_id;
     due ← get_due_repetitions user_id None;
     mret (overdue, due)) w
    = (Return (overdue, due), w')
    /\ session w' = session w
    /\ forall e : entry,
         e ∈ overdue ->
         exists e' : entry,
           e' ∈ due
           /\ RepetitionSchedule.material_id e'.2
              = RepetitionSchedule.material_id e.2
           /\ (e' = e \/ due_set_order_spec e' e).
Proof.
  intros Hday.
  set (today := today_at (clock w)).
  set (T := repetition_schedule (session w)).
  set (fo := fun e : entry =>
               overdue_on (today - 1) e.2 && for_user user_id e.2).
  set (fd := fun e : entry => due_on today e.2 && for_user user_id e.2).
  set (all := merge_sort due_order (List.filter fd (map_to_list T))).
  exists (List.filter fo (map_to_list T)), (first_seen ∅ all), 
    (mkWorld (session w) (persisted w) (commits w) (S (S (clock w)))).
  split_and!.
  - unfold get_overdue_repetitions, get_due_repetitions. mrun.
    rewrite Hday, fold_keep_unseen. reflexivity.
  - done.
  - intros e He.
    destruct (rows_spec fo T) as [_ Hino].
    destruct (sorted_rows_spec due_order fd T) as [_ Hind].
    apply Hino in He as [Hst [Ho Hu]%andb_true_iff].
    assert (e ∈ all) as Hall.
    { apply Hind. split; [done|]. unfold fd. rewrite Hu, andb_true_r.
      unfold overdue_on in Ho.
      apply andb_true_iff in Ho as [[Hd%Z.leb_le Hc]%andb_true_iff Hl].
      unfold due_on. rewrite Hc. cbn [andb]. apply orb_true_iff. right.
      rewrite Hl. cbn [andb]. apply Z.leb_le. lia. }
    apply list_elem_of_split in Hall as (pre & post & Hsplit).
    destruct (first_seen_covers ∅ pre e post) as (e' & Hin & Hm & Hb);
      [apply not_elem_of_empty|].
    exists e'. rewrite Hsplit. split_and!; [done..|].
    destruct Hb as [->|Hb]; [by left|]. right.
    apply due_order_spec.
    eapply (StronglySorted_app_before due_order pre e post); [|done].
    rewrite <- Hsplit. apply StronglySorted_merge_sort; apply _.
Qed.

(** X10: [get_user_schedule] reads the clock once, changes nothing else
    and returns, each once, exactly the stored entries of the user that
    are scheduled from today to [days_ahead] days from today, the
    completed ones only when asked for, ordered by scheduled date and then
    stage.  For a negative [days_ahead] the list is empty. *)
Theorem get_user_schedule_spec
    (user_id days_ahead : Z) (include_completed : bool) (w : World) :
  let today := today_at (clock w) in
  exists res : list entry,
    get_user_schedule user_id days_ahead include_completed w
    = (Return res,
       mkWorld (session w) (persisted w) (commits w) (S (clock w)))
    /\ NoDup res
    /\ (forall e : entry,
          e ∈ res <->
          repetition_schedule (session w) !! e.1 = Some e.2
          /\ RepetitionSchedule.user_id e.2 = user_id
          /\ today <= RepetitionSchedule.scheduled_date e.2
             <= today + days_ahead
          /\ (include_completed = false ->
              RepetitionSchedule.is_completed e.2 = false))
    /\ StronglySorted
         (fun a b : entry =>
            RepetitionSchedule.scheduled_date a.2
            < RepetitionSchedule.scheduled_date b.2
            \/ (RepetitionSchedule.scheduled_date a.2
                = RepetitionSchedule.scheduled_date b.2
                /\ RepetitionSchedule.current_stage a.2
                   <= RepetitionSchedule.current_stage b.2))
         res
    /\ (days_ahead < 0 -> res = []).
Proof.
  intros today.
  set (f := fun e : entry =>
              (RepetitionSchedule.user_id e.2 =? user_id)
              && (today <=? RepetitionSchedule.scheduled_date e.2)
              && (RepetitionSchedule.scheduled_date e.2 <=? today + days_ahead)
              && (include_completed
                  || negb (RepetitionSchedule.is_completed e.2))).
  set (T := repetition_schedule (session w)).
  destruct (sorted_rows_spec schedule_order f T) as [Hnd Hin].
  assert (forall e : entry, e ∈ merge_sort schedule_order
                                  (List.filter f (map_to_list T)) <->
            T !! e.1 = Some e.2
            /\ RepetitionSchedule.user_id e.2 = user_id
            /\ today <= RepetitionSchedule.scheduled_date e.2
               <= today + days_ahead
            /\ (include_completed = false ->
                RepetitionSchedule.is_completed e.2 = false)) as Hmem.
  { intros e. rewrite Hin. unfold f.
    rewrite !andb_true_iff, orb_true_iff, negb_true_iff, Z.eqb_eq,
      !Z.leb_le.
    destruct include_completed; intuition (done || lia). }
  exists (merge_sort schedule_order (List.filter f (map_to_list T))).
  split_and!.
  - unfold get_user_schedule. mrun. reflexivity.
  - done.
  - done.
  - eapply StronglySorted_weaken;
      [|apply StronglySorted_merge_sort; apply _].
    intros a b. apply schedule_order_spec.
  - intros Hneg.
    destruct (merge_sort _ _) as [|e l] eqn:E; [done|].
    assert (e ∈ e :: l) as He by (apply elem_of_cons; by left).
    apply Hmem in He as (_ & _ & Hd & _). lia.
Qed.

(** X11: the list of the day is covered by the two other views.  On one
    day and for one user (not 0), every entry [get_due_repetitions]
    returns is in the upcoming schedule of [get_user_schedule], for any
    number of days ahead that is not negative, or in the overdue list of
    [get_overdue_repetitions], and no entry is in both. *)
Theorem due_is_upcoming_or_overdue (u days_ahead : Z) (w : World) :
  u <> 0 ->
  0 <= days_ahead ->
  today_at (S (clock w)) = today_at (clock w) ->
  today_at (S (S (clock w))) = today_at (clock w) ->
  exists (due upcoming overdue : list entry) (w' : World),
    (due ← get_due_repetitions (Some u) None;
     upcoming ← get_user_schedule u days_ahead false;
     overdue ← get_overdue_repetitions (Some u);
     mret (due, upcoming, overdue)) w
    = (Return (due, upcoming, overdue), w')
    /\ session w' = session w
    /\ (forall e : entry, e ∈ due -> e ∈ upcoming \/ e ∈ overdue)
    /\ (forall e : entry, e ∈ upcoming -> e ∉ overdue).
Proof.
  intros Hu Hdays Hday1 Hday2.
  set (today := today_at (clock w)).
  set (T := repetition_schedule (session w)).
  set (fd := fun e : entry => due_on today e.2 && for_user (Some u) e.2).
  set (fu := fun e : entry =>
               (RepetitionSchedule.user_id e.2 =? u)
               && (today <=? RepetitionSchedule.scheduled_date e.2)
               && (RepetitionSchedule.scheduled_date e.2
                   <=? today + days_ahead)
               && (false || negb (RepetitionSchedule.is_completed e.2))).
  set (fo := fun e : entry =>
               overdue_on (today - 1) e.2 && for_user (Some u) e.2).
  exists (first_seen ∅ (merge_sort due_order (List.filter fd (map_to_list T)))),
    (merge_sort schedule_order (List.filter fu (map_to_list T))),
    (List.filter fo (map_to_list T)),
    (mkWorld (session w) (persisted w) (commits w) (S (S (S (clock w))))).
  destruct (sorted_rows_spec due_order fd T) as [_ Hind].
  destruct (sorted_rows_spec schedule_order fu T) as [_ Hinu].
  destruct (rows_spec fo T) as [_ Hino].
  split_and!.
  - unfold get_due_repetitions, get_user_schedule, get_overdue_repetitions.
    mrun. rewrite Hday1, Hday2, fold_keep_unseen. reflexivity.
  - done.
  - intros e He.
    eapply elem_of_sublist in He; [|apply first_seen_sublist].
    apply Hind in He as [Hst [Hd Hfu]%andb_true_iff].
    rewrite Hinu, Hino. unfold fu, fo. rewrite Hfu.
    rewrite for_user_spec in Hfu by done. rewrite Hfu.
    unfold due_on in Hd. unfold overdue_on.
    destruct (RepetitionSchedule.is_completed e.2); [done|].
    cbn [negb andb orb] in *. rewrite !andb_true_r.
    apply orb_true_iff in Hd
      as [[_ Heq%Z.eqb_eq]%andb_true_iff|[Hl Hle%Z.leb_le]%andb_true_iff].
    + left. split; [done|]. apply andb_true_iff. split; apply Z.leb_le; lia.
    + rewrite Hl, andb_true_r.
      destruct (decide (RepetitionSchedule.scheduled_date e.2 = today))
        as [Heq|Hne].
      * left. split; [done|].
        apply andb_true_iff. split; apply Z.leb_le; lia.
      * right. split; [done|]. apply Z.leb_le. lia.
  - intros e [_ Hfu]%Hinu [_ Hfo]%Hino. unfold fu in Hfu. unfold fo in Hfo.
    apply andb_true_iff in Hfu as [[[_ Hge%Z.leb_le]%andb_true_iff _]%andb_true_iff _].
    apply andb_true_iff in Hfo as [Hfo _]. unfold overdue_on in Hfo.
    apply andb_true_iff in Hfo as [[Hle%Z.leb_le _]%andb_true_iff _]. lia.
Qed.

End MoreQueries.

(** ** The mutations off the main path *)

Section MoreMutations.
Context `{Platform}.

Lemma get_tz_raise_unknown name e :
  get_tz name = Raise e -> e = UnknownTimeZoneError.
Proof.
  unfold get_tz. destruct (zoneinfo_has name), (pytz_has name); congruence.
Qed.

Lemma calculate_failed_repetition_raises failed_at s name e :
  get_tz name = Raise e ->
  calculate_failed_repetition failed_at s name = Raise e.
Proof. intros E. unfold calculate_failed_repetition. by rewrite E. Qed.

Lemma calculate_next_repetition_raises created_at s name last e :
  get_tz name = Raise e ->
  calculate_next_repetition created_at s name last = Raise e.
Proof. intros E. unfold calculate_next_repetition. by rewrite E. Qed.

Lemma mark_failed_missing_run (w : World) (uid mid : Z)
    (failed_at : option datetime) :
  study_materials (session w) !! mid = None ->
  mark_failed uid mid failed_at w
  = (Return false,
     mkWorld (session w) (persisted w) (commits w)
       (clock_after_failed_at failed_at w)).
Proof.
  intros Hm. unfold mark_failed, clock_after_failed_at.
  destruct failed_at; mrun; rewrite Hm; mrun; [by destruct w|done].
Qed.

Lemma mark_failed_raise_run (w : World) (uid mid : Z)
    (failed_at : option datetime) (m : StudyMaterial.t) (e : exn) :
  study_materials (session w) !! mid = Some m ->
  get_tz (timezone_of_user (session w) uid) = Raise e ->
  mark_failed uid mid failed_at w
  = (Raise e,
     mkWorld (session w) (persisted w) (commits w)
       (clock_after_failed_at failed_at w)).
Proof.
  intros Hm Htz. unfold mark_failed, clock_after_failed_at.
  destruct failed_at; mrun; rewrite Hm; mrun;
    rewrite (calculate_failed_repetition_raises _ _ _ _ Htz); mrun;
    [by destruct w|done].
Qed.

Lemma create_next_repetition_on_success_missing_run (w : World) (cs : entry) :
  study_materials (session w) !! RepetitionSchedule.material_id cs.2 = None ->
  _create_next_repetition_on_success cs w = (Return None, w).
Proof.
  intros Hm. unfold _create_next_repetition_on_success. mrun. rewrite Hm.
  mrun. done.
Qed.

Lemma create_next_repetition_on_success_raise_run (w : World) (cs : entry)
    (m : StudyMaterial.t) (e : exn) :
  study_materials (session w) !! RepetitionSchedule.material_id cs.2 = Some m ->
  get_tz (timezone_of_user (session w) (RepetitionSchedule.user_id cs.2))
  = Raise e ->
  _create_next_repetition_on_success cs w
  = (Raise e,
     mkWorld
       (with_study_materials (session w)
          (<[RepetitionSchedule.material_id cs.2 :=
               StudyMaterial.mk (StudyMaterial.user_id m)
                 (StudyMaterial.created_at m)
                 (RepetitionSchedule.current_stage cs.2 + 1)
                 (Some (utcnow_at (clock w)))]>
             (study_materials (session w))))
       (persisted w) (commits w) (S (clock w))).
Proof.
  intros Hm Htz. unfold _create_next_repetition_on_success. mrun. rewrite Hm.
  mrun. cbn [StudyMaterial.created_at StudyMaterial.last_success_at].
  rewrite (calculate_next_repetition_raises _ _ _ _ _ Htz). mrun. done.
Qed.

Lemma create_initial_repetitions_raise_run (w : World) (mid uid : Z)
    (created : datetime) (user_timezone : option string) (e : exn) :
  get_tz (match user_timezone with
          | Some name => if decide (name = "") then default_timezone else name
          | None => default_timezone
          end) = Raise e ->
  create_initial_repetitions mid uid created user_timezone w
  = (Raise e,
     mkWorld
       (with_repetition_schedule (session w)
          (filter (fun kv : entry => incomplete_for uid mid kv.2 = false)
             (repetition_schedule (session w)))
          (repetition_schedule_seq (session w)))
       (persisted w) (commits w) (clock w)).
Proof.
  intros Htz. unfold create_initial_repetitions. mrun.
  rewrite (calculate_next_repetition_raises _ _ _ _ _ Htz). mrun. done.
Qed.

(** X12: the four ways [mark_failed] ends, with at most one statistics
    row per user and day.  It returns False exactly when the material does
    not exist, and raises UnknownTimeZoneError exactly when the material
    exists and the timezone of the user does not resolve; in both cases it
    has changed nothing.  Otherwise the failure calculator gives the
    instant of the new entry: when the store accepts it the call returns
    True and the state is committed; when the store refuses it the call
    raises DBAPIError, the session is rolled back and nothing is
    committed. *)
Theorem mark_failed_outcomes (w : World) (uid mid : Z)
    (failed_at : option datetime) :
  stats_unique (user_statistics (session w)) ->
  let material := study_materials (session w) !! mid in
  let tz := get_tz (timezone_of_user (session w) uid) in
  let next (m : StudyMaterial.t) :=
    calculate_failed_repetition (default (utcnow_at (clock w)) failed_at)
      (StudyMaterial.current_stage m) (timezone_of_user (session w) uid) in
  let unchanged (w' : World) :=
    session w' = session w /\ persisted w' = persisted w
    /\ commits w' = commits w in
  match mark_failed uid mid failed_at w with
  | (Return true, w') =>
      (exists m due s,
         material = Some m /\ next m = Return (due, s)
         /\ is_Some (bind_datetime due))
      /\ (exists z, tz = Return z)
      /\ persisted w' = session w'
      /\ head (commits w') = Some (session w')
  | (Return false, w') => material = None /\ unchanged w'
  | (Raise e, w') =>
      exists m,
        material = Some m
        /\ ((e = UnknownTimeZoneError /\ tz = Raise e /\ next m = Raise e
             /\ unchanged w')
            \/ (e = DBAPIError
                /\ (exists z, tz = Return z)
                /\ (exists due s,
                      next m = Return (due, s) /\ bind_datetime due = None)
                /\ session w' = persisted w
                /\ persisted w' = persisted w
                /\ commits w' = commits w))
  end.
Proof.
  intros Hu material tz next unchanged. subst material tz next unchanged.
  destruct (study_materials (session w) !! mid) as [m|] eqn:Hm.
  - destruct (get_tz (timezone_of_user (session w) uid)) as [z|e] eqn:Htz.
    + pose proof (calculate_failed_repetition_eq
                    (default (utcnow_at (clock w)) failed_at)
                    (StudyMaterial.current_stage m) _ z Htz) as Hnext.
      match type of Hnext with
      | _ = Return (?d, _) => destruct (bind_datetime d) as [due'|] eqn:Hb
      end.
      * destruct (mark_failed_run w uid mid failed_at m z due' Hm Htz Hu Hb)
          as (stats' & _ & Hrun).
        rewrite Hrun. cbn [persisted session commits head].
        split_and!; eauto.
        eexists m, _, _. split; [done|]. split; [exact Hnext|].
        rewrite Hb. by eexists.
      * rewrite (mark_failed_refused_run w uid mid failed_at m z Hm Htz Hb).
        exists m. split; [done|]. right.
        cbn [persisted session commits]. split_and!; eauto.
    + rewrite (mark_failed_raise_run w uid mid failed_at m e Hm Htz).
      exists m. split; [done|]. left.
      split_and!; eauto using get_tz_raise_unknown.
      by apply calculate_failed_repetition_raises.
  - rewrite (mark_failed_missing_run w uid mid failed_at Hm).
    by split_and!.
Qed.

(** X13: completing an entry whose material does not exist.  The call
    returns True for a success and for a failure alike; the entry is
    marked completed, its result written and the state committed, and no
    entry is created or deleted: the material is left without a follow-up
    entry. *)
Theorem complete_repetition_missing_material
    (w : World) (sid uid : Z) (ok : bool) (e : RepetitionSchedule.t) :
  select_incomplete (session w) sid uid = Some e ->
  stats_unique (user_statistics (session w)) ->
  study_materials (session w) !! RepetitionSchedule.material_id e = None ->
  exists w' : World,
    complete_repetition sid uid ok w = (Return true, w')
    /\ persisted w' = session w'
    /\ repetition_schedule (session w')
       = <[sid := mark_completed e (utcnow_at (clock w))]>
           (repetition_schedule (session w))
    /\ repetition_schedule_seq (session w')
       = repetition_schedule_seq (session w)
    /\ repetition_results (session w')
       = repetition_results (session w)
         ++ [RepetitionResult.mk sid uid (RepetitionSchedule.material_id e)
               ok (utcnow_at (S (clock w)))]
    /\ study_materials (session w') = study_materials (session w)
    /\ (forall k r,
          repetition_schedule (session w') !! k = Some r ->
          RepetitionSchedule.is_completed r = false ->
          k <> sid /\ repetition_schedule (session w) !! k = Some r).
Proof.
  intros Hsel Hu Hm.
  destruct (complete_repetition_first_commit w sid uid ok e Hsel Hu)
    as (stats1 & Hu1 & Hfirst).
  cbv zeta in Hfirst. rewrite Hfirst. clear Hfirst.
  match goal with
  | |- context [(_ ≫= _) ?w1] => set (w1' := w1)
  end.
  assert (study_materials (session w1')
            !! RepetitionSchedule.material_id
                 (mark_completed e (utcnow_at (clock w))) = None) as Hm1
    by done.
  exists w1'.
  split.
  { destruct ok.
    - erewrite bind_run; [reflexivity|].
      erewrite bind_run;
        [reflexivity
        |by apply (create_next_repetition_on_success_missing_run w1' (sid, _))].
    - erewrite bind_run; [reflexivity|].
      erewrite bind_run; [reflexivity|].
      unfold _create_next_repetition_on_failure. cbn [snd].
      rewrite mark_failed_missing_run by done. reflexivity. }
  subst w1'. cbn [session persisted repetition_schedule repetition_schedule_seq
                  repetition_results study_materials].
  split_and!; try done.
  intros k r Hk Hc.
  destruct (decide (k = sid)) as [->|Hne].
  - rewrite lookup_insert_eq in Hk. injection Hk as <-. done.
  - rewrite lookup_insert_ne in Hk by done. done.
Qed.

(** X14: completing an entry of a user whose timezone does not resolve.
    The call raises UnknownTimeZoneError, but only after it has committed
    the completion: the persisted state holds the entry as completed and
    its result, no follow-up entry and the materials as they were.  After a
    success the session holds, uncommitted, the material moved to the next
    stage; after a failure it holds nothing else.  A second call on the
    entry returns False: the completion cannot be repeated. *)
Theorem complete_repetition_unknown_timezone
    (w : World) (sid uid : Z) (ok : bool)
    (e : RepetitionSchedule.t) (m : StudyMaterial.t) :
  select_incomplete (session w) sid uid = Some e ->
  stats_unique (user_statistics (session w)) ->
  study_materials (session w) !! RepetitionSchedule.material_id e = Some m ->
  get_tz (timezone_of_user (session w) uid) = Raise UnknownTimeZoneError ->
  let e' := mark_completed e (utcnow_at (clock w)) in
  exists w' : World,
    complete_repetition sid uid ok w = (Raise UnknownTimeZoneError, w')
    /\ repetition_schedule (persisted w')
       = <[sid := e']> (repetition_schedule (session w))
    /\ repetition_schedule_seq (persisted w')
       = repetition_schedule_seq (session w)
    /\ repetition_results (persisted w')
       = repetition_results (session w)
         ++ [RepetitionResult.mk sid uid (RepetitionSchedule.material_id e)
               ok (utcnow_at (S (clock w)))]
    /\ study_materials (persisted w') = study_materials (session w)
    /\ repetition_schedule (session w') = repetition_schedule (persisted w')
    /\ (if ok
        then study_materials (session w')
             = <[RepetitionSchedule.material_id e :=
                   StudyMaterial.mk (StudyMaterial.user_id m)
                     (StudyMaterial.created_at m)
                     (RepetitionSchedule.current_stage e + 1)
                     (Some (utcnow_at (S (S (S (S (clock w)))))))]>
                 (study_materials (session w))
        else session w' = persisted w')
    /\ (forall ok', complete_repetition sid uid ok' w' = (Return false, w')).
Proof.
  intros Hsel Hu Hm Htz e'.
  destruct (complete_repetition_first_commit w sid uid ok e Hsel Hu)
    as (stats1 & Hu1 & Hfirst).
  cbv zeta in Hfirst. rewrite Hfirst. clear Hfirst. fold e'.
  destruct (select_incomplete_Some _ _ _ _ Hsel) as (Hrow & Huid & Hinc).
  match goal with
  | |- context [(_ ≫= _) ?w1] => set (w1' := w1)
  end.
  assert (study_materials (session w1') !! RepetitionSchedule.material_id e'
          = Some m) as Hm1 by done.
  assert (get_tz (timezone_of_user (session w1')
                    (RepetitionSchedule.user_id e'))
          = Raise UnknownTimeZoneError) as Htz1.
  { change (RepetitionSchedule.user_id e') with (RepetitionSchedule.user_id e).
    by rewrite Huid. }
  assert (forall w2 : World,
            repetition_schedule (session w2)
            = <[sid := e']> (repetition_schedule (session w)) ->
            forall ok', complete_repetition sid uid ok' w2
                        = (Return false, w2)) as Hagain.
  { intros w2 Hw2 ok'. unfold complete_repetition. mrun.
    assert (select_incomplete (session w2) sid uid = None) as ->; [|done].
    apply select_incomplete_None. right. exists e'.
    rewrite Hw2, lookup_insert_eq. auto. }
  destruct ok.
  - eexists. split.
    { unfold mbind at 1, M_bind at 1.
      unfold mbind at 1, M_bind at 1.
      rewrite (create_next_repetition_on_success_raise_run w1' (sid, e') m _
                 Hm1 Htz1).
      reflexivity. }
    cbn [session persisted repetition_schedule repetition_schedule_seq
         repetition_results study_materials with_study_materials w1' clock].
    split_and!; try done. by apply Hagain.
  - eexists. split.
    { unfold mbind at 1, M_bind at 1.
      unfold mbind at 1, M_bind at 1.
      unfold _create_next_repetition_on_failure. cbn [snd].
      rewrite (mark_failed_raise_run w1' _ _ _ m _ Hm1 Htz1).
      reflexivity. }
    cbn [session persisted repetition_schedule repetition_schedule_seq
         repetition_results study_materials with_study_materials w1' clock].
    split_and!; try done. by apply Hagain.
Qed.

(** X15: [create_initial_repetitions] with a timezone that does not
    resolve raises UnknownTimeZoneError and commits nothing; by then it
    has deleted, in the session, the incomplete entries of the user for
    the material, and it has added none. *)
Theorem create_initial_repetitions_unknown_timezone
    (w : World) (mid uid : Z) (created : datetime)
    (user_timezone : option string) :
  get_tz (match user_timezone with
          | Some name => if decide (name = "") then default_timezone else name
          | None => default_timezone
          end) = Raise UnknownTimeZoneError ->
  exists w' : World,
    create_initial_repetitions mid uid created user_timezone w
    = (Raise UnknownTimeZoneError, w')
    /\ persisted w' = persisted w
    /\ commits w' = commits w
    /\ repetition_schedule_seq (session w')
       = repetition_schedule_seq (session w)
    /\ (forall k r,
          repetition_schedule (session w') !! k = Some r
          <-> repetition_schedule (session w) !! k = Some r
              /\ ~ (RepetitionSchedule.user_id r = uid
                    /\ RepetitionSchedule.material_id r = mid
                    /\ RepetitionSchedule.is_completed r = false)).
Proof.
  intros Htz. eexists. split.
  { by apply create_initial_repetitions_raise_run. }
  cbn [session persisted commits repetition_schedule repetition_schedule_seq
       with_repetition_schedule].
  split_and!; try done.
  intros k r. rewrite map_lookup_filter_Some. cbn [snd].
  unfold incomplete_for.
  rewrite !andb_false_iff, negb_false_iff, !Z.eqb_neq.
  destruct (RepetitionSchedule.is_completed r),
    (decide (RepetitionSchedule.user_id r = uid)),
    (decide (RepetitionSchedule.material_id r = mid));
    intuition congruence.
Qed.

End MoreMutations.

(** ** The counters of the day *)

Section MoreStatistics.
Context `{Platform}.

Lemma filter_map_commute {A} (f : A -> bool) (g : A -> A) (l : list A) :
  (forall x, f (g x) = f x) ->
  List.filter f (map g l) = map g (List.filter f l).
Proof.
  intros Hfg. induction l as [|x l IH]; [done|]. cbn.
  rewrite Hfg. destruct (f x); cbn; by rewrite IH.
Qed.

Lemma stats_for_inj u d u' d' x :
  stats_for u d x = true -> stats_for u' d' x = true -> u' = u /\ d' = d.
Proof.
  unfold stats_for. rewrite !andb_true_iff, !Z.eqb_eq. lia.
Qed.

Lemma update_user_statistics_eq (w : World) (u a s f : Z) :
  stats_unique (user_statistics (session w)) ->
  _update_user_statistics u a s f w
  = (Return tt,
     let d := with_user_statistics (session w)
                (upsert_stats u (today_at (clock w)) a s f
                   (utcnow_at (S (clock w)))
                   (user_statistics (session w))) in
     mkWorld d d (d :: commits w) (S (S (clock w)))).
Proof.
  intros Hu. unfold _update_user_statistics, upsert_stats. mrun.
  pose proof (Hu u (today_at (clock w))) as Hlen.
  destruct (List.filter _ _) as [|x [|y l]] eqn:E; cbn in Hlen; [| |lia];
    cbn [scalar_one_or_none]; mrun; reflexivity.
Qed.

Lemma update_user_statistics_multiple (w : World) (u a s f : Z) :
  (2 <= length (List.filter (stats_for u (today_at (clock w)))
                  (user_statistics (session w))))%nat ->
  _update_user_statistics u a s f w
  = (Raise MultipleResultsFound,
     mkWorld (session w) (persisted w) (commits w) (S (clock w))).
Proof.
  intros Hlen. unfold _update_user_statistics. mrun.
  destruct (List.filter _ _) as [|x [|y l]] eqn:E; cbn in Hlen; [lia..|].
  cbn [scalar_one_or_none]. mrun. reflexivity.
Qed.

(** What the update does to the rows: the counters of the user and the
    day grow by the three amounts, there is exactly one row of the user and
    the day, and the rows of every other user or day are as they were. *)
Lemma upsert_stats_spec (u today a s f : Z) (now : datetime)
    (l : list UserStatistics.t) :
  stats_unique l ->
  let l' := upsert_stats u today a s f now l in
  stats_unique l'
  /\ length (List.filter (stats_for u today) l') = 1%nat
  /\ counter UserStatistics.successful_repetitions u today l'
     = counter UserStatistics.successful_repetitions u today l + s
  /\ counter UserStatistics.failed_repetitions u today l'
     = counter UserStatistics.failed_repetitions u today l + f
  /\ counter UserStatistics.total_materials_added u today l'
     = counter UserStatistics.total_materials_added u today l + a
  /\ (forall u' d', ~ (u' = u /\ d' = today) ->
        List.filter (stats_for u' d') l' = List.filter (stats_for u' d') l).
Proof.
  intros Hu l'. subst l'. unfold upsert_stats, counter.
  pose proof (Hu u today) as Hlen.
  set (g := fun x : UserStatistics.t =>
              if stats_for u today x then
                UserStatistics.mk
                  (UserStatistics.user_id x) (UserStatistics.date x)
                  (UserStatistics.successful_repetitions x + s)
                  (UserStatistics.failed_repetitions x + f)
                  (UserStatistics.total_materials_added x + a) now
              else x).
  assert (forall u' d' x, stats_for u' d' (g x) = stats_for u' d' x) as Hg.
  { intros u' d' x. unfold g. by destruct (stats_for u today x). }
  assert (stats_for u today (UserStatistics.mk u today s f a now) = true)
    as Hnew.
  { unfold stats_for. cbn. by rewrite !Z.eqb_refl. }
  destruct (List.filter (stats_for u today) l) as [|x [|y t]] eqn:E;
    cbn in Hlen; [| |lia].
  - split_and!.
    + intros u' d'. rewrite List.filter_app, length_app. cbn [List.filter].
      destruct (stats_for u' d' _) eqn:E';
        cbn [length]; [|specialize (Hu u' d'); lia].
      destruct (stats_for_inj _ _ _ _ _ Hnew E') as [-> ->].
      rewrite E. cbn. lia.
    + rewrite List.filter_app, E. cbn [List.filter]. by rewrite Hnew.
    + rewrite List.filter_app, E. cbn [List.filter]. rewrite Hnew. cbn. lia.
    + rewrite List.filter_app, E. cbn [List.filter]. rewrite Hnew. cbn. lia.
    + rewrite List.filter_app, E. cbn [List.filter]. rewrite Hnew. cbn. lia.
    + intros u' d' Hne. rewrite List.filter_app. cbn [List.filter].
      destruct (stats_for u' d' _) eqn:E'; [|by rewrite app_nil_r].
      destruct (stats_for_inj _ _ _ _ _ Hnew E') as [-> ->]. tauto.
  - assert (stats_for u today x = true) as Hx.
    { assert (In x (List.filter (stats_for u today) l)) as Hin
        by (rewrite E; by left).
      by apply filter_In in Hin as [_ ?]. }
    fold g. split_and!.
    + intros u' d'. rewrite filter_map_same by apply Hg. apply Hu.
    + rewrite filter_map_commute by apply Hg. by rewrite E.
    + rewrite filter_map_commute, E by apply Hg. cbn. unfold g.
      rewrite Hx. cbn. lia.
    + rewrite filter_map_commute, E by apply Hg. cbn. unfold g.
      rewrite Hx. cbn. lia.
    + rewrite filter_map_commute, E by apply Hg. cbn. unfold g.
      rewrite Hx. cbn. lia.
    + intros u' d' Hne. rewrite filter_map_commute by apply Hg.
      rewrite <- (map_id (List.filter (stats_for u' d') l)) at 2.
      apply map_ext_in. intros y [_ Hy]%filter_In. unfold g.
      destruct (stats_for u today y) eqn:Ey; [|done].
      destruct (stats_for_inj _ _ _ _ _ Ey Hy) as [-> ->]. tauto.
Qed.

(** X16: [_update_user_statistics] on rows that are unique per user and
    day returns and commits; afterwards the three counters of the user for
    today are the old ones (0 when there was no row) plus the amounts
    given, there is exactly one row of the user for today, the rows of
    every other user or day and the other tables are as they were.  When
    there are two rows or more of the user for today, it raises
    MultipleResultsFound and changes nothing. *)
Theorem update_user_statistics_counts (w : World) (u a s f : Z) :
  let today := today_at (clock w) in
  let l := user_statistics (session w) in
  (stats_unique l ->
   exists w' : World,
     let l' := user_statistics (session w') in
     _update_user_statistics u a s f w = (Return tt, w')
     /\ persisted w' = session w'
     /\ counter UserStatistics.successful_repetitions u today l'
        = counter UserStatistics.successful_repetitions u today l + s
     /\ counter UserStatistics.failed_repetitions u today l'
        = counter UserStatistics.failed_repetitions u today l + f
     /\ counter UserStatistics.total_materials_added u today l'
        = counter UserStatistics.total_materials_added u today l + a
     /\ length (List.filter (stats_for u today) l') = 1%nat
     /\ (forall u' d', ~ (u' = u /\ d' = today) ->
           List.filter (stats_for u' d') l' = List.filter (stats_for u' d') l)
     /\ stats_unique l'
     /\ session w' = with_user_statistics (session w) l')
  /\ ((2 <= length (List.filter (stats_for u today) l))%nat ->
      exists w' : World,
        _update_user_statistics u a s f w = (Raise MultipleResultsFound, w')
        /\ session w' = session w
        /\ persisted w' = persisted w
        /\ commits w' = commits w).
Proof.
  intros today l. split.
  - intros Hu.
    destruct (upsert_stats_spec u today a s f (utcnow_at (S (clock w))) l Hu)
      as (Hu' & Hone & Hs & Hf & Ha & Hother).
    eexists. split; [by apply update_user_statistics_eq|].
    cbn [session persisted user_statistics with_user_statistics].
    by split_and!.
  - intros Hlen. eexists. split; [by apply update_user_statistics_multiple|].
    by split_and!.
Qed.

(** X17: what a completion adds to the counters of the day.  For an entry
    [complete_repetition] selects, whose material exists and whose user
    has a timezone that resolves, on a day that does not change during the
    call: a success adds 1 to the successful repetitions of the user and
    nothing to the failed ones.  A failure adds 1 to the failed
    repetitions in [complete_repetition], and [mark_failed] adds 1 more
    after it has written the follow-up entry: 2 in all when the store
    accepts that entry, and 1 when the store refuses it and the call
    raises DBAPIError.  In every case one result is written. *)
Theorem completion_counters
    (w : World) (sid uid : Z) (ok : bool)
    (e : RepetitionSchedule.t) (m : StudyMaterial.t) (tz : tzinfo) (D : Z) :
  select_incomplete (session w) sid uid = Some e ->
  stats_unique (user_statistics (session w)) ->
  study_materials (session w) !! RepetitionSchedule.material_id e = Some m ->
  get_tz (timezone_of_user (session w) uid) = Return tz ->
  (forall n, (clock w <= n)%nat -> today_at n = D) ->
  exists (due : datetime) (next_stage : Z) (w' : World),
    let l := user_statistics (session w) in
    let l' := user_statistics (persisted w') in
    (if ok
     then calculate_next_repetition (StudyMaterial.created_at m)
            (RepetitionSchedule.current_stage e)
            (timezone_of_user (session w) uid)
            (Some (utcnow_at (S (S (S (S (clock w)))))))
     else calculate_failed_repetition (utcnow_at (clock w))
            (StudyMaterial.current_stage m)
            (timezone_of_user (session w) uid))
    = Return (due, next_stage)
    /\ match bind_datetime due with
       | Some _ =>
           complete_repetition sid uid ok w = (Return true, w')
           /\ counter UserStatistics.failed_repetitions uid D l'
              = counter UserStatistics.failed_repetitions uid D l
                + (if ok then 0 else 2)
       | None =>
           complete_repetition sid uid ok w = (Raise DBAPIError, w')
           /\ counter UserStatistics.failed_repetitions uid D l'
              = counter UserStatistics.failed_repetitions uid D l
                + (if ok then 0 else 1)
       end
    /\ counter UserStatistics.successful_repetitions uid D l'
       = counter UserStatistics.successful_repetitions uid D l
         + (if ok then 1 else 0)
    /\ counter UserStatistics.total_materials_added uid D l'
       = counter UserStatistics.total_materials_added uid D l
    /\ session w' = persisted w'
    /\ length (repetition_results (persisted w'))
       = S (length (repetition_results (session w)))
    /\ stats_unique l'.
Proof.
  intros Hsel Hu Hm Htz Hday.
  destruct (select_incomplete_Some _ _ _ _ Hsel) as (Hrow & Huid & Hinc).
  set (l := user_statistics (session w)).
  set (now1 := utcnow_at (S (S (S (clock w))))).
  destruct (upsert_stats_spec uid D 0 (if ok then 1 else 0)
              (if ok then 0 else 1) now1 l Hu)
    as (Hu1 & _ & Hs1 & Hf1 & Ha1 & _).
  set (l1 := upsert_stats uid D 0 (if ok then 1 else 0)
               (if ok then 0 else 1) now1 l) in *.
  unfold complete_repetition. mrun. rewrite Hsel. mrun.
  destruct ok.
  - rewrite update_user_statistics_eq by done. mrun.
    rewrite (Hday (S (S (clock w)))) by lia. fold l now1 l1.
    match goal with
    | |- context [_create_next_repetition_on_success (sid, ?cs) ?w1] =>
        destruct (create_next_repetition_on_success_run w1 sid cs m tz)
          as (due & Hdue & Hyes & Hno);
          [done
          |change (RepetitionSchedule.user_id cs)
             with (RepetitionSchedule.user_id e); by rewrite Huid
          |]
    end.
    cbv zeta in Hyes, Hno, Hdue.
    change (RepetitionSchedule.user_id (mark_completed _ _))
      with (RepetitionSchedule.user_id e) in Hdue.
    rewrite Huid in Hdue.
    exists due. eexists.
    destruct (bind_datetime due) as [due'|] eqn:Hb.
    + rewrite (Hyes due' eq_refl). clear Hyes Hno. mrun.
      eexists. split; [exact Hdue|].
      split; [split; [reflexivity|]|].
      all: cbn [session persisted user_statistics repetition_results].
      all: rewrite ?length_app; cbn [length]; split_and?; try done; lia.
    + rewrite (Hno eq_refl). clear Hyes Hno. mrun.
      eexists. split; [exact Hdue|].
      split; [split; [reflexivity|]|].
      all: cbn [session persisted user_statistics repetition_results
           with_user_statistics with_repetition_results
           with_repetition_schedule with_study_materials].
      all: rewrite ?length_app; cbn [length]; split_and?; try done; lia.
  - rewrite update_user_statistics_eq by done. mrun.
    rewrite (Hday (S (S (clock w)))) by lia. fold l now1 l1.
    unfold _create_next_repetition_on_failure, mark_failed. mrun.
    cbn [RepetitionSchedule.material_id RepetitionSchedule.user_id
         RepetitionSchedule.completed_at mark_completed snd].
    mrun. rewrite Hm. mrun.
    rewrite Huid.
    repeat match goal with
    | |- context [calculate_failed_repetition ?t ?s ?name] =>
        rewrite (calculate_failed_repetition_eq t s name tz) by exact Htz
    end.
    mrun.
    set (due := Datetime (date (localized tz (utcnow_at (clock w))) + 1)
                  7 0 0 0 (Some tz)).
    exists due. eexists.
    destruct (bind_datetime due) as [due'|] eqn:Hb.
    + store_run Hb. mrun.
      rewrite update_user_statistics_eq by done. mrun.
      rewrite (Hday (S (S (S (S (S (clock w))))))) by lia.
      match goal with
      | |- context [upsert_stats uid D 0 0 1 ?now2 l1] =>
          destruct (upsert_stats_spec uid D 0 0 1 now2 l1 Hu1)
            as (Hu2 & _ & Hs2 & Hf2 & Ha2 & _)
      end.
      eexists. split; [reflexivity|].
      split; [split; [reflexivity|]|].
      all: cbn [session persisted user_statistics repetition_results
           with_user_statistics with_repetition_results
           with_repetition_schedule with_study_materials].
      all: rewrite ?length_app; cbn [length]; split_and?; try done; lia.
    + store_run Hb. mrun.
      eexists. split; [reflexivity|].
      split; [split; [reflexivity|]|].
      all: cbn [session persisted user_statistics repetition_results
           with_user_statistics with_repetition_results
           with_repetition_schedule with_study_materials].
      all: rewrite ?length_app; cbn [length]; split_and?; try done; lia.
Qed.

End MoreStatistics.

(** ** More on the sweep *)

Section MoreSweep.
Context `{Platform}.

Abbreviation mid e := (RepetitionSchedule.material_id (snd e)).

Lemma filter_none {A} (f : A -> bool) (l : list A) :
  (forall x, x ∈ l -> f x = false) -> List.filter f l = [].
Proof.
  induction l as [|x l IH]; intros Hf; [done|]. cbn.
  rewrite (Hf x) by (apply elem_of_cons; by left).
  apply IH. intros y Hy. apply Hf, elem_of_cons. by right.
Qed.

(** The sweep on rows that are unique per user and day: it returns, and
    the schedule it leaves differs from the one it found in the expired
    entries only, which are completed. *)
Lemma sweep_run (w : World) :
  stats_unique (user_statistics (session w)) ->
  let today := today_at (clock w) in
  let T := repetition_schedule (session w) in
  exists (count : Z) (w' : World),
    let T' := repetition_schedule (session w') in
    auto_complete_expired_intraday_repetitions w = (Return count, w')
    /\ (forall k r, T !! k = Some r -> expired_intraday today r = true ->
          exists t, T' !! k = Some (mark_completed r t))
    /\ (forall k r, T !! k = Some r -> expired_intraday today r = false ->
          T' !! k = Some r)
    /\ (forall k, T !! k = None -> T' !! k = None)
    /\ stats_unique (user_statistics (session w'))
    /\ users (session w') = users (session w)
    /\ study_materials (session w') = study_materials (session w)
    /\ repetition_schedule_seq (session w')
       = repetition_schedule_seq (session w)
    /\ (exists new, repetition_results (session w')
                    = repetition_results (session w) ++ new).
Proof.
  intros Hu today T.
  set (l := List.filter (fun e : entry => expired_intraday today e.2)
                        (map_to_list T)).
  assert (forall k r, (k, r) ∈ l <->
            T !! k = Some r /\ expired_intraday today r = true) as Hl.
  { intros k r. unfold l.
    rewrite list_elem_of_In, filter_In, <- list_elem_of_In,
      elem_of_map_to_list. reflexivity. }
  assert (NoDup l.*1) as Hnd.
  { unfold l. clear Hl. pose proof (NoDup_fst_map_to_list T) as HT.
    induction (map_to_list T) as [|[k r] m IH]; [constructor|].
    cbn in HT. apply NoDup_cons in HT as [Hk HT]. cbn.
    destruct (expired_intraday today r); [|by apply IH].
    cbn. constructor; [|by apply IH].
    intros [[k' r'] [Heq Hin]]%list_elem_of_fmap. cbn in Heq. subst k'.
    apply list_elem_of_In, filter_In in Hin as [Hin _].
    apply Hk, list_elem_of_fmap. exists (k, r'). split; [done|].
    by apply list_elem_of_In. }
  destruct (expire_loop_run l Hnd
              (mkWorld (session w) (persisted w) (commits w) (S (clock w)))
              0 Hu)
    as (w1 & Hloop & Hus & Hms & Hseq & Hst & Hother & Hdone & Hres & Hp & He).
  cbn [session] in Hus, Hms, Hseq, Hother, Hres.
  destruct Hres as (new & Hnew & _).
  assert (exists w',
            auto_complete_expired_intraday_repetitions w
            = (Return (0 + Z.of_nat (length l)), w')
            /\ session w' = session w1) as (w' & Hrun & Hs).
  { unfold auto_complete_expired_intraday_repetitions.
    erewrite bind_run by reflexivity.
    erewrite bind_run by reflexivity.
    cbn [session]. fold T today l.
    erewrite bind_run by exact Hloop.
    destruct (Z.ltb_spec 0 (0 + Z.of_nat (length l))).
    - erewrite bind_run by reflexivity.
      eexists. split; [reflexivity|]. done.
    - erewrite bind_run by reflexivity.
      eexists. split; [reflexivity|]. done. }
  exists (0 + Z.of_nat (length l)), w'. cbv zeta. rewrite Hs.
  split_and!; try done.
  - intros k r Hk Hexp. apply (Hdone k r). by apply Hl.
  - intros k r Hk Hexp. rewrite Hother; [done|].
    intros [[k' r'] [Heq Hin]]%list_elem_of_fmap. cbn in Heq. subst k'.
    apply Hl in Hin as [Hk' Hexp']. congruence.
  - intros k Hk. rewrite Hother; [done|].
    intros [[k' r'] [Heq Hin]]%list_elem_of_fmap. cbn in Heq. subst k'.
    apply Hl in Hin as [Hk' _]. congruence.
  - by exists new.
Qed.

Lemma expired_intraday_not_due today D r :
  today <= D -> expired_intraday today r = true -> due_on D r = false.
Proof.
  intros HD Hexp. unfold expired_intraday in Hexp.
  apply andb_true_iff in Hexp
    as [[Hd%Z.ltb_lt Hc%negb_true_iff]%andb_true_iff Hi%bool_decide_eq_true].
  unfold due_on. rewrite Hc. cbn [negb andb].
  apply orb_false_iff. split; apply andb_false_iff.
  - right. apply Z.eqb_neq. lia.
  - left. apply bool_decide_eq_false. intros Hl.
    unfold intraday_types, long_term_types in *.
    repeat (apply elem_of_cons in Hi as [Hi|Hi];
            [rewrite Hi in Hl;
             repeat (apply elem_of_cons in Hl as [Hl|Hl]; [discriminate|]);
             by apply elem_of_nil in Hl|]).
    by apply elem_of_nil in Hi.
Qed.

(** X18: the sweep is idempotent.  A second sweep on the same day finds
    nothing to resolve: it returns 0, writes nothing and commits nothing. *)
Theorem sweep_idempotent (w : World) :
  stats_unique (user_statistics (session w)) ->
  let w1 := (auto_complete_expired_intraday_repetitions w).2 in
  today_at (clock w1) = today_at (clock w) ->
  exists count : Z,
    auto_complete_expired_intraday_repetitions w = (Return count, w1)
    /\ auto_complete_expired_intraday_repetitions w1
       = (Return 0,
          mkWorld (session w1) (persisted w1) (commits w1) (S (clock w1))).
Proof.
  intros Hu w1 Hday.
  destruct (sweep_run w Hu)
    as (count & w' & Hrun & Hexp & Hkeep & Hnone & _).
  assert (w1 = w') as Hw1 by (unfold w1; by rewrite Hrun).
  exists count. split; [by rewrite Hw1|].
  unfold auto_complete_expired_intraday_repetitions.
  erewrite bind_run by reflexivity.
  erewrite bind_run by reflexivity.
  cbn [session]. rewrite Hday.
  rewrite filter_none; [reflexivity|].
  intros [k r'] Hin%elem_of_map_to_list. cbn [snd]. rewrite Hw1 in Hin.
  destruct (repetition_schedule (session w) !! k) as [r|] eqn:Hk.
  - destruct (expired_intraday (today_at (clock w)) r) eqn:Er.
    + destruct (Hexp k r Hk Er) as [t Ht].
      rewrite Ht in Hin. injection Hin as <-.
      unfold expired_intraday. cbn. by rewrite andb_false_r.
    + rewrite (Hkeep k r Hk Er) in Hin. by injection Hin as <-.
  - by rewrite (Hnone k Hk) in Hin.
Qed.

Lemma first_seen_materials (l : list entry) (m : Z) :
  m ∈ map (fun e : entry => mid e) (first_seen ∅ l)
  <-> m ∈ map (fun e : entry => mid e) l.
Proof.
  split.
  - intros (e & -> & Hin)%list_elem_of_fmap. apply list_elem_of_fmap.
    exists e. split; [done|].
    eapply elem_of_sublist; [done|apply first_seen_sublist].
  - intros (e & -> & Hin)%list_elem_of_fmap.
    apply list_elem_of_split in Hin as (pre & post & ->).
    destruct (first_seen_covers ∅ pre e post) as (e' & Hin & Hm & _);
      [apply not_elem_of_empty|].
    apply list_elem_of_fmap. by exists e'.
Qed.

(** X19: the sweep takes nothing from the list of the day.  For a target
    date that is today or later, the entries that are due are the same
    before and after the sweep, and [get_due_repetitions] returns entries
    of the same materials before and after it. *)
Theorem sweep_keeps_due (user_id : option Z) (D : Z) (w : World) :
  stats_unique (user_statistics (session w)) ->
  today_at (clock w) <= D ->
  exists (count : Z) (w1 : World) (before after : list entry),
    auto_complete_expired_intraday_repetitions w = (Return count, w1)
    /\ (get_due_repetitions user_id (Some D) w).1 = Return before
    /\ (get_due_repetitions user_id (Some D) w1).1 = Return after
    /\ (forall k r,
          due_on D r = true ->
          (repetition_schedule (session w1) !! k = Some r
           <-> repetition_schedule (session w) !! k = Some r))
    /\ (forall m : Z,
          m ∈ map (fun e : entry => RepetitionSchedule.material_id e.2) after
          <-> m ∈ map (fun e : entry => RepetitionSchedule.material_id e.2)
                    before).
Proof.
  intros Hu HD.
  destruct (sweep_run w Hu)
    as (count & w1 & Hrun & Hexp & Hkeep & Hnone & _).
  set (T := repetition_schedule (session w)) in *.
  set (T1 := repetition_schedule (session w1)) in *.
  set (f := fun e : entry => due_on D e.2 && for_user user_id e.2).
  assert (forall k r, due_on D r = true ->
            (T1 !! k = Some r <-> T !! k = Some r)) as Hsame.
  { intros k r Hdue. split; intros Hk.
    - destruct (T !! k) as [r0|] eqn:Hk0; [|by rewrite (Hnone k) in Hk].
      destruct (expired_intraday (today_at (clock w)) r0) eqn:Er.
      + destruct (Hexp k r0 Hk0 Er) as [t Ht]. rewrite Ht in Hk.
        injection Hk as <-. unfold due_on in Hdue. by cbn in Hdue.
      + by rewrite (Hkeep k r0 Hk0 Er) in Hk.
    - apply Hkeep; [done|].
      destruct (expired_intraday (today_at (clock w)) r) eqn:Er; [|done].
      by rewrite (expired_intraday_not_due _ D r HD Er) in Hdue. }
  exists count, w1,
    (first_seen ∅ (merge_sort due_order (List.filter f (map_to_list T)))),
    (first_seen ∅ (merge_sort due_order (List.filter f (map_to_list T1)))).
  split_and!.
  - done.
  - unfold get_due_repetitions. mrun. by rewrite fold_keep_unseen.
  - unfold get_due_repetitions. mrun. by rewrite fold_keep_unseen.
  - done.
  - intros m. rewrite !first_seen_materials.
    assert (forall e : entry,
              e ∈ merge_sort due_order (List.filter f (map_to_list T1))
              <-> e ∈ merge_sort due_order (List.filter f (map_to_list T)))
      as Hmem.
    { intros [k r]. rewrite !merge_sort_Permutation.
      rewrite !list_elem_of_In, !filter_In, <- !list_elem_of_In,
        !elem_of_map_to_list.
      unfold f. cbn [snd]. rewrite andb_true_iff.
      split; intros [Hk [Hd Hf]]; (split; [by apply Hsame|done]). }
    rewrite !list_elem_of_fmap. split; intros (e & -> & Hin); exists e;
      (split; [done|]); by apply Hmem.
Qed.

End MoreSweep.

(** ** The counts of the notification service *)

Section MoreCallers.
Context `{Platform}.

#[local] Instance due_order_total_c : Total due_order.
Proof. intros a b. apply lex_leb_total. Qed.

#[local] Instance due_order_trans_c : Transitive due_order.
Proof. intros a b c. apply lex_leb_trans. Qed.

Lemma filter_all {A} (f : A -> bool) (l : list A) :
  (forall x, x ∈ l -> f x = true) -> List.filter f l = l.
Proof.
  induction l as [|x l IH]; intros Hf; [done|]. cbn.
  rewrite (Hf x) by (apply elem_of_cons; by left).
  f_equal. apply IH. intros y Hy. apply Hf, elem_of_cons. by right.
Qed.

(** X20: the counts of [get_notification_statistics].  The call changes
    nothing; 'total_pending' always equals 'upcoming_count', because the
    upcoming schedule is asked for without the completed entries; and for
    a user other than 0, on a day that does not change during the call,
    'today_count' is at most 'upcoming_count' + 'overdue_count'. *)
Theorem get_notification_statistics_counts (u : Z) (w : World) :
  exists (st : notification_statistics) (w' : World),
    get_notification_statistics u w = (Return st, w')
    /\ session w' = session w
    /\ persisted w' = persisted w
    /\ commits w' = commits w
    /\ total_pending st = upcoming_count st
    /\ (u <> 0 ->
        today_at (S (clock w)) = today_at (clock w) ->
        today_at (S (S (clock w))) = today_at (clock w) ->
        today_count st <= upcoming_count st + overdue_count st).
Proof.
  set (today := today_at (clock w)).
  set (T := repetition_schedule (session w)).
  set (fu := fun e : entry =>
               (RepetitionSchedule.user_id e.2 =? u)
               && (today <=? RepetitionSchedule.scheduled_date e.2)
               && (RepetitionSchedule.scheduled_date e.2 <=? today + 7)
               && (false || negb (RepetitionSchedule.is_completed e.2))).
  set (upcoming := merge_sort schedule_order (List.filter fu (map_to_list T))).
  destruct (sorted_rows_spec schedule_order fu T) as [_ Hinu].
  fold upcoming in Hinu.
  assert (List.filter
            (fun r : entry => negb (RepetitionSchedule.is_completed r.2))
            upcoming = upcoming) as Hpending.
  { apply filter_all. intros e [_ Hfu]%Hinu. unfold fu in Hfu.
    by apply andb_true_iff in Hfu as [_ ?]. }
  eexists _, _. split.
  { unfold get_notification_statistics, get_user_schedule,
      get_overdue_repetitions, get_due_repetitions.
    mrun. fold today T fu upcoming. rewrite Hpending, fold_keep_unseen.
    reflexivity. }
  cbn [session persisted commits total_pending upcoming_count today_count
       overdue_count].
  split_and!; try done.
  intros Hu -> Hday2.
  set (D := today_at (S (S (clock w)))).
  set (fo := fun e : entry =>
               overdue_on (today - 1) e.2 && for_user (Some u) e.2).
  set (fd := fun e : entry => due_on D e.2 && for_user (Some u) e.2).
  destruct (sorted_rows_spec due_order fd T) as [Hndd Hind].
  destruct (rows_spec fo T) as [_ Hino].
  cbn [app].
  rewrite <- Nat2Z.inj_add, <- length_app. apply Nat2Z.inj_le.
  apply submseteq_length, NoDup_submseteq.
  { eapply sublist_NoDup; [exact Hndd|apply first_seen_sublist]. }
  intros e He. apply elem_of_app.
  eapply elem_of_sublist in He; [|apply first_seen_sublist].
  apply Hind in He as [Hst [Hd Hfu]%andb_true_iff].
  rewrite Hinu, Hino. unfold fu, fo. rewrite Hfu.
  rewrite for_user_spec in Hfu by done. rewrite Hfu.
  unfold due_on in Hd. unfold overdue_on. fold today in Hday2.
  destruct (RepetitionSchedule.is_completed e.2); [done|].
  cbn [negb andb orb] in *. rewrite !andb_true_r.
  apply orb_true_iff in Hd
    as [[_ Heq%Z.eqb_eq]%andb_true_iff|[Hl Hle%Z.leb_le]%andb_true_iff].
  - left. split; [done|]. apply andb_true_iff. split; apply Z.leb_le; lia.
  - rewrite Hl, andb_true_r.
    destruct (decide (RepetitionSchedule.scheduled_date e.2 = today))
      as [Heq|Hne].
    + left. split; [done|].
      apply andb_true_iff. split; apply Z.leb_le; lia.
    + right. split; [done|]. apply Z.leb_le. lia.
Qed.

(** X21: the length of a truncated text.  A text that fits is returned as
    it is.  A longer text is cut to exactly [max_length] characters, the
    last three of them full stops, when [max_length] is 3 or more; when
    [max_length] is less than 3 the slice counts from the end, and the
    result is longer than [max_length]. *)
Theorem truncate_content_length (content : list Z) (max_length : Z) :
  let n := Z.of_nat (length content) in
  let res := _truncate_content content max_length in
  (n <= max_length -> res = content)
  /\ (3 <= max_length < n ->
      Z.of_nat (length res) = max_length
      /\ res = take (Z.to_nat (max_length - 3)) content ++ [46; 46; 46])
  /\ (max_length < 3 -> max_length < n ->
      Z.of_nat (length res) = Z.max 0 (n + max_length - 3) + 3
      /\ max_length < Z.of_nat (length res)).
Proof.
  intros n res. subst res. unfold _truncate_content, slice_to. fold n.
  split_and!.
  - intros Hn. by destruct (Z.leb_spec n max_length); [|lia].
  - intros [H3 Hn].
    destruct (Z.leb_spec n max_length); [lia|].
    destruct (Z.ltb_spec (max_length - 3) 0); [lia|].
    split; [|done].
    rewrite length_app, length_take. cbn [length]. unfold n in *. lia.
  - intros H3 Hn.
    destruct (Z.leb_spec n max_length); [lia|].
    destruct (Z.ltb_spec (max_length - 3) 0); [|lia].
    rewrite length_app, length_take. cbn [length]. unfold n in *. lia.
Qed.

End MoreCallers.



(** ** The database as a transition system *)

Section TransitionSystem.
Context `{Platform}.

Lemma completed_not_incomplete uid mid r :
  RepetitionSchedule.is_completed r = true -> incomplete_for uid mid r = false.
Proof. intros Hc. unfold incomplete_for. rewrite Hc. apply andb_false_r. Qed.

(** Each change keeps the database well-formed. *)
Lemma step_wf d d' : wf d -> step d d' -> wf d'.
Proof.
  intros (Hfresh & Hstats & Hrows & Hmats & Htz & Hnd & Hrefer & Hdone) Hstep.
  destruct Hstep as [d uid mid|d r Hinc Hkind Hstage
                    |d k r now res Hk Hinc Hid Huid Hmid
                    |d k m m' Hk Hown Hcreated Hstage|d l' Hl'|d u r Hu Hvalid].
  all: unfold wf, seq_fresh, rows_ok, materials_ok, timezones_valid,
         results_match;
       cbn [users study_materials repetition_schedule repetition_schedule_seq
            repetition_results user_statistics with_users
            with_study_materials with_repetition_schedule
            with_repetition_results with_user_statistics].
  - (* delete *)
    split_and!; try done.
    + intros k r [Hk _]%map_lookup_filter_Some. by eapply Hfresh.
    + intros k r [Hk _]%map_lookup_filter_Some. by eapply Hrows.
    + intros res Hres. destruct (Hrefer res Hres) as (r & Hr & Hc & Hrest).
      exists r. split; [|done]. apply map_lookup_filter_Some.
      split; [done|]. by apply completed_not_incomplete.
    + intros k r [Hk _]%map_lookup_filter_Some. by apply Hdone.
  - (* add *)
    split_and!; try done.
    + intros k r' Hk. cbn in Hk |- *.
      destruct (decide (k = repetition_schedule_seq d)) as [->|Hne]; [lia|].
      rewrite lookup_insert_ne in Hk by done.
      specialize (Hfresh k r' Hk). lia.
    + intros k r' Hk. cbn in Hk.
      destruct (decide (k = repetition_schedule_seq d)) as [->|Hne].
      * rewrite lookup_insert_eq in Hk. by injection Hk as <-.
      * rewrite lookup_insert_ne in Hk by done. by eapply Hrows.
    + intros res Hres. destruct (Hrefer res Hres) as (r' & Hr & Hrest).
      exists r'. split; [|done]. cbn.
      rewrite lookup_insert_ne; [done|].
      specialize (Hfresh _ _ Hr). lia.
    + intros k r' Hk Hc. cbn in Hk.
      destruct (decide (k = repetition_schedule_seq d)) as [->|Hne].
      * rewrite lookup_insert_eq in Hk. injection Hk as <-. congruence.
      * rewrite lookup_insert_ne in Hk by done. by eapply Hdone.
  - (* complete *)
    assert (k ∉ map RepetitionResult.schedule_id (repetition_results d))
      as Hnew.
    { intros (res' & Heq & Hres')%list_elem_of_fmap.
      destruct (Hrefer res' Hres') as (r' & Hr' & Hc' & _).
      rewrite <- Heq, Hk in Hr'. injection Hr' as <-. congruence. }
    split_and!; try done.
    + intros k' r' Hk'. cbn in Hk' |- *.
      destruct (decide (k' = k)) as [->|Hne]; [by eapply Hfresh|].
      rewrite lookup_insert_ne in Hk' by done. by eapply Hfresh.
    + intros k' r' Hk'. cbn in Hk'.
      destruct (decide (k' = k)) as [->|Hne].
      * rewrite lookup_insert_eq in Hk'. injection Hk' as <-.
        by apply (Hrows k r).
      * rewrite lookup_insert_ne in Hk' by done. by eapply Hrows.
    + cbn. rewrite map_app. cbn. apply NoDup_app. split_and!; [done| |].
      * intros x Hx [->|[]%elem_of_nil]%elem_of_cons. by rewrite Hid in Hx.
      * apply NoDup_singleton.
    + cbn. intros res' [Hres'|[->|[]%elem_of_nil]%elem_of_cons]%elem_of_app.
      * destruct (Hrefer res' Hres') as (r' & Hr' & Hrest).
        exists r'. split; [|done]. rewrite lookup_insert_ne; [done|].
        intros Heq. apply Hnew, list_elem_of_fmap. by exists res'.
      * exists (mark_completed r now). rewrite Hid, lookup_insert_eq.
        by split_and!.
    + cbn. intros k' r' Hk' Hc. rewrite map_app. apply elem_of_app.
      destruct (decide (k' = k)) as [->|Hne].
      * right. cbn. rewrite Hid. apply elem_of_cons. by left.
      * left. rewrite lookup_insert_ne in Hk' by done. by eapply Hdone.
  - (* material *)
    split_and!; try done.
    intros k' m'' Hk'. cbn in Hk'.
    destruct (decide (k' = k)) as [->|Hne].
    + rewrite lookup_insert_eq in Hk'. by injection Hk' as <-.
    + rewrite lookup_insert_ne in Hk' by done. by eapply Hmats.
  - (* statistics *)
    by split_and!.
  - (* user *)
    split_and!; try done.
    intros u' r' Hu'. cbn in Hu'.
    destruct (decide (u' = u)) as [->|Hne].
    + rewrite lookup_insert_eq in Hu'. by injection Hu' as <-.
    + rewrite lookup_insert_ne in Hu' by done. by eapply Htz.
Qed.

Lemma steps_wf d d' : wf d -> rtc step d d' -> wf d'.
Proof. intros Hwf Hsteps. induction Hsteps; eauto using step_wf. Qed.

Lemma advances_refl_clock (w : World) (n : nat) :
  advances w (mkWorld (session w) (persisted w) (commits w) n).
Proof. split; [apply rtc_refl|by left]. Qed.

Lemma advances_traces (w w' : World) : advances w w' -> traces w w'.
Proof.
  intros [Hs [Hp|Hp]]; split; [by left| |by left|by left].
  right. rewrite Hp. apply rtc_refl.
Qed.

Lemma traces_refl_clock (w : World) (n : nat) :
  traces w (mkWorld (session w) (persisted w) (commits w) n).
Proof. apply advances_traces, advances_refl_clock. Qed.

Lemma traces_rollback (w : World) (n : nat) :
  traces w (mkWorld (persisted w) (persisted w) (commits w) n).
Proof. split; right; apply rtc_refl. Qed.

Lemma reaches_trans (w w1 : World) (d : DB) :
  traces w w1 -> reaches w1 d -> reaches w d.
Proof.
  intros [Hs Hp] [Hd|Hd].
  - destruct Hs as [Hs|Hs]; [left|right]; by etrans.
  - destruct Hp as [Hp|Hp]; [left|right]; by etrans.
Qed.

Lemma traces_trans (w w1 w2 : World) :
  traces w w1 -> traces w1 w2 -> traces w w2.
Proof. intros H1 [Hs Hp]. split; by eapply reaches_trans. Qed.

Lemma reaches_wf (w : World) (d : DB) :
  wf (session w) -> wf (persisted w) -> reaches w d -> wf d.
Proof.
  intros Hs Hp [Hd|Hd]; [exact (steps_wf _ _ Hs Hd)|exact (steps_wf _ _ Hp Hd)].
Qed.

(** [mark_failed] on a well-formed database. *)
Lemma mark_failed_traces (w : World) (uid mid : Z)
    (failed_at : option datetime) :
  wf (session w) ->
  traces w (mark_failed uid mid failed_at w).2
  /\ (forall e, (mark_failed uid mid failed_at w).1 = Raise e ->
        raise_cause (timezone_of_user (session w) uid) e).
Proof.
  intros (Hfresh & Hstats & Hrows & Hmats & Htz & Hres).
  destruct (study_materials (session w) !! mid) as [m|] eqn:Hm.
  - destruct (get_tz (timezone_of_user (session w) uid)) as [z|e] eqn:Ez.
    + set (due := Datetime
                    (date (localized z
                             (default (utcnow_at (clock w)) failed_at)) + 1)
                    7 0 0 0 (Some z)).
      destruct (bind_datetime due) as [due'|] eqn:Hb.
      * destruct (mark_failed_run w uid mid failed_at m z due' Hm Ez Hstats
                    Hb) as (stats' & Hu' & Hrun).
        cbv zeta in Hrun. rewrite Hrun. cbn [fst snd]. split; [|done].
        pose proof (Hmats _ _ Hm) as Hstage.
        assert (rtc step (session w)
                  (session (mark_failed uid mid failed_at w).2)) as Hsteps.
        { rewrite Hrun. cbn [snd session].
          eapply rtc_l; [apply (step_delete _ uid mid)|].
          eapply rtc_l; [eapply step_add|].
          4: eapply rtc_l; [eapply (step_material _ mid m)|].
          8: eapply rtc_l; [apply (step_stats _ stats' Hu')|].
          8: apply rtc_refl.
          all: cbn [RepetitionSchedule.is_completed
                    RepetitionSchedule.repetition_type
                    RepetitionSchedule.current_stage
                    StudyMaterial.user_id StudyMaterial.created_at
                    StudyMaterial.current_stage study_materials
                    with_repetition_schedule];
            try done; lia. }
        rewrite Hrun in Hsteps. cbn [snd session] in Hsteps.
        apply advances_traces. split; [done|]. by right.
      * rewrite (mark_failed_refused_run w uid mid failed_at m z Hm Ez Hb).
        cbn [fst snd]. split; [apply traces_rollback|].
        intros e' [= <-]. right. rewrite Ez. eauto.
    + rewrite (mark_failed_raise_run w uid mid failed_at m e Hm Ez).
      cbn [fst snd]. split; [apply traces_refl_clock|].
      intros e' [= <-]. left. split; [|done].
      by eapply get_tz_raise_unknown.
  - rewrite (mark_failed_missing_run w uid mid failed_at Hm).
    cbn [fst snd]. split; [apply traces_refl_clock|done].
Qed.

(** [_create_next_repetition_on_success] on a well-formed database, for
    an entry of a stage from 0 to 8. *)
Lemma create_next_repetition_on_success_traces (w : World) (cs : entry) :
  wf (session w) ->
  0 <= RepetitionSchedule.current_stage cs.2 <= 8 ->
  traces w (_create_next_repetition_on_success cs w).2
  /\ (forall e, (_create_next_repetition_on_success cs w).1 = Raise e ->
        raise_cause
          (timezone_of_user (session w) (RepetitionSchedule.user_id cs.2)) e).
Proof.
  intros (Hfresh & Hstats & Hrows & Hmats & Htz & Hres) Hstage.
  destruct cs as [sid cs]. cbn [snd] in *.
  destruct (study_materials (session w) !! RepetitionSchedule.material_id cs)
    as [m|] eqn:Hm.
  - destruct (get_tz (timezone_of_user (session w)
                        (RepetitionSchedule.user_id cs))) as [z|e] eqn:Ez.
    + destruct (create_next_repetition_on_success_run w sid cs m z Hm Ez)
        as (due & _ & Hyes & Hno).
      cbv zeta in Hyes, Hno.
      destruct (bind_datetime due) as [due'|] eqn:Hb.
      * pose proof (Hyes due' eq_refl) as Hrun. clear Hyes Hno.
        assert (1 <= stage_after (RepetitionSchedule.current_stage cs) <= 8)
          as Hafter by (unfold stage_after; destruct (decide _); lia).
        assert (rtc step (session w)
                  (session (_create_next_repetition_on_success (sid, cs) w).2))
          as Hsteps.
        { rewrite Hrun. cbn [snd session].
          eapply rtc_l; [eapply (step_material _ _ m)|].
          5: eapply rtc_l;
               [apply (step_delete _ (RepetitionSchedule.user_id cs)
                         (RepetitionSchedule.material_id cs))|].
          5: eapply rtc_l; [eapply step_add|].
          8: apply rtc_refl.
          all: cbn [RepetitionSchedule.is_completed
                    RepetitionSchedule.repetition_type
                    RepetitionSchedule.current_stage
                    StudyMaterial.user_id StudyMaterial.created_at
                    StudyMaterial.current_stage study_materials
                    with_repetition_schedule];
            try done; lia. }
        rewrite Hrun in *. cbn [fst snd session persisted] in *.
        split; [|done]. apply advances_traces. split; [done|]. by right.
      * rewrite (Hno eq_refl). cbn [fst snd].
        split; [apply traces_rollback|].
        intros e' [= <-]. right. eauto.
    + rewrite (create_next_repetition_on_success_raise_run w (sid, cs) m e
                 Hm Ez).
      cbn [fst snd]. split.
      * apply advances_traces. split; [|by left]. cbn [session].
        apply rtc_once.
        eapply (step_material _ _ m); cbn; try done; lia.
      * intros e' [= <-]. left. split; [|done].
        by eapply get_tz_raise_unknown.
  - rewrite (create_next_repetition_on_success_missing_run w (sid, cs) Hm).
    cbn [fst snd]. split; [apply (traces_refl_clock w (clock w))|done].
Qed.

Lemma then_true_run {A} (m : M A) (w : World) :
  ((m;; mret tt);; mret true) w
  = (match (m w).1 with Return _ => Return true | Raise e => Raise e end,
     (m w).2).
Proof. unfold mbind, M_bind, mret, M_ret. by destruct (m w) as [[a|e] w']. Qed.

Lemma complete_repetition_none_run (w : World) (sid uid : Z) (ok : bool) :
  select_incomplete (session w) sid uid = None ->
  complete_repetition sid uid ok w = (Return false, w).
Proof. intros Hsel. unfold complete_repetition. mrun. by rewrite Hsel. Qed.

(** [complete_repetition] on a well-formed database. *)
Lemma complete_repetition_traces (w : World) (sid uid : Z) (ok : bool) :
  wf (session w) ->
  traces w (complete_repetition sid uid ok w).2
  /\ (forall e, (complete_repetition sid uid ok w).1 = Raise e ->
        raise_cause (timezone_of_user (session w) uid) e).
Proof.
  intros Hwf.
  destruct (select_incomplete (session w) sid uid) as [e|] eqn:Hsel.
  - destruct (select_incomplete_Some _ _ _ _ Hsel) as (Hrow & Huid & Hinc).
    pose proof Hwf as (Hfresh & Hstats & Hrows & Hmats & Htz & Hres).
    destruct (complete_repetition_first_commit w sid uid ok e Hsel Hstats)
      as (stats1 & Hu1 & Hfirst).
    cbv zeta in Hfirst. rewrite Hfirst. clear Hfirst.
    set (e' := mark_completed e (utcnow_at (clock w))).
    match goal with
    | |- context [(_ ≫= _) ?w0] => set (w1 := w0)
    end.
    assert (rtc step (session w) (session w1)) as Hsteps.
    { subst w1. cbn [session].
      eapply rtc_l;
        [eapply (step_complete _ sid e (utcnow_at (clock w))
                   (RepetitionResult.mk sid uid
                      (RepetitionSchedule.material_id e) ok
                      (utcnow_at (S (clock w)))));
         cbn; done|].
      eapply rtc_l; [apply (step_stats _ stats1 Hu1)|]. apply rtc_refl. }
    assert (wf (session w1)) as Hwf1 by (by eapply steps_wf).
    assert (traces w w1) as Htr1
      by (apply advances_traces; split; [done|by right]).
    assert (0 <= RepetitionSchedule.current_stage e' <= 8) as Hstage
      by (by apply (Hrows sid e)).
    assert (timezone_of_user (session w1) (RepetitionSchedule.user_id e')
            = timezone_of_user (session w) uid) as Hname.
    { change (RepetitionSchedule.user_id e')
        with (RepetitionSchedule.user_id e). by rewrite Huid. }
    destruct ok.
    + rewrite then_true_run.
      destruct (create_next_repetition_on_success_traces w1 (sid, e')
                  Hwf1 Hstage) as [Htr Hraise].
      cbn [fst snd]. split; [by eapply traces_trans|].
      intros ex Hex.
      destruct (_create_next_repetition_on_success (sid, e') w1)
        as [[a|ex'] w2]; [done|].
      cbn [fst] in *. injection Hex as <-.
      specialize (Hraise ex' eq_refl). cbn [snd] in Hraise.
      by rewrite Hname in Hraise.
    + rewrite then_true_run. unfold _create_next_repetition_on_failure.
      cbn [snd].
      destruct (mark_failed_traces w1 (RepetitionSchedule.user_id e')
                  (RepetitionSchedule.material_id e')
                  (RepetitionSchedule.completed_at e') Hwf1)
        as [Htr Hraise].
      cbn [fst snd]. split; [by eapply traces_trans|].
      intros ex Hex.
      destruct (mark_failed _ _ _ w1) as [[a|ex'] w2]; [done|].
      cbn [fst] in *. injection Hex as <-.
      specialize (Hraise ex' eq_refl).
      by rewrite Hname in Hraise.
  - rewrite (complete_repetition_none_run w sid uid ok Hsel).
    cbn [fst snd]. split; [apply (traces_refl_clock w (clock w))|done].
Qed.

(** [create_initial_repetitions] on a well-formed database. *)
Lemma create_initial_repetitions_traces (w : World) (mid uid : Z)
    (created : datetime) (user_timezone : option string) :
  wf (session w) ->
  let name := match user_timezone with
              | Some name =>
                  if decide (name = "") then default_timezone else name
              | None => default_timezone
              end in
  traces w (create_initial_repetitions mid uid created user_timezone w).2
  /\ (forall e,
        (create_initial_repetitions mid uid created user_timezone w).1
        = Raise e ->
        raise_cause name e).
Proof.
  intros Hwf name.
  destruct (get_tz name) as [z|e] eqn:Ez.
  - pose proof (create_initial_repetitions_refused_run w mid uid created
                  user_timezone z Ez) as Hno.
    pose proof (fun s s0 s1 =>
                  create_initial_repetitions_run w mid uid created
                    user_timezone z s s0 s1 Ez) as Hyes.
    cbv zeta in Hno, Hyes.
    assert (forall dt, bind_datetime dt = None ->
              raise_cause name DBAPIError) as Hcause.
    { intros dt Hdt. right. rewrite Ez. eauto. }
    destruct (bind_datetime created) as [s|] eqn:Hs.
    2: { rewrite Hno by (by left). cbn [fst snd].
         split; [apply traces_rollback|]. intros e' [= <-]. eauto. }
    match type of Hno with
    | _ \/ bind_datetime ?d0 = None \/ bind_datetime ?d1 = None -> _ =>
        destruct (bind_datetime d0) as [s0|] eqn:Hs0;
          [destruct (bind_datetime d1) as [s1|] eqn:Hs1|]
    end.
    2: { rewrite Hno by (right; by right). cbn [fst snd].
         split; [apply traces_rollback|]. intros e' [= <-]. eauto. }
    2: { rewrite Hno by (right; by left). cbn [fst snd].
         split; [apply traces_rollback|]. intros e' [= <-]. eauto. }
    rewrite (Hyes s s0 s1) by done.
    cbn [fst snd]. split; [|done].
    match goal with
    | |- traces _ (mkWorld ?d _ _ _) =>
        assert (rtc step (session w) d) as Hsteps
    end.
    { eapply rtc_l; [apply (step_delete _ uid mid)|].
      eapply rtc_l; [eapply step_add|].
      4: eapply rtc_l; [eapply step_add|].
      7: eapply rtc_l; [eapply step_add|].
      10: apply rtc_refl.
      all: cbn [RepetitionSchedule.is_completed
                RepetitionSchedule.repetition_type
                RepetitionSchedule.current_stage]; try done; lia. }
    apply advances_traces. split; [done|]. by right.
  - rewrite (create_initial_repetitions_raise_run w mid uid created
               user_timezone e Ez).
    cbn [fst snd]. split.
    + apply advances_traces. split; [|by left]. cbn [session].
      apply rtc_once, step_delete.
    + intros e' [= <-]. left. split; [|done].
      by eapply get_tz_raise_unknown.
Qed.

(** The loop of the sweep on a well-formed database, over entries that
    are stored and incomplete. *)
Lemma expire_loop_traces (l : list entry) :
  NoDup l.*1 ->
  forall (w : World) (count : Z),
    wf (session w) ->
    (forall k r, (k, r) ∈ l ->
       repetition_schedule (session w) !! k = Some r
       /\ RepetitionSchedule.is_completed r = false) ->
    exists w',
      for_loop l count expire_one w
      = (Return (count + Z.of_nat (length l)), w')
      /\ rtc step (session w) (session w')
      /\ (l = [] -> w' = w)
      /\ (l <> [] -> persisted w' = session w').
Proof.
  induction l as [|[k r] l IH]; intros Hnd w count Hwf Hl.
  - exists w. split_and!; [|apply rtc_refl|done..].
    cbn [for_loop length]. replace (count + Z.of_nat 0) with count by lia.
    reflexivity.
  - cbn in Hnd. apply NoDup_cons in Hnd as [Hk Hnd].
    pose proof Hwf as (_ & Hstats & _).
    destruct (Hl k r) as [Hrow Hinc]; [apply elem_of_cons; by left|].
    destruct (expire_one_run w count (k, r) Hstats) as (stats1 & Hu1 & Hone).
    cbv zeta in Hone. cbn [fst snd] in Hone.
    cbn [for_loop]. erewrite bind_run by exact Hone.
    match goal with
    | |- context [for_loop l _ expire_one ?w0] => set (w1 := w0)
    end.
    assert (rtc step (session w) (session w1)) as Hsteps.
    { subst w1. cbn [session].
      eapply rtc_l;
        [eapply (step_complete _ k r (utcnow_at (clock w))
                   (RepetitionResult.mk k (RepetitionSchedule.user_id r)
                      (RepetitionSchedule.material_id r) false
                      (utcnow_at (S (clock w)))));
         cbn; done|].
      eapply rtc_l; [apply (step_stats _ stats1 Hu1)|]. apply rtc_refl. }
    assert (wf (session w1)) as Hwf1 by (by eapply steps_wf).
    destruct (IH Hnd w1 (count + 1) Hwf1) as (w' & Hloop & Hsteps' & He & Hp).
    { intros k' r' Hin.
      destruct (Hl k' r') as [Hrow' Hinc']; [apply elem_of_cons; by right|].
      split; [|done]. subst w1. cbn [session repetition_schedule].
      rewrite lookup_insert_ne; [done|].
      intros <-. apply Hk, list_elem_of_fmap. by exists (k, r'). }
    exists w'. split_and!.
    + rewrite Hloop. cbn [length].
      replace (count + 1 + Z.of_nat (length l))
        with (count + Z.of_nat (S (length l))) by lia.
      reflexivity.
    + by etrans.
    + done.
    + intros _. destruct l as [|e' l'].
      * by rewrite (He eq_refl).
      * by apply Hp.
Qed.

(** The sweep on a well-formed database. *)
Lemma sweep_traces (w : World) :
  wf (session w) ->
  advances w (auto_complete_expired_intraday_repetitions w).2
  /\ exists count,
       (auto_complete_expired_intraday_repetitions w).1 = Return count.
Proof.
  intros Hwf.
  set (today := today_at (clock w)).
  set (T := repetition_schedule (session w)).
  set (l := List.filter (fun e : entry => expired_intraday today e.2)
                        (map_to_list T)).
  assert (forall k r, (k, r) ∈ l ->
            T !! k = Some r /\ RepetitionSchedule.is_completed r = false)
    as Hl.
  { intros k r. unfold l.
    rewrite list_elem_of_In, filter_In, <- list_elem_of_In,
      elem_of_map_to_list.
    intros [Hk Hexp]. split; [done|]. unfold expired_intraday in Hexp.
    cbn [snd] in Hexp.
    by apply andb_true_iff in Hexp
      as [[_ ?%negb_true_iff]%andb_true_iff _]. }
  assert (NoDup l.*1) as Hnd.
  { unfold l. clear Hl. pose proof (NoDup_fst_map_to_list T) as HT.
    induction (map_to_list T) as [|[k r] m IH]; [constructor|].
    cbn in HT. apply NoDup_cons in HT as [Hk HT]. cbn.
    destruct (expired_intraday today r); [|by apply IH].
    cbn. constructor; [|by apply IH].
    intros [[k' r'] [Heq Hin]]%list_elem_of_fmap. cbn in Heq. subst k'.
    apply list_elem_of_In, filter_In in Hin as [Hin _].
    apply Hk, list_elem_of_fmap. exists (k, r'). split; [done|].
    by apply list_elem_of_In. }
  destruct (expire_loop_traces l Hnd
              (mkWorld (session w) (persisted w) (commits w) (S (clock w)))
              0 Hwf Hl)
    as (w1 & Hloop & Hsteps & He & Hp).
  cbn [session] in Hsteps.
  unfold auto_complete_expired_intraday_repetitions.
  erewrite bind_run by reflexivity.
  erewrite bind_run by reflexivity.
  cbn [session]. fold T today l.
  erewrite bind_run by exact Hloop.
  destruct (Z.ltb_spec 0 (0 + Z.of_nat (length l))).
  - erewrite bind_run by reflexivity. cbn [fst snd].
    split; [|by eexists]. split; [done|]. by right.
  - erewrite bind_run by reflexivity. cbn [fst snd].
    split; [|by eexists]. split; [done|]. left.
    rewrite He; [done|]. destruct l; [done|]. cbn [length] in *. lia.
Qed.

(** [update_user_settings] on a well-formed database. *)
Lemma update_user_settings_traces (w : World) (u : Z)
    (timezone : option string) :
  advances w (update_user_settings u timezone w).2
  /\ exists b, (update_user_settings u timezone w).1 = Return b.
Proof.
  unfold update_user_settings, get_user. mrun.
  destruct (users (session w) !! u) as [user|] eqn:Hu; mrun.
  - destruct timezone as [name|]; mrun.
    + destruct (decide (name = "")) as [->|Hne]; mrun.
      * split; [|by eexists]. split; [apply rtc_refl|right; apply rtc_refl].
      * destruct (is_valid_timezone name) eqn:Hv; cbn [negb]; mrun.
        -- split; [|by eexists].
           assert (step (session w)
                     (with_users (session w)
                        (<[u := User.mk name]> (users (session w)))))
             as Hstep by (apply step_user; [by rewrite Hu|done]).
           split; [by apply rtc_once|right; by apply rtc_once].
        -- split; [|by eexists]. split; [apply rtc_refl|by left].
    + split; [|by eexists]. split; [apply rtc_refl|right; apply rtc_refl].
  - split; [|by eexists]. split; [apply rtc_refl|by left].
Qed.

(** Every call on a well-formed database: the changes it makes, and the
    only ways it raises. *)
Lemma call_traces (c : call) (w : World) :
  wf (session w) ->
  traces w (run_call c w).2
  /\ (forall e, (run_call c w).1 = Some e ->
        exists name,
          call_timezone c (session w) = Some name /\ raise_cause name e).
Proof.
  intros Hwf. destruct c as [mid uid created tz|sid uid ok|uid mid t| |u tz];
    unfold run_call, raised, call_timezone; cbn [fst snd].
  - destruct (create_initial_repetitions_traces w mid uid created tz Hwf)
      as [Htr Hraise].
    split; [done|]. intros e He.
    destruct (create_initial_repetitions mid uid created tz w) as [[a|e'] w'];
      [done|].
    cbn [fst] in He. injection He as <-. eauto.
  - destruct (complete_repetition_traces w sid uid ok Hwf) as [Htr Hraise].
    split; [done|]. intros e He.
    destruct (complete_repetition sid uid ok w) as [[a|e'] w']; [done|].
    cbn [fst] in He. injection He as <-. eauto.
  - destruct (mark_failed_traces w uid mid t Hwf) as [Htr Hraise].
    split; [done|]. intros e He.
    destruct (mark_failed uid mid t w) as [[a|e'] w']; [done|].
    cbn [fst] in He. injection He as <-. eauto.
  - destruct (sweep_traces w Hwf) as [Htr [count Hret]].
    split; [by apply advances_traces|]. intros e He. by rewrite Hret in He.
  - destruct (update_user_settings_traces w u tz) as [Htr [b Hret]].
    split; [by apply advances_traces|]. intros e He. by rewrite Hret in He.
Qed.

(** A relation to an earlier database that every change extends holds
    after any sequence of calls and sessions. *)
Lemma events_rel (R : DB -> DB -> Prop) :
  (forall d d1 d2, wf d1 -> R d d1 -> step d1 d2 -> R d d2) ->
  forall (es : list event) (w : World) (d0 : DB),
    wf (session w) -> wf (persisted w) ->
    R d0 (session w) -> R d0 (persisted w) ->
    R d0 (session (run_events es w)) /\ R d0 (persisted (run_events es w)).
Proof.
  intros Hstep.
  assert (forall d d1 d2, wf d1 -> R d d1 -> rtc step d1 d2 -> R d d2)
    as Hsteps.
  { intros d d1 d2 Hwf HR Hrtc. induction Hrtc as [|d1 d2 d3 H12 _ IH];
      [done|]. apply IH; [by eapply step_wf|by eapply Hstep]. }
  assert (forall w d d0, wf (session w) -> wf (persisted w) ->
            R d0 (session w) -> R d0 (persisted w) ->
            reaches w d -> R d0 d) as Hreach.
  { intros w d d0 Hws Hwp HRs HRp [Hd|Hd];
      [exact (Hsteps _ _ _ Hws HRs Hd)|exact (Hsteps _ _ _ Hwp HRp Hd)]. }
  induction es as [|ev es IH]; intros w d0 Hws Hwp HRs HRp; [done|].
  cbn [run_events fold_left]. apply (IH (run_event ev w)).
  - destruct ev as [c|]; cbn [run_event new_session session]; [|done].
    destruct (call_traces c w Hws) as [[Hs _] _].
    exact (reaches_wf _ _ Hws Hwp Hs).
  - destruct ev as [c|]; cbn [run_event new_session persisted]; [|done].
    destruct (call_traces c w Hws) as [[_ Hp] _].
    exact (reaches_wf _ _ Hws Hwp Hp).
  - destruct ev as [c|]; cbn [run_event new_session session]; [|done].
    destruct (call_traces c w Hws) as [[Hs _] _].
    exact (Hreach _ _ _ Hws Hwp HRs HRp Hs).
  - destruct ev as [c|]; cbn [run_event new_session persisted]; [|done].
    destruct (call_traces c w Hws) as [[_ Hp] _].
    exact (Hreach _ _ _ Hws Hwp HRs HRp Hp).
Qed.

(** X22: the calls keep the database well-formed.  Starting from a
    session and a persisted state that are well-formed (the id sequence is
    ahead of every entry; there is at most one statistics row per user and
    day; every entry has the kind of its stage and a stage from 0 to 8;
    every material has a stage from 0 to 9; every user has a timezone that
    [is_valid_timezone] accepts; the results and the completed entries
    match one to one), any sequence of calls of
    [create_initial_repetitions], [complete_repetition], [mark_failed],
    the sweep and [update_user_settings], in any number of sessions and
    whether they return or raise, the store refusing a row included,
    leaves both well-formed. *)
Theorem events_keep_well_formed (es : list event) (w : World) :
  wf (session w) ->
  wf (persisted w) ->
  wf (session (run_events es w)) /\ wf (persisted (run_events es w)).
Proof.
  revert w. induction es as [|ev es IH]; intros w Hws Hwp; [done|].
  cbn [run_events fold_left]. apply (IH (run_event ev w)).
  - destruct ev as [c|]; cbn [run_event new_session session]; [|done].
    destruct (call_traces c w Hws) as [[Hs _] _].
    exact (reaches_wf _ _ Hws Hwp Hs).
  - destruct ev as [c|]; cbn [run_event new_session persisted]; [|done].
    destruct (call_traces c w Hws) as [[_ Hp] _].
    exact (reaches_wf _ _ Hws Hwp Hp).
Qed.

(** X23: what becomes of an entry.  After any sequence of calls and
    sessions on a well-formed database [d], in the session and in the
    persisted state alike: the id sequence has not gone back; under an id
    that [d] had given out there is nothing, or the entry [d] held there,
    as it was or with only [is_completed] and [completed_at] set; ids are
    not used again; and every entry that was completed in [d] is there as
    it was. *)
Theorem events_keep_history (es : list event) (w : World) :
  wf (session w) ->
  persisted w = session w ->
  history_kept (session w) (session (run_events es w))
  /\ history_kept (session w) (persisted (run_events es w)).
Proof.
  intros Hwf Hp.
  assert (history_kept (session w) (session w)) as Hrefl.
  { split_and!; [lia| |done]. intros k r' _ Hk. exists r'. split; [done|].
    by left. }
  apply (events_rel (history_kept)); [|done|by rewrite Hp|done|by rewrite Hp].
  clear. intros d d1 d2 (Hfresh & _ & _ & _ & _ & _) (Hseq & Hold & Hkept)
                Hstep.
  destruct Hstep as [d1 uid mid|d1 r Hinc Hkind Hstage
                    |d1 k0 r0 now res Hk0 Hinc Hid Huid Hmid
                    |d1 k m m' Hk Hown Hcreated Hstage|d1 l' Hl'
                    |d1 u r Hu Hvalid];
    unfold history_kept;
    cbn [repetition_schedule repetition_schedule_seq with_users
         with_study_materials with_repetition_schedule
         with_repetition_results with_user_statistics];
    try (by split_and!).
  - split_and!; [done| |].
    + intros k r' Hlt [Hk _]%map_lookup_filter_Some. by apply Hold.
    + intros k r Hk Hc. apply map_lookup_filter_Some. split; [by apply Hkept|].
      by apply completed_not_incomplete.
  - split_and!; [lia| |].
    + intros k r' Hlt Hk. rewrite lookup_insert_ne in Hk by lia.
      by apply Hold.
    + intros k r' Hk Hc. specialize (Hkept k r' Hk Hc).
      rewrite lookup_insert_ne; [done|]. specialize (Hfresh _ _ Hkept). lia.
  - split_and!; [done| |].
    + intros k r' Hlt Hk. destruct (decide (k = k0)) as [->|Hne].
      * rewrite lookup_insert_eq in Hk. injection Hk as <-.
        destruct (Hold k0 r0 Hlt Hk0) as (r & Hr & [->|[_ [t ->]]]);
          [|done].
        exists r. split; [done|]. right. split; [done|]. by exists now.
      * rewrite lookup_insert_ne in Hk by done. by apply Hold.
    + intros k r Hk Hc. specialize (Hkept k r Hk Hc).
      rewrite lookup_insert_ne; [done|]. intros <-. congruence.
Qed.

(** X24: what the calls never rewrite.  After any sequence of calls and
    sessions on a well-formed database, in the session and in the
    persisted state alike: the results written before are still there, in
    their order, before the new ones; no material has been created or
    deleted and every material has the owner and the creation time it
    had; no user has been created or deleted. *)
Theorem events_never_rewrite (es : list event) (w : World) :
  wf (session w) ->
  persisted w = session w ->
  never_rewritten (session w) (session (run_events es w))
  /\ never_rewritten (session w) (persisted (run_events es w)).
Proof.
  intros Hwf Hp.
  assert (never_rewritten (session w) (session w)) as Hrefl.
  { split_and!; [exists []; by rewrite app_nil_r|done| |done].
    intros k m m' Hm Hm'. rewrite Hm in Hm'. by injection Hm' as <-. }
  apply (events_rel (never_rewritten));
    [|done|by rewrite Hp|done|by rewrite Hp].
  clear. intros d d1 d2 _ ([new Hnew] & Hdom & Hmat & Husers) Hstep.
  destruct Hstep as [d1 uid mid|d1 r Hinc Hkind Hstage
                    |d1 k0 r0 now res Hk0 Hinc Hid Huid Hmid
                    |d1 k m m' Hk Hown Hcreated Hstage|d1 l' Hl'
                    |d1 u r Hu Hvalid];
    unfold never_rewritten;
    cbn [users study_materials repetition_results with_users
         with_study_materials with_repetition_schedule
         with_repetition_results with_user_statistics];
    try (split_and!; by eauto).
  - split_and!; try done. exists (new ++ [res]).
    by rewrite Hnew, app_assoc.
  - split_and!; try (by eauto).
    + intros k'. rewrite <- Hdom. destruct (decide (k' = k)) as [->|Hne].
      * rewrite lookup_insert_eq, Hk. split; eauto.
      * by rewrite lookup_insert_ne.
    + intros k' m0 m1 Hk0 Hk1. destruct (decide (k' = k)) as [->|Hne].
      * rewrite lookup_insert_eq in Hk1. injection Hk1 as <-.
        destruct (Hmat k m0 m Hk0 Hk) as [<- <-]. done.
      * rewrite lookup_insert_ne in Hk1 by done. by eapply Hmat.
  - split_and!; try (by eauto).
    intros u'. rewrite <- Husers. destruct (decide (u' = u)) as [->|Hne].
    + rewrite lookup_insert_eq. split; eauto.
    + by rewrite lookup_insert_ne.
Qed.

Lemma bind_datetime_None (dt : datetime) :
  bind_datetime dt = None -> tzinfo_of dt <> None /\ bind_aware dt = None.
Proof. unfold bind_datetime. by destruct (tzinfo_of dt). Qed.

(** The instants of the calculators carry the zone of the user. *)
Lemma calculate_next_repetition_aware created s name last tz due s' :
  get_tz name = Return tz ->
  calculate_next_repetition created s name last = Return (due, s') ->
  tzinfo_of due = Some tz.
Proof.
  intros Htz. unfold calculate_next_repetition. rewrite Htz.
  repeat match goal with
         | |- context [if ?a =? ?b then _ else _] => destruct (a =? b)
         end;
    rewrite ?morning_after_eq; intros [= <- <-]; try done.
  - cbn [add_timedelta tzinfo_of]. apply tzinfo_of_localized.
  - rewrite replace_time_localized. by destruct (datetime_leb _ _).
Qed.

Lemma pytz_has_get_tz name :
  pytz_has name = true -> exists tz, get_tz name = Return tz.
Proof.
  intros Hp. unfold get_tz. rewrite Hp. destruct (zoneinfo_has name); eauto.
Qed.

(** X25: the two exceptions of a call.  On a well-formed database a call
    raises nothing but UnknownTimeZoneError and DBAPIError: the first only
    when neither zoneinfo nor pytz knows the timezone name the call
    resolves, the second only when the name resolves and the store refuses
    an aware datetime; the sweep and [update_user_settings] never raise.
    When pytz knows the default timezone and the timezone argument of
    [create_initial_repetitions] is one that [is_valid_timezone] accepts,
    or none: on a store that accepts every aware datetime no call raises;
    on a store that refuses every aware datetime
    [create_initial_repetitions] raises DBAPIError, and so do [mark_failed]
    on a material that exists and [complete_repetition] on an entry it
    selects whose material exists. *)
Theorem call_raise_causes (c : call) (w : World) :
  wf (session w) ->
  (forall e, (run_call c w).1 = Some e ->
     exists name,
       call_timezone c (session w) = Some name
       /\ ((e = UnknownTimeZoneError
            /\ zoneinfo_has name = false /\ pytz_has name = false)
           \/ (e = DBAPIError
               /\ (exists tz, get_tz name = Return tz)
               /\ exists dt, tzinfo_of dt <> None /\ bind_aware dt = None)))
  /\ (pytz_has default_timezone = true ->
      timezone_argument_valid c ->
      (forall dt, is_Some (bind_aware dt)) ->
      (run_call c w).1 = None)
  /\ (pytz_has default_timezone = true ->
      timezone_argument_valid c ->
      (forall dt, bind_aware dt = None) ->
      match c with
      | Create_initial_repetitions _ _ _ _ =>
          (run_call c w).1 = Some DBAPIError
      | Complete_repetition sid uid _ =>
          forall e,
            select_incomplete (session w) sid uid = Some e ->
            is_Some (study_materials (session w)
                       !! RepetitionSchedule.material_id e) ->
            (run_call c w).1 = Some DBAPIError
      | Mark_failed _ mid _ =>
          is_Some (study_materials (session w) !! mid) ->
          (run_call c w).1 = Some DBAPIError
      | _ => (run_call c w).1 = None
      end).
Proof.
  intros Hwf. destruct (call_traces c w Hwf) as [_ Hraise].
  assert (forall e, (run_call c w).1 = Some e ->
            exists name,
              call_timezone c (session w) = Some name
              /\ ((e = UnknownTimeZoneError
                   /\ zoneinfo_has name = false /\ pytz_has name = false)
                  \/ (e = DBAPIError
                      /\ (exists tz, get_tz name = Return tz)
                      /\ exists dt,
                           tzinfo_of dt <> None /\ bind_aware dt = None)))
    as Honly.
  { intros e He. destruct (Hraise e He) as (name & Hname & Hcause).
    exists name. split; [done|].
    destruct Hcause as [[-> Hz]|(-> & Hz & dt & Hdt)]; [left|right].
    - split; [done|]. by apply get_tz_raises.
    - split; [done|]. split; [done|]. exists dt.
      by apply bind_datetime_None. }
  split; [done|].
  pose proof Hwf as (_ & Hstats & _ & _ & Htz & _).
  assert (forall u, pytz_has (timezone_of_user (session w) u) = true
                    \/ timezone_of_user (session w) u = default_timezone)
    as Huser.
  { intros u. unfold timezone_of_user.
    destruct (users (session w) !! u) as [r|] eqn:Hu; [|by right].
    left. by apply (Htz u r). }
  assert (pytz_has default_timezone = true ->
          timezone_argument_valid c ->
          forall name, call_timezone c (session w) = Some name ->
                       exists tz, get_tz name = Return tz) as Hresolves.
  { intros Hdef Harg name Hname. apply pytz_has_get_tz.
    destruct c as [mid uid created tz|sid uid ok|uid mid t| |u tz];
      cbn [call_timezone] in Hname; try done; injection Hname as <-.
    - destruct tz as [tz|]; [|done].
      destruct (decide (tz = "")); [done|].
      destruct Harg as [?|Hv]; [done|]. by unfold is_valid_timezone in Hv.
    - destruct (Huser uid) as [?| ->]; done.
    - destruct (Huser uid) as [?| ->]; done. }
  split.
  - intros Hdef Harg Hall.
    destruct (run_call c w).1 as [e|] eqn:He; [exfalso|done].
    destruct (Honly e eq_refl) as (name & Hname & Hcause).
    destruct (Hresolves Hdef Harg name Hname) as [tz Hz].
    destruct Hcause as [(_ & Hzi & Hpy)|(_ & _ & dt & _ & Hdt)].
    + assert (get_tz name = Raise UnknownTimeZoneError) as Hr
        by (by apply get_tz_raises).
      congruence.
    + destruct (Hall dt) as [x Hx]. congruence.
  - intros Hdef Harg Hall.
    assert (forall dt tz, tzinfo_of dt = Some tz -> bind_datetime dt = None)
      as Hrefuse.
    { intros dt tz Hdt. unfold bind_datetime. rewrite Hdt. apply Hall. }
    destruct c as [mid uid created tz|sid uid ok|uid mid t| |u tz];
      unfold run_call, raised; cbn [fst].
    + destruct (Hresolves Hdef Harg _ eq_refl) as [z Hz].
      rewrite (create_initial_repetitions_refused_run w mid uid created tz
                 z Hz); [done|].
      right. left. apply (Hrefuse _ z). cbn [add_timedelta tzinfo_of].
      apply tzinfo_of_localized.
    + intros e Hsel [m Hm].
      destruct (Hresolves Hdef Harg _ eq_refl) as [z Hz].
      destruct (complete_repetition_run w sid uid ok e m z Hsel Hstats Hm Hz)
        as (stats1 & due & Hdue & _ & Hno).
      cbv zeta in Hno, Hdue.
      destruct Hno as [n ->]; [|done].
      apply (Hrefuse _ z). destruct ok.
      * by eapply calculate_next_repetition_aware.
      * rewrite (calculate_failed_repetition_eq _ _ _ z Hz) in Hdue.
        injection Hdue as Hdue. by rewrite <- Hdue.
    + intros [m Hm].
      destruct (Hresolves Hdef Harg _ eq_refl) as [z Hz].
      rewrite (mark_failed_refused_run w uid mid t m z Hm Hz); [done|].
      by apply (Hrefuse _ z).
    + destruct (sweep_traces w Hwf) as [_ [count ->]]. done.
    + destruct (update_user_settings_traces w u tz) as [_ [b ->]]. done.
Qed.

(** Well-formedness of a database with no results and no statistics yet,
    checked by computation. *)
Lemma wf_check (d : DB) :
  user_statistics d = [] ->
  repetition_results d = [] ->
  bool_decide
    (map_Forall
       (fun k r =>
          k < repetition_schedule_seq d
          /\ RepetitionSchedule.is_completed r = false
          /\ RepetitionSchedule.repetition_type r
             = get_stage_name (RepetitionSchedule.current_stage r)
          /\ 0 <= RepetitionSchedule.current_stage r <= 8)
       (repetition_schedule d)) = true ->
  bool_decide
    (map_Forall (fun (_ : Z) m => 0 <= StudyMaterial.current_stage m <= 9)
       (study_materials d)) = true ->
  bool_decide
    (map_Forall
       (fun (_ : Z) u => is_valid_timezone (User.timezone u) = true)
       (users d)) = true ->
  wf d.
Proof.
  intros Hstats Hres Hrows%bool_decide_eq_true Hmats%bool_decide_eq_true
         Husers%bool_decide_eq_true.
  unfold wf, results_match. rewrite Hstats, Hres. split_and!.
  - intros k r Hk. by destruct (Hrows k r Hk).
  - apply stats_unique_nil.
  - intros k r Hk. by destruct (Hrows k r Hk) as (_ & _ & ? & ?).
  - intros k m Hk. by apply (Hmats k m).
  - intros u r Hu. by apply (Husers u r).
  - constructor.
  - by intros res ?%elem_of_nil.
  - intros k r Hk Hc. destruct (Hrows k r Hk) as (_ & Hinc & _). congruence.
Qed.

End TransitionSystem.

(** ** The history of a material *)

Section MoreHistory.
Context `{Platform}.

Lemma unique_result (l : list RepetitionResult.t) (k : Z) :
  NoDup (map RepetitionResult.schedule_id l) ->
  k ∈ map RepetitionResult.schedule_id l ->
  exists res,
    List.filter (fun y => RepetitionResult.schedule_id y =? k) l = [res]
    /\ res ∈ l
    /\ RepetitionResult.schedule_id res = k.
Proof.
  induction l as [|y l IH]; cbn; [by intros _ ?%elem_of_nil|].
  intros [Hy Hnd]%NoDup_cons Hk.
  destruct (Z.eqb_spec (RepetitionResult.schedule_id y) k) as [Heq|Hne].
  - exists y. split_and!; [|apply elem_of_cons; by left|done].
    f_equal. apply filter_none. intros x Hx. apply Z.eqb_neq. intros Hxk.
    apply Hy, list_elem_of_fmap. exists x. split; [congruence|done].
  - apply elem_of_cons in Hk as [Hk|Hk]; [congruence|].
    destruct (IH Hnd Hk) as (res & Hf & Hin & Hid).
    exists res. split_and!; [done| |done]. apply elem_of_cons. by right.
Qed.

Lemma find_none_all {A} (f : A -> bool) (l : list A) :
  List.find f l = None <-> forall x, x ∈ l -> f x = false.
Proof.
  induction l as [|y l IH]; cbn.
  - split; [by intros _ x ?%elem_of_nil|done].
  - destruct (f y) eqn:Ey.
    + split; [done|]. intros Hall.
      specialize (Hall y). rewrite Ey in Hall.
      discriminate Hall. apply elem_of_cons. by left.
    + rewrite IH. split.
      * intros Hall x [->|Hx]%elem_of_cons; auto.
      * intros Hall x Hx. apply Hall, elem_of_cons. by right.
Qed.

(** The loop over the schedule of the material. *)
Lemma history_loop_run (l : list entry) :
  forall (w : World) (acc : list HistoryItem.t),
    results_match (session w) ->
    (forall e : entry, e ∈ l ->
       repetition_schedule (session w) !! e.1 = Some e.2) ->
    exists items,
      for_loop l acc history_step w = (Return (acc ++ items), w)
      /\ Forall2 (item_of (session w))
           (List.filter
              (fun e : entry => RepetitionSchedule.is_completed e.2) l)
           items.
Proof.
  induction l as [|e l IH]; intros w acc Hres Hl.
  - exists []. rewrite app_nil_r. split; [done|constructor].
  - assert (forall e' : entry, e' ∈ l ->
              repetition_schedule (session w) !! e'.1 = Some e'.2) as Hl'
      by (intros e' He'; apply Hl, elem_of_cons; by right).
    cbn [for_loop List.filter].
    destruct (RepetitionSchedule.is_completed e.2) eqn:Hc.
    + pose proof Hres as (Hnd & _ & Hdone).
      destruct (unique_result (repetition_results (session w)) e.1 Hnd)
        as (res & Hone & _ & _).
      { eapply Hdone; [apply Hl, elem_of_cons; by left|done]. }
      erewrite bind_run; cycle 1.
      { unfold history_step. rewrite Hc. mrun. unfold results_of.
        rewrite Hone. cbn [scalar_one_or_none]. mrun. reflexivity. }
      destruct (IH w (acc ++
                  [HistoryItem.mk
                     (RepetitionSchedule.current_stage e.2)
                     (RepetitionSchedule.repetition_type e.2)
                     (RepetitionSchedule.scheduled_datetime e.2)
                     (RepetitionSchedule.completed_at e.2)
                     (if RepetitionResult.was_successful res
                      then "success" else "failed")]))
        as (items & Hrun & Hall); [done..|].
      eexists (_ :: items). split.
      * rewrite Hrun. by rewrite <- app_assoc.
      * constructor; [|done]. split_and!; try done.
        exists res. by split.
    + erewrite bind_run
        by (unfold history_step; rewrite Hc; reflexivity).
      by apply IH.
Qed.

(** X26: the history of a material.  When the results and the completed
    entries match one to one, [get_material_schedule_with_history] never
    raises and changes nothing; it returns None exactly when the material
    does not exist or is not the user's; otherwise its 'history' has one
    item for each completed entry of the material, in the order of
    [get_material_schedule], and the 'result' of an item is taken from the
    one result row of its entry: it is never 'failed' for want of a
    result.  'next_repetition_type' is None exactly when every entry of
    the material is completed. *)
Theorem get_material_schedule_with_history_spec (u m : Z) (w : World) :
  results_match (session w) ->
  exists out : option MaterialHistory.t,
    get_material_schedule_with_history u m w = (Return out, w)
    /\ (out = None <->
        forall material,
          study_materials (session w) !! m = Some material ->
          StudyMaterial.user_id material <> u)
    /\ (forall info, out = Some info ->
        exists material all,
          study_materials (session w) !! m = Some material
          /\ get_material_schedule m w = (Return all, w)
          /\ (forall e : entry,
                e ∈ all <->
                repetition_schedule (session w) !! e.1 = Some e.2
                /\ RepetitionSchedule.material_id e.2 = m)
          /\ MaterialHistory.current_stage info
             = StudyMaterial.current_stage material
          /\ Forall2 (item_of (session w))
               (List.filter
                  (fun e : entry => RepetitionSchedule.is_completed e.2) all)
               (MaterialHistory.history info)
          /\ (MaterialHistory.next_repetition_type info = None <->
              forall e : entry,
                e ∈ all -> RepetitionSchedule.is_completed e.2 = true)).
Proof.
  intros Hres.
  set (f := fun e : entry => RepetitionSchedule.material_id e.2 =? m).
  set (all := merge_sort schedule_order
                (List.filter f
                   (map_to_list (repetition_schedule (session w))))).
  destruct (sorted_rows_spec schedule_order f
              (repetition_schedule (session w))) as [_ Hin].
  fold all in Hin.
  assert (get_material_schedule m w = (Return all, w)) as Hall.
  { unfold get_material_schedule. mrun. by destruct w. }
  unfold get_material_schedule_with_history. mrun.
  destruct (study_materials (session w) !! m) as [material|] eqn:Hm; mrun.
  - destruct (Z.eqb_spec (StudyMaterial.user_id material) u) as [Hu|Hu];
      cbn [negb].
    + destruct (history_loop_run all w [] Hres) as (items & Hloop & Hitems).
      { intros e He. by apply Hin in He as [? _]. }
      unfold get_material_schedule in *. revert Hall. mrun. intros Hall.
      fold f all. rewrite Hloop. cbn [app].
      eexists. split; [by destruct w|]. split.
      * split; [done|]. intros Hno. by destruct (Hno material).
      * intros info [= <-]. exists material, all.
        cbn [MaterialHistory.current_stage MaterialHistory.history
             MaterialHistory.next_repetition_type].
        split_and!; try done.
        -- intros e. rewrite Hin. unfold f. by rewrite Z.eqb_eq.
        -- destruct (List.find _ all) as [s|] eqn:Hfind.
           ++ split; [done|]. intros Hdone.
              apply List.find_some in Hfind as [Hs Hinc].
              rewrite (Hdone s) in Hinc; [done|]. by apply list_elem_of_In.
           ++ split; [|done]. intros _ e He.
              pose proof (proj1 (find_none_all _ _) Hfind e He) as Hc.
              by apply negb_false_iff in Hc.
    + eexists. split; [by destruct w|]. split; [|done].
      split; [|done]. intros _ material' [= <-]. done.
  - eexists. split; [by destruct w|]. split; [|done].
    split; [|done]. by intros _ material' [=].
Qed.

End MoreHistory.

(** ** The engine on the concrete platform *)

#[local] Existing Instance fixed_platform.

(** The answers of a store to the instants of a run, one case each. *)
Ltac store_cases H :=
  repeat match type of H with
         | match ?x with _ => _ end => destruct x
         end.

Example ymd_2025_01_01 : ymd 2025 1 1 = 739252.
Proof. reflexivity. Qed.

(** The tests of [tests/test_utils.py] for stages 0 and 1. *)
Example stage_0_to_1 :
  calculate_next_repetition
    (Datetime (ymd 2025 1 1) 10 0 0 0 (Some yekaterinburg))
    0 "Asia/Yekaterinburg" None
  = Return (Datetime (ymd 2025 1 1) 10 20 0 0 (Some yekaterinburg), 1).
Proof. vm_compute. reflexivity. Qed.

Example stage_1_to_2_after_evening :
  calculate_next_repetition
    (Datetime (ymd 2025 1 1) 21 0 0 0 (Some yekaterinburg))
    1 "Asia/Yekaterinburg" None
  = Return (Datetime (ymd 2025 1 2) 20 0 0 0 (Some yekaterinburg), 2).
Proof. vm_compute. reflexivity. Qed.

(** An aware datetime of another zone is converted first: 18:00 in Moscow
    is 20:00 in Yekaterinburg, so the evening slot of the day has passed. *)
Example stage_1_to_2_from_moscow :
  calculate_next_repetition
    (Datetime (ymd 2025 1 1) 18 0 0 0 (Some (ZoneInfo "Europe/Moscow")))
    1 "Asia/Yekaterinburg" None
  = Return (Datetime (ymd 2025 1 2) 20 0 0 0 (Some yekaterinburg), 2).
Proof. vm_compute. reflexivity. Qed.

Example unknown_timezone_raises :
  calculate_next_repetition material_created 0 "Mars/Olympus" None
  = Raise UnknownTimeZoneError.
Proof. vm_compute. reflexivity. Qed.

Example stage_names_of_9_and_minus_1 :
  get_stage_name 9 = "monthly" /\ get_stage_name (-1) = "unknown".
Proof. vm_compute. split; reflexivity. Qed.

(** A stage-5 material marked failed on 2025-01-10: stage 4, due on
    2025-01-11 at 07:00. *)
Example failure_on_2025_01_10 :
  calculate_failed_repetition
    (Datetime (ymd 2025 1 10) 15 30 0 0 (Some yekaterinburg))
    5 "Asia/Yekaterinburg"
  = Return (Datetime (ymd 2025 1 11) 7 0 0 0 (Some yekaterinburg), 4).
Proof. vm_compute. reflexivity. Qed.

(** The stale evening entry is swept and is not due afterwards; the old
    day_1 entry stays due. *)
Example sweep_then_due :
  let w1 := (auto_complete_expired_intraday_repetitions world_stale).2 in
  (auto_complete_expired_intraday_repetitions world_stale).1 = Return 1
  /\ ((get_due_repetitions (Some 123) (Some (ymd 2025 1 10)) w1).1
      = Return [(2, old_day_1); (3, fresh_immediate)]).
Proof. vm_compute. split; reflexivity. Qed.

(** A material created at 10:00 local, on a store that accepts the rows:
    the three entries are due at 10:00, at 10:20 and at 20:00 of the day;
    created at 21:00, the evening entry is due at 20:00 of the next day.
    The rows hold the instants without their zone. *)
Example initial_repetitions_due_at :
  (fun e : entry => RepetitionSchedule.scheduled_datetime e.2)
    <$> default []
          (match (create_initial_repetitions (H := lenient_platform) 1 123
                    (Datetime (ymd 2025 1 1) 10 0 0 0 None)
                    None world_new).1 with
           | Return l => Some l
           | Raise _ => None
           end)
  = [Some (Datetime (ymd 2025 1 1) 10 0 0 0 None);
     Some (Datetime (ymd 2025 1 1) 10 20 0 0 None);
     Some (Datetime (ymd 2025 1 1) 20 0 0 0 None)]
  /\ (fun e : entry => RepetitionSchedule.scheduled_datetime e.2)
       <$> default []
             (match (create_initial_repetitions (H := lenient_platform) 1 123
                       (Datetime (ymd 2025 1 1) 21 0 0 0 None)
                       None world_new).1 with
              | Return l => Some l
              | Raise _ => None
              end)
     = [Some (Datetime (ymd 2025 1 1) 21 0 0 0 None);
        Some (Datetime (ymd 2025 1 1) 21 20 0 0 None);
        Some (Datetime (ymd 2025 1 2) 20 0 0 0 None)].
Proof. vm_compute. split; reflexivity. Qed.

(** The same call on the configured store: the second row, due at 10:20
    in the zone of the user, is refused, and nothing is stored. *)
Example initial_repetitions_refused :
  create_initial_repetitions 1 123 material_created None world_new
  = (Raise DBAPIError, mkWorld db_new db_new [db_new] 3).
Proof. vm_compute. reflexivity. Qed.

(** The pending day_1 entry (stage 3) completed with success on a store
    that accepts the follow-up row: the next entry has stage 4 and is due
    three days after the creation date at 07:00, and the material is at
    stage 4. *)
Example day_1_success_next_entry :
  let d :=
    session (complete_repetition (H := lenient_platform) 10 123 true
               world_day_1).2 in
  (fun r => (RepetitionSchedule.current_stage r,
             RepetitionSchedule.repetition_type r,
             RepetitionSchedule.scheduled_datetime r))
    <$> (repetition_schedule d !! 11)
  = Some (4, "day_3", Some (Datetime (ymd 2025 1 4) 7 0 0 0 None))
  /\ StudyMaterial.current_stage <$> (study_materials d !! 1) = Some 4.
Proof. vm_compute. split; reflexivity. Qed.

(** The same completion on the configured store: the call raises after the
    completion is committed; no follow-up entry is stored and the material
    stays at stage 3. *)
Example day_1_success_refused :
  let r := complete_repetition 10 123 true world_day_1 in
  r.1 = Raise DBAPIError
  /\ session r.2 = persisted r.2
  /\ RepetitionSchedule.is_completed <$> (repetition_schedule (persisted r.2) !! 10)
     = Some true
  /\ repetition_schedule (persisted r.2) !! 11 = None
  /\ length (repetition_results (persisted r.2)) = 1%nat
  /\ StudyMaterial.current_stage <$> (study_materials (persisted r.2) !! 1)
     = Some 3.
Proof. vm_compute. by split_and!. Qed.

(** *** Witnesses *)

Lemma calculate_next_repetition_table_witness :
  get_tz "Asia/Yekaterinburg" = Return yekaterinburg
  /\ 0 <= 3 <= 7
  /\ calculate_next_repetition
       (Datetime (ymd 2025 1 1) 10 0 0 0 (Some yekaterinburg))
       3 "Asia/Yekaterinburg" None
     = Return (Datetime (ymd 2025 1 4) 7 0 0 0 (Some yekaterinburg), 4).
Proof.
  split; [reflexivity|]. split; [lia|].
  apply (calculate_next_repetition_table
           (Datetime (ymd 2025 1 1) 10 0 0 0 (Some yekaterinburg))
           3 "Asia/Yekaterinburg" None yekaterinburg);
    [reflexivity | lia].
Defined.

Lemma calculate_next_repetition_monthly_witness :
  get_tz "Asia/Yekaterinburg" = Return yekaterinburg
  /\ 7 <= 8
  /\ calculate_next_repetition
       (Datetime (ymd 2025 1 1) 10 0 0 0 (Some yekaterinburg))
       8 "Asia/Yekaterinburg"
       (Some (Datetime (ymd 2025 3 1) 10 0 0 0 (Some yekaterinburg)))
     = Return (Datetime (ymd 2025 3 31) 7 0 0 0 (Some yekaterinburg), 8).
Proof.
  split; [reflexivity|]. split; [lia|].
  apply (calculate_next_repetition_monthly
           (Datetime (ymd 2025 1 1) 10 0 0 0 (Some yekaterinburg))
           8 "Asia/Yekaterinburg"
           (Some (Datetime (ymd 2025 3 1) 10 0 0 0 (Some yekaterinburg)))
           yekaterinburg);
    [reflexivity | lia].
Defined.

Lemma calculate_failed_repetition_spec_witness :
  get_tz "Asia/Yekaterinburg" = Return yekaterinburg
  /\ exists next_stage,
       calculate_failed_repetition
         (Datetime (ymd 2025 1 5) 15 30 0 0 (Some yekaterinburg))
         0 "Asia/Yekaterinburg"
       = Return (Datetime (ymd 2025 1 6) 7 0 0 0 (Some yekaterinburg),
                 next_stage)
       /\ next_stage = 0.
Proof.
  assert (get_tz "Asia/Yekaterinburg" = Return yekaterinburg) as Htz
    by reflexivity.
  split; [exact Htz|].
  destruct (calculate_failed_repetition_spec
              (Datetime (ymd 2025 1 5) 15 30 0 0 (Some yekaterinburg))
              0 "Asia/Yekaterinburg" yekaterinburg Htz)
    as (next_stage & Hrun & Hmax & _).
  exists next_stage. split; [exact Hrun | exact Hmax].
Defined.

Lemma stage_table_negative_witness :
  -1 < 0
  /\ get_stage_name (-1) = "unknown"
  /\ get_stage_description (-1) = "Неизвестная стадия".
Proof.
  split; [lia|].
  destruct (stage_table_negative (-1)) as (Hname & Hdescr & _); [lia|].
  split; [exact Hname | exact Hdescr].
Defined.

(** The witness of C6 runs on a store that accepts the follow-up row, so
    that the first call returns. *)
Section AcceptingStore.
#[local] Existing Instance lenient_platform | 0.


End AcceptingStore.


Lemma complete_repetition_two_commits_witness :
  select_incomplete (session world_day_1) 10 123 = Some day_1_entry
  /\ stats_unique (user_statistics (session world_day_1))
  /\ seq_fresh (session world_day_1)
  /\ study_materials (session world_day_1) !! 1 = Some material_day_1
  /\ get_tz (timezone_of_user (session world_day_1) 123) = Return yekaterinburg
  /\ (exists w',
        complete_repetition 10 123 true world_day_1 = (Raise DBAPIError, w')
        /\ persisted w' = session w'
        /\ repetition_schedule (persisted w') !! 11 = None
        /\ study_materials (persisted w') = study_materials db_day_1)
  /\ (exists w',
        complete_repetition (H := lenient_platform) 10 123 true world_day_1
        = (Return true, w')
        /\ persisted w' = session w'
        /\ is_Some (repetition_schedule (persisted w') !! 11)).
Proof.
  assert (select_incomplete (session world_day_1) 10 123 = Some day_1_entry)
    as Hsel by reflexivity.
  assert (seq_fresh (session world_day_1)) as Hfresh
    by (apply seq_fresh_check; vm_compute; reflexivity).
  assert (study_materials (session world_day_1) !! 1 = Some material_day_1)
    as Hm by reflexivity.
  assert (get_tz (timezone_of_user (session world_day_1) 123)
          = Return yekaterinburg) as Htz by reflexivity.
  assert (get_tz (H := lenient_platform)
            (timezone_of_user (session world_day_1) 123)
          = Return yekaterinburg) as Htz' by reflexivity.
  split_and!; try done; [apply stats_unique_nil| |].
  - destruct (complete_repetition_two_commits world_day_1 10 123 true
                day_1_entry material_day_1 yekaterinburg
                Hsel stats_unique_nil Hfresh Hm Htz)
      as (d1 & due & Hrows & _ & Hmat & _ & Hcase).
    store_cases Hcase.
    + destruct Hcase as (d2 & between & w' & Hrun & _).
      exfalso. vm_compute in Hrun. discriminate.
    + destruct Hcase as (w' & Hrun & Hs & Hp & Hc).
      exists w'. split; [exact Hrun|]. split; [congruence|].
      rewrite Hp, Hrows, Hmat. split; reflexivity.
  - destruct (complete_repetition_two_commits (H := lenient_platform)
                world_day_1 10 123 true
                day_1_entry material_day_1 yekaterinburg
                Hsel stats_unique_nil Hfresh Hm Htz')
      as (d1 & due & _ & _ & _ & _ & Hcase).
    store_cases Hcase.
    + destruct Hcase
        as (d2 & between & w' & Hrun & Hs & Hp & _ & _ & _ & _ & _
            & next & m' & Hnext & _).
      exists w'. split; [exact Hrun|]. split; [congruence|].
      rewrite Hp. by eexists.
    + destruct Hcase as (w' & Hrun & _).
      exfalso. vm_compute in Hrun. discriminate.
Defined.

Lemma material_stage_follows_entry_witness :
  study_materials (session world_day_1) !! 1 = Some material_day_1
  /\ get_tz (timezone_of_user (session world_day_1) 123) = Return yekaterinburg
  /\ stats_unique (user_statistics (session world_day_1))
  /\ seq_fresh (session world_day_1)
  /\ (exists w',
        complete_repetition 10 123 true world_day_1 = (Raise DBAPIError, w')
        /\ study_materials (session w') = study_materials db_day_1)
  /\ (exists w',
        complete_repetition (H := lenient_platform) 10 123 true world_day_1
        = (Return true, w')
        /\ stage_invariant_spec 123 1 (session w')).
Proof.
  assert (select_incomplete (session world_day_1) 10 123 = Some day_1_entry)
    as Hsel by reflexivity.
  assert (seq_fresh (session world_day_1)) as Hfresh
    by (apply seq_fresh_check; vm_compute; reflexivity).
  assert (study_materials (session world_day_1) !! 1 = Some material_day_1)
    as Hm by reflexivity.
  assert (get_tz (timezone_of_user (session world_day_1) 123)
          = Return yekaterinburg) as Htz by reflexivity.
  assert (get_tz (H := lenient_platform)
            (timezone_of_user (session world_day_1) 123)
          = Return yekaterinburg) as Htz' by reflexivity.
  assert (true = true -> 0 <= RepetitionSchedule.current_stage day_1_entry <= 7)
    as Hstage by (intros _; cbn; lia).
  split_and!; try done; [apply stats_unique_nil| |].
  - destruct (material_stage_follows_entry world_day_1 123 1 material_day_1
                yekaterinburg Hm Htz stats_unique_nil Hfresh)
      as (Hcomplete & _ & _).
    destruct (Hcomplete 10 day_1_entry true Hsel eq_refl Hstage)
      as (due & next_stage & w' & _ & _ & Hcase).
    store_cases Hcase.
    + destruct Hcase as (Hrun & _). exfalso. vm_compute in Hrun. discriminate.
    + destruct Hcase as (Hrun & Hmat & _). exists w'. by split.
  - destruct (material_stage_follows_entry (H := lenient_platform)
                world_day_1 123 1 material_day_1
                yekaterinburg Hm Htz' stats_unique_nil Hfresh)
      as (Hcomplete & _ & _).
    destruct (Hcomplete 10 day_1_entry true Hsel eq_refl Hstage)
      as (due & next_stage & w' & _ & _ & Hcase).
    store_cases Hcase.
    + destruct Hcase as (Hrun & Hinv). exists w'. by split.
    + destruct Hcase as (Hrun & _). exfalso. vm_compute in Hrun. discriminate.
Defined.

Lemma auto_complete_expired_intraday_repetitions_spec_witness :
  stats_unique (user_statistics (session world_stale))
  /\ exists count w' r',
       auto_complete_expired_intraday_repetitions world_stale
       = (Return count, w')
       /\ repetition_schedule (session w') !! 1 = Some r'
       /\ RepetitionSchedule.is_completed r' = true
       /\ is_Some (RepetitionSchedule.completed_at r')
       /\ RepetitionSchedule.repetition_type r' = "evening"
       /\ repetition_schedule (session w') !! 2 = Some old_day_1
       /\ (0 < count -> persisted w' = session w').
Proof.
  split; [apply stats_unique_nil|].
  destruct (auto_complete_expired_intraday_repetitions_spec world_stale
              stats_unique_nil)
    as (count & w' & new & Hrun & _ & _ & _ & _ & _ & Hdone & Hother & _ & _
        & _ & Hp).
  destruct (Hdone 1 stale_evening) as (r' & t & Hr' & Hc & Ht & _ & _ & _
                                       & Hty & _);
    [reflexivity
    |split; [reflexivity|split; [set_solver|vm_compute; reflexivity]]|].
  exists count, w', r'. split; [exact Hrun|]. split; [exact Hr'|].
  split; [exact Hc|]. split; [by rewrite Ht|]. split; [by rewrite Hty|].
  split; [|exact Hp].
  apply Hother; [reflexivity|]. intros (_ & Hin & _). cbn in Hin.
  repeat (apply elem_of_cons in Hin as [Hin|Hin]; [discriminate Hin|]).
  by apply elem_of_nil in Hin.
Defined.

(** *** Where the code departs from the specification *)

(** Against C4 as it is written: completing the pending day_1 entry of
    [world_day_1] commits a state in which the entry is completed and its
    result written while no follow-up entry exists (no entry is
    incomplete) and the material is still at stage 3.  On a store that
    accepts the follow-up row this state is committed before the last one;
    on the configured store the call raises and this state is the one that
    stays persisted. *)
Lemma complete_repetition_not_atomic :
  let half_done (d : DB) :=
    (exists r, repetition_schedule d !! 10 = Some r
               /\ RepetitionSchedule.is_completed r = true)
    /\ length (repetition_results d) = 1%nat
    /\ List.filter
         (fun e : entry => negb (RepetitionSchedule.is_completed e.2))
         (map_to_list (repetition_schedule d)) = []
    /\ StudyMaterial.current_stage <$> (study_materials d !! 1) = Some 3 in
  (exists d : DB,
     d ∈ commits (complete_repetition (H := lenient_platform) 10 123 true
                    world_day_1).2
     /\ half_done d)
  /\ (complete_repetition 10 123 true world_day_1).1 = Raise DBAPIError
  /\ half_done (persisted (complete_repetition 10 123 true world_day_1).2).
Proof.
  cbv zeta. split; [|split].
  - eexists. split.
    { apply list_elem_of_lookup. exists 1%nat. vm_compute. reflexivity. }
    split; [eexists; split; vm_compute; reflexivity|].
    split; [vm_compute; reflexivity|].
    split; vm_compute; reflexivity.
  - vm_compute. reflexivity.
  - split; [eexists; split; vm_compute; reflexivity|].
    split; [vm_compute; reflexivity|].
    split; vm_compute; reflexivity.
Qed.

(** Against C5 as it is written: after [create_initial_repetitions] on a
    store that accepts the rows the user has three incomplete entries for
    the material; on the configured store the call raises and the
    material has no entry.  Either way the invariant of the specification
    does not hold. *)
Lemma initial_repetitions_break_stage_invariant :
  ~ stage_invariant_spec 123 1
      (persisted (create_initial_repetitions (H := lenient_platform) 1 123
                    material_created (Some "Asia/Yekaterinburg")
                    world_new).2)
  /\ ~ stage_invariant_spec 123 1
         (persisted (create_initial_repetitions 1 123 material_created
                       (Some "Asia/Yekaterinburg") world_new).2).
Proof.
  split.
  - intros (k & next & m & _ & _ & Huniq & _).
    pose proof (Huniq 1) as H1. pose proof (Huniq 2) as H2.
    assert (1 = k) as E1 by (eapply H1; [vm_compute; reflexivity|done]).
    assert (2 = k) as E2 by (eapply H2; [vm_compute; reflexivity|done]).
    lia.
  - intros (k & next & m & Hk & _). vm_compute in Hk. discriminate.
Qed.


(** The success path on a monthly entry, on a store that accepts the
    follow-up row: the material is moved to stage 9 while the next entry
    stays at stage 8. *)
Example monthly_success_material_stage :
  let d :=
    session (complete_repetition (H := lenient_platform) 20 123 true
               world_monthly).2 in
  RepetitionSchedule.current_stage <$> (repetition_schedule d !! 21) = Some 8
  /\ StudyMaterial.current_stage <$> (study_materials d !! 1) = Some 9.
Proof. vm_compute. split; reflexivity. Qed.


(** *** The further properties on the concrete platform *)

Lemma monthly_chain_30_days_witness :
  get_tz "Asia/Yekaterinburg" = Return yekaterinburg
  /\ monthly_chain 3 material_created "Asia/Yekaterinburg"
       (Datetime (ymd 2025 3 1) 7 0 0 0 (Some yekaterinburg))
     = Return (Datetime (ymd 2025 3 1 + 90) 7 0 0 0 (Some yekaterinburg)).
Proof.
  split; [reflexivity|].
  rewrite (monthly_chain_30_days 2 material_created
             (Datetime (ymd 2025 3 1) 7 0 0 0 (Some yekaterinburg))
             "Asia/Yekaterinburg" yekaterinburg); reflexivity.
Defined.

Lemma calculate_next_repetition_after_creation_witness :
  get_tz "Asia/Yekaterinburg" = Return yekaterinburg
  /\ 0 <= 1 <= 6
  /\ well_formed_time (localized yekaterinburg material_created)
  /\ exists due next,
       calculate_next_repetition material_created 1 "Asia/Yekaterinburg" None
       = Return (due, next)
       /\ datetime_ltb (localized yekaterinburg material_created) due = true.
Proof.
  assert (well_formed_time (localized yekaterinburg material_created))
    as Hwf by (vm_compute; intuition discriminate).
  split; [reflexivity|]. split; [lia|]. split; [exact Hwf|].
  apply (calculate_next_repetition_after_creation material_created 1
           "Asia/Yekaterinburg" None yekaterinburg); [reflexivity|lia|exact Hwf].
Defined.

Lemma failure_and_success_compose_witness :
  get_tz "Asia/Yekaterinburg" = Return yekaterinburg
  /\ exists due_f stage_f due_fs,
       calculate_failed_repetition material_created 5 "Asia/Yekaterinburg"
       = Return (due_f, stage_f)
       /\ calculate_next_repetition material_created stage_f
            "Asia/Yekaterinburg" None
          = Return (due_fs, 5).
Proof.
  assert (get_tz "Asia/Yekaterinburg" = Return yekaterinburg) as Htz
    by reflexivity.
  split; [exact Htz|].
  destruct (failure_and_success_compose material_created material_created 5
              "Asia/Yekaterinburg" None yekaterinburg Htz)
    as (due_f & stage_f & due_fs & stage_fs & _ & _ & _ & _
        & Hf & Hfs & _ & _ & Hback & _).
  exists due_f, stage_f, due_fs. split; [exact Hf|].
  rewrite Hfs. by rewrite Hback by lia.
Defined.

Lemma valid_timezone_never_raises_witness :
  is_valid_timezone "Europe/Moscow" = true
  /\ (exists r, calculate_next_repetition material_created (-5)
                  "Europe/Moscow" None = Return r)
  /\ (exists r, calculate_failed_repetition material_created (-5)
                  "Europe/Moscow" = Return r).
Proof.
  split; [reflexivity|].
  apply (valid_timezone_never_raises "Europe/Moscow"). reflexivity.
Defined.

Lemma localize_datetime_zone_witness :
  pytz_has default_timezone = true
  /\ (exists tz r,
        localize_datetime material_created (Some "") = Return r
        /\ tzinfo_of r = Some tz
        /\ tz = PytzInfo default_timezone)
  /\ (exists tz r,
        localize_datetime material_created (Some "Atlantis") = Return r
        /\ tzinfo_of r = Some tz
        /\ tz = PytzInfo default_timezone).
Proof.
  assert (pytz_has default_timezone = true) as Hdef by reflexivity.
  split; [exact Hdef|]. split.
  - destruct (localize_datetime_zone material_created (Some "") Hdef)
      as (tz & r & _ & Hloc & Htz & Hnone & _).
    exists tz, r. split_and!; [done..|]. apply Hnone. by right.
  - destruct (localize_datetime_zone material_created (Some "Atlantis") Hdef)
      as (tz & r & _ & Hloc & Htz & _ & Hname).
    exists tz, r. split_and!; [done..|]. by apply (Hname "Atlantis").
Defined.

Lemma overdue_materials_are_due_witness :
  today_at (S (clock world_stale)) = today_at (clock world_stale)
  /\ exists (overdue due : list entry) (w' : World),
       (overdue ← get_overdue_repetitions (Some 123);
        due ← get_due_repetitions (Some 123) None;
        mret (overdue, due)) world_stale
       = (Return (overdue, due), w')
       /\ forall e : entry,
            e ∈ overdue ->
            exists e' : entry,
              e' ∈ due
              /\ RepetitionSchedule.material_id e'.2
                 = RepetitionSchedule.material_id e.2.
Proof.
  assert (today_at (S (clock world_stale)) = today_at (clock world_stale))
    as Hday by reflexivity.
  split; [exact Hday|].
  destruct (overdue_materials_are_due (Some 123) world_stale Hday)
    as (overdue & due & w' & Hrun & _ & Hcover).
  exists overdue, due, w'. split; [exact Hrun|].
  intros e He. destruct (Hcover e He) as (e' & Hin & Hm & _). eauto.
Defined.

Lemma due_is_upcoming_or_overdue_witness :
  123 <> 0
  /\ 0 <= 35
  /\ today_at (S (clock world_stale)) = today_at (clock world_stale)
  /\ today_at (S (S (clock world_stale))) = today_at (clock world_stale)
  /\ exists (due upcoming overdue : list entry) (w' : World),
       (due ← get_due_repetitions (Some 123) None;
        upcoming ← get_user_schedule 123 35 false;
        overdue ← get_overdue_repetitions (Some 123);
        mret (due, upcoming, overdue)) world_stale
       = (Return (due, upcoming, overdue), w')
       /\ (forall e : entry, e ∈ due -> e ∈ upcoming \/ e ∈ overdue).
Proof.
  split; [lia|]. split; [lia|]. split; [reflexivity|]. split; [reflexivity|].
  destruct (due_is_upcoming_or_overdue 123 35 world_stale)
    as (due & upcoming & overdue & w' & Hrun & _ & Hcover & _);
    [lia|lia|reflexivity|reflexivity|].
  exists due, upcoming, overdue, w'. split; [exact Hrun|exact Hcover].
Defined.

Lemma mark_failed_outcomes_witness :
  stats_unique (user_statistics (session world_day_1))
  /\ (exists w',
        mark_failed 123 1 None world_day_1 = (Raise DBAPIError, w')
        /\ session w' = persisted world_day_1
        /\ commits w' = commits world_day_1)
  /\ (exists w',
        mark_failed (H := lenient_platform) 123 1 None world_day_1
        = (Return true, w')
        /\ persisted w' = session w')
  /\ (exists w',
        mark_failed 123 1 None world_unknown_zone
        = (Raise UnknownTimeZoneError, w')
        /\ session w' = session world_unknown_zone
        /\ commits w' = commits world_unknown_zone).
Proof.
  split; [apply stats_unique_nil|]. split_and!.
  - pose proof (mark_failed_outcomes world_day_1 123 1 None
                  stats_unique_nil) as Hout.
    cbv zeta in Hout.
    destruct (mark_failed 123 1 None world_day_1) as [[[|]|e] w'] eqn:E.
    + exfalso. vm_compute in E. discriminate.
    + exfalso. vm_compute in E. discriminate.
    + destruct Hout as (m & _ & [(-> & Htz & _)|(-> & _ & _ & Hs & _ & Hc)]).
      * exfalso. vm_compute in Htz. discriminate.
      * exists w'. by split_and!.
  - pose proof (mark_failed_outcomes (H := lenient_platform) world_day_1
                  123 1 None stats_unique_nil) as Hout.
    cbv zeta in Hout.
    destruct (mark_failed (H := lenient_platform) 123 1 None world_day_1)
      as [[[|]|e] w'] eqn:E.
    + destruct Hout as (_ & _ & Hp & _). exists w'. by split.
    + exfalso. vm_compute in E. discriminate.
    + exfalso. vm_compute in E. discriminate.
  - pose proof (mark_failed_outcomes world_unknown_zone 123 1 None
                  stats_unique_nil) as Hout.
    cbv zeta in Hout.
    destruct (mark_failed 123 1 None world_unknown_zone)
      as [[[|]|e] w'] eqn:E.
    + exfalso. vm_compute in E. discriminate.
    + exfalso. vm_compute in E. discriminate.
    + destruct Hout as (m & _ & [(-> & _ & _ & Hs & _ & Hc)
                                |(-> & [z Hz] & _)]).
      * exists w'. by split_and!.
      * exfalso. vm_compute in Hz. discriminate.
Defined.

Lemma complete_repetition_missing_material_witness :
  select_incomplete (session world_no_material) 10 123 = Some day_1_entry
  /\ stats_unique (user_statistics (session world_no_material))
  /\ study_materials (session world_no_material) !! 1 = None
  /\ exists w',
       complete_repetition 10 123 true world_no_material = (Return true, w')
       /\ repetition_schedule_seq (session w') = 11
       /\ forall k r,
            repetition_schedule (session w') !! k = Some r ->
            RepetitionSchedule.is_completed r = false -> k <> 10.
Proof.
  assert (select_incomplete (session world_no_material) 10 123
          = Some day_1_entry) as Hsel by reflexivity.
  assert (study_materials (session world_no_material)
            !! RepetitionSchedule.material_id day_1_entry = None) as Hm
    by reflexivity.
  split; [exact Hsel|]. split; [apply stats_unique_nil|].
  split; [exact Hm|].
  destruct (complete_repetition_missing_material world_no_material 10 123 true
              day_1_entry Hsel stats_unique_nil Hm)
    as (w' & Hrun & _ & _ & Hseq & _ & _ & Hinc).
  exists w'. split; [exact Hrun|]. split; [exact Hseq|].
  intros k r Hk Hc. by destruct (Hinc k r Hk Hc).
Defined.

Lemma complete_repetition_unknown_timezone_witness :
  select_incomplete (session world_unknown_zone) 10 123 = Some day_1_entry
  /\ stats_unique (user_statistics (session world_unknown_zone))
  /\ study_materials (session world_unknown_zone) !! 1 = Some material_day_1
  /\ get_tz (timezone_of_user (session world_unknown_zone) 123)
     = Raise UnknownTimeZoneError
  /\ exists w',
       complete_repetition 10 123 true world_unknown_zone
       = (Raise UnknownTimeZoneError, w')
       /\ length (repetition_results (persisted w')) = 1%nat
       /\ complete_repetition 10 123 true w' = (Return false, w').
Proof.
  assert (select_incomplete (session world_unknown_zone) 10 123
          = Some day_1_entry) as Hsel by reflexivity.
  assert (study_materials (session world_unknown_zone)
            !! RepetitionSchedule.material_id day_1_entry
          = Some material_day_1) as Hm by reflexivity.
  assert (get_tz (timezone_of_user (session world_unknown_zone) 123)
          = Raise UnknownTimeZoneError) as Htz by reflexivity.
  split; [exact Hsel|]. split; [apply stats_unique_nil|].
  split; [exact Hm|]. split; [exact Htz|].
  destruct (complete_repetition_unknown_timezone world_unknown_zone 10 123
              true day_1_entry material_day_1 Hsel stats_unique_nil Hm Htz)
    as (w' & Hrun & _ & _ & Hres & _ & _ & _ & Hagain).
  exists w'. split; [exact Hrun|]. split; [by rewrite Hres|apply Hagain].
Defined.

Lemma create_initial_repetitions_unknown_timezone_witness :
  get_tz "Mars/Olympus" = Raise UnknownTimeZoneError
  /\ exists w',
       create_initial_repetitions 1 123 material_created (Some "Mars/Olympus")
         world_day_1
       = (Raise UnknownTimeZoneError, w')
       /\ persisted w' = persisted world_day_1
       /\ repetition_schedule (session w') !! 10 = None.
Proof.
  assert (get_tz "Mars/Olympus" = Raise UnknownTimeZoneError) as Htz
    by reflexivity.
  split; [exact Htz|].
  destruct (create_initial_repetitions_unknown_timezone world_day_1 1 123
              material_created (Some "Mars/Olympus") Htz)
    as (w' & Hrun & Hp & _ & _ & Hrows).
  exists w'. split; [exact Hrun|]. split; [exact Hp|].
  destruct (repetition_schedule (session w') !! 10) as [r|] eqn:Hr; [|done].
  apply Hrows in Hr as [Hr Hnot]. exfalso. apply Hnot.
  vm_compute in Hr. injection Hr as <-. by split_and!.
Defined.

Lemma completion_counters_witness :
  select_incomplete (session world_day_1) 10 123 = Some day_1_entry
  /\ stats_unique (user_statistics (session world_day_1))
  /\ study_materials (session world_day_1) !! 1 = Some material_day_1
  /\ get_tz (timezone_of_user (session world_day_1) 123) = Return yekaterinburg
  /\ (forall n, (clock world_day_1 <= n)%nat -> today_at n = ymd 2025 1 10)
  /\ (exists w',
        complete_repetition 10 123 false world_day_1 = (Raise DBAPIError, w')
        /\ counter UserStatistics.failed_repetitions 123 (ymd 2025 1 10)
             (user_statistics (persisted w')) = 1
        /\ length (repetition_results (persisted w')) = 1%nat)
  /\ (exists w',
        complete_repetition (H := lenient_platform) 10 123 false world_day_1
        = (Return true, w')
        /\ counter UserStatistics.failed_repetitions 123 (ymd 2025 1 10)
             (user_statistics (persisted w')) = 2
        /\ length (repetition_results (persisted w')) = 1%nat).
Proof.
  assert (select_incomplete (session world_day_1) 10 123 = Some day_1_entry)
    as Hsel by reflexivity.
  assert (study_materials (session world_day_1)
            !! RepetitionSchedule.material_id day_1_entry
          = Some material_day_1) as Hm by reflexivity.
  assert (get_tz (timezone_of_user (session world_day_1) 123)
          = Return yekaterinburg) as Htz by reflexivity.
  assert (get_tz (H := lenient_platform)
            (timezone_of_user (session world_day_1) 123)
          = Return yekaterinburg) as Htz' by reflexivity.
  assert (forall n, (clock world_day_1 <= n)%nat -> today_at n = ymd 2025 1 10)
    as Hday by (intros n _; reflexivity).
  assert (forall n, (clock world_day_1 <= n)%nat ->
            @today_at lenient_platform n = ymd 2025 1 10)
    as Hday' by (intros n _; reflexivity).
  split; [exact Hsel|]. split; [apply stats_unique_nil|].
  split; [exact Hm|]. split; [exact Htz|]. split; [exact Hday|]. split.
  - destruct (completion_counters world_day_1 10 123 false day_1_entry
                material_day_1 yekaterinburg (ymd 2025 1 10)
                Hsel stats_unique_nil Hm Htz Hday)
      as (due & next_stage & w' & _ & Hcase & _ & _ & _ & Hlen & _).
    store_cases Hcase.
    + destruct Hcase as (Hrun & _). exfalso. vm_compute in Hrun. discriminate.
    + destruct Hcase as (Hrun & Hf). exists w'. split; [exact Hrun|].
      split; [by rewrite Hf|exact Hlen].
  - destruct (completion_counters (H := lenient_platform) world_day_1 10 123
                false day_1_entry material_day_1 yekaterinburg (ymd 2025 1 10)
                Hsel stats_unique_nil Hm Htz' Hday')
      as (due & next_stage & w' & _ & Hcase & _ & _ & _ & Hlen & _).
    store_cases Hcase.
    + destruct Hcase as (Hrun & Hf). exists w'. split; [exact Hrun|].
      split; [by rewrite Hf|exact Hlen].
    + destruct Hcase as (Hrun & _). exfalso. vm_compute in Hrun. discriminate.
Defined.

Lemma sweep_idempotent_witness :
  stats_unique (user_statistics (session world_stale))
  /\ today_at (clock (auto_complete_expired_intraday_repetitions world_stale).2)
     = today_at (clock world_stale)
  /\ exists count w1,
       auto_complete_expired_intraday_repetitions world_stale
       = (Return count, w1)
       /\ (auto_complete_expired_intraday_repetitions w1).1 = Return 0.
Proof.
  assert (today_at
            (clock (auto_complete_expired_intraday_repetitions world_stale).2)
          = today_at (clock world_stale)) as Hday by reflexivity.
  split; [apply stats_unique_nil|]. split; [exact Hday|].
  destruct (sweep_idempotent world_stale stats_unique_nil Hday)
    as (count & Hrun & Hagain).
  exists count, (auto_complete_expired_intraday_repetitions world_stale).2.
  split; [exact Hrun|]. by rewrite Hagain.
Defined.

Lemma sweep_keeps_due_witness :
  stats_unique (user_statistics (session world_stale))
  /\ today_at (clock world_stale) <= ymd 2025 1 10
  /\ exists count w1 before after,
       auto_complete_expired_intraday_repetitions world_stale
       = (Return count, w1)
       /\ (get_due_repetitions None (Some (ymd 2025 1 10)) world_stale).1
          = Return before
       /\ (get_due_repetitions None (Some (ymd 2025 1 10)) w1).1
          = Return after
       /\ (forall m : Z,
             m ∈ map (fun e : entry => RepetitionSchedule.material_id e.2)
                   after
             <-> m ∈ map (fun e : entry => RepetitionSchedule.material_id e.2)
                       before).
Proof.
  assert (today_at (clock world_stale) <= ymd 2025 1 10) as Hle
    by apply Z.le_refl.
  split; [apply stats_unique_nil|]. split; [exact Hle|].
  destruct (sweep_keeps_due None (ymd 2025 1 10) world_stale
              stats_unique_nil Hle)
    as (count & w1 & before & after & Hrun & Hb & Ha & _ & Hsame).
  by exists count, w1, before, after.
Defined.

Lemma events_keep_well_formed_witness :
  wf (session world_day_1)
  /\ wf (persisted world_day_1)
  /\ wf (session (run_events some_events world_day_1))
  /\ wf (persisted (run_events some_events world_day_1)).
Proof.
  assert (wf db_day_1) as Hwf by (apply wf_check; vm_compute; reflexivity).
  split; [exact Hwf|]. split; [exact Hwf|].
  apply (events_keep_well_formed some_events world_day_1); exact Hwf.
Defined.

Lemma events_keep_history_witness :
  wf (session world_day_1)
  /\ persisted world_day_1 = session world_day_1
  /\ history_kept (session world_day_1)
       (persisted (run_events some_events world_day_1)).
Proof.
  assert (wf db_day_1) as Hwf by (apply wf_check; vm_compute; reflexivity).
  split; [exact Hwf|]. split; [reflexivity|].
  apply (events_keep_history some_events world_day_1); [exact Hwf|reflexivity].
Defined.

Lemma events_never_rewrite_witness :
  wf (session world_day_1)
  /\ persisted world_day_1 = session world_day_1
  /\ never_rewritten (session world_day_1)
       (persisted (run_events some_events world_day_1)).
Proof.
  assert (wf db_day_1) as Hwf by (apply wf_check; vm_compute; reflexivity).
  split; [exact Hwf|]. split; [reflexivity|].
  apply (events_never_rewrite some_events world_day_1); [exact Hwf|reflexivity].
Defined.

Lemma call_raise_causes_witness :
  wf (session world_day_1)
  /\ pytz_has default_timezone = true
  /\ (run_call (Complete_repetition 10 123 true) world_day_1).1
     = Some DBAPIError
  /\ (run_call (Mark_failed 123 1 None) world_day_1).1 = Some DBAPIError
  /\ (run_call (H := lenient_platform) (Complete_repetition 10 123 true)
        world_day_1).1 = None.
Proof.
  assert (wf db_day_1) as Hwf by (apply wf_check; vm_compute; reflexivity).
  assert (wf (H := lenient_platform) db_day_1) as Hwf'
    by (apply wf_check; vm_compute; reflexivity).
  assert (pytz_has default_timezone = true) as Hdef by reflexivity.
  assert (@pytz_has lenient_platform (@default_timezone lenient_platform)
          = true) as Hdef' by reflexivity.
  split; [exact Hwf|]. split; [exact Hdef|]. split_and!.
  - destruct (call_raise_causes (Complete_repetition 10 123 true)
                world_day_1 Hwf) as (_ & _ & Hrefused).
    apply (Hrefused Hdef I (fun _ => eq_refl) day_1_entry);
      [reflexivity|by eexists].
  - destruct (call_raise_causes (Mark_failed 123 1 None) world_day_1 Hwf)
      as (_ & _ & Hrefused).
    apply (Hrefused Hdef I (fun _ => eq_refl)). by eexists.
  - destruct (call_raise_causes (H := lenient_platform)
                (Complete_repetition 10 123 true) world_day_1 Hwf')
      as (_ & Haccepted & _).
    apply (Haccepted Hdef' I). intros dt. by eexists.
Defined.


Lemma get_material_schedule_with_history_spec_witness :
  results_match (session world_day_1)
  /\ exists info,
       get_material_schedule_with_history 123 1 world_day_1
       = (Return (Some info), world_day_1)
       /\ MaterialHistory.current_stage info = 3.
Proof.
  assert (wf db_day_1) as (_ & _ & _ & _ & _ & Hres)
    by (apply wf_check; vm_compute; reflexivity).
  split; [exact Hres|].
  destruct (get_material_schedule_with_history_spec 123 1 world_day_1 Hres)
    as (out & Hrun & Hnone & Hsome).
  destruct out as [info|].
  - exists info. split; [exact Hrun|].
    destruct (Hsome info eq_refl) as (material & all & Hm & _ & _ & Hs & _).
    rewrite Hs. vm_compute in Hm. by injection Hm as <-.
  - exfalso. apply (proj1 Hnone eq_refl material_day_1); reflexivity.
Defined.
